(** * odoo-journal: versioned journal entries, mood analytics, exports

    A shallow embedding of the journal add-on (models/journal_entry.py,
    models/journal_entry_version.py, models/journal_notebook.py,
    models/journal_tag.py, models/journal_mood_analysis.py,
    controllers/journal_controller.py).

    Records of the ORM are rows of an explicit [Store]; a recordset is the
    list of its ids; methods that write take the store and return the new
    one, or raise.  Python strings are [string]s holding the UTF-8 bytes of
    the text; the few builtins whose result depends on the Unicode tables
    or on a regular-expression engine are fields of the class [Runtime]. *)

From Stdlib Require Import ZArith List String Ascii Bool Lia QArith.
From Stdlib Require Import DecimalString Sorted Permutation Lqa.
Import ListNotations.
Local Open Scope string_scope.
Local Open Scope Z_scope.

(* ===================================================================== *)
(** ** Python builtins used by the add-on *)
(* ===================================================================== *)

Module Py.

(** The line feed, the carriage return and the double quote, which a
    string literal does not escape. *)
Definition LF : ascii := ascii_of_nat 10.
Definition CR : ascii := ascii_of_nat 13.
Definition DQ : ascii := ascii_of_nat 34.
Definition nl : string := String LF EmptyString.
Definition dq : string := String DQ EmptyString.

(** [q s] is [s] with every backquote turned into a double quote: the
    templates of the add-on are written with backquotes standing for the
    double quotes of the source (the source has no backquote). *)
Fixpoint q (s : string) : string :=
  match s with
  | EmptyString => EmptyString
  | String c t => String (if Ascii.eqb c "`"%char then DQ else c) (q t)
  end.

(** Truth value of a string: [if s:]. An empty Html or Char field reads
    as [False] in the ORM, which is falsy as well; both are [""] here. *)
Definition truthy (s : string) : bool :=
  match s with EmptyString => false | _ => true end.

(** [a or b] on strings. *)
Definition or_else (a b : string) : string := if truthy a then a else b.

(** [str(n)] for an int. *)
Definition str_int (n : Z) : string := NilZero.string_of_int (Z.to_int n).

(** [sep.join(l)] *)
Fixpoint join (sep : string) (l : list string) : string :=
  match l with
  | [] => ""
  | [x] => x
  | x :: t => x ++ sep ++ join sep t
  end.

(** [''.join(l)] *)
Definition concat_all (l : list string) : string := fold_right append "" l.

(** [s.startswith(p)] *)
Definition startswith (s p : string) : bool := String.prefix p s.

(** [s[1:]] *)
Definition tail1 (s : string) : string :=
  match s with EmptyString => EmptyString | String _ t => t end.

(** [c in s] for a one-character [c]. *)
Fixpoint contains_char (c : ascii) (s : string) : bool :=
  match s with
  | EmptyString => false
  | String d t => Ascii.eqb c d || contains_char c t
  end.

(** [s.replace(old, new)] for a non-empty [old]: occurrences are replaced
    from the left and do not overlap. [skip] counts the characters of a
    match still to be dropped. *)
Fixpoint replace_from (old new : string) (skip : nat) (s : string) : string :=
  match s with
  | EmptyString => EmptyString
  | String c t =>
      match skip with
      | S k => replace_from old new k t
      | O =>
          if String.prefix old s
          then new ++ replace_from old new (Nat.pred (String.length old)) t
          else String c (replace_from old new O t)
      end
  end.

(** With an empty [old], Python puts [new] before every character and at
    the end. *)
Fixpoint intersperse_all (new s : string) : string :=
  match s with
  | EmptyString => new
  | String c t => new ++ String c (intersperse_all new t)
  end.

Definition replace (s old new : string) : string :=
  match old with
  | EmptyString => intersperse_all new s
  | _ => replace_from old new O s
  end.

(** [sub in s] *)
Fixpoint contains (s sub : string) : bool :=
  String.prefix sub s
  || match s with
     | EmptyString => false
     | String _ t => contains t sub
     end.

(** [html.escape(s)] (quote=True), as in Lib/html/__init__.py. *)
Definition escape (s : string) : string :=
  let s := replace s "&" "&amp;" in
  let s := replace s "<" "&lt;" in
  let s := replace s ">" "&gt;" in
  let s := replace s dq "&quot;" in
  let s := replace s "'" "&#x27;" in
  s.

(** [re.sub(r'<[^>]+>', repl, s)]: a match starts at a ['<'] that is
    followed by at least one character other than ['>'] and, later, by a
    ['>']; it ends at the first such ['>'].  [inside] is true while the
    scan is within a match. *)
Definition tag_closes (t : string) : bool :=
  match t with
  | EmptyString => false
  | String d _ => negb (Ascii.eqb d ">"%char) && contains_char ">"%char t
  end.

Fixpoint sub_tags_from (repl : string) (inside : bool) (s : string) : string :=
  match s with
  | EmptyString => EmptyString
  | String c t =>
      if inside then
        (if Ascii.eqb c ">"%char then sub_tags_from repl false t
         else sub_tags_from repl true t)
      else if Ascii.eqb c "<"%char && tag_closes t
           then repl ++ sub_tags_from repl true t
           else String c (sub_tags_from repl false t)
  end.

Definition sub_tags (repl s : string) : string := sub_tags_from repl false s.

(** [s.translate(str.maketrans('', '', string.punctuation))]: the ASCII
    punctuation characters are deleted. *)
Definition is_punctuation (c : ascii) : bool :=
  let n := nat_of_ascii c in
  ((33 <=? n) && (n <=? 47) || (58 <=? n) && (n <=? 64)
   || (91 <=? n) && (n <=? 96) || (123 <=? n) && (n <=? 126))%nat.

Fixpoint remove_punctuation (s : string) : string :=
  match s with
  | EmptyString => EmptyString
  | String c t =>
      if is_punctuation c then remove_punctuation t
      else String c (remove_punctuation t)
  end.

(** [s.title()] on ASCII text: the first letter of every run of letters
    in upper case, the others in lower case. *)
Definition is_lower (c : ascii) : bool :=
  let n := nat_of_ascii c in ((97 <=? n) && (n <=? 122))%nat.
Definition is_upper (c : ascii) : bool :=
  let n := nat_of_ascii c in ((65 <=? n) && (n <=? 90))%nat.
Definition to_upper (c : ascii) : ascii :=
  if is_lower c then ascii_of_nat (nat_of_ascii c - 32) else c.
Definition to_lower (c : ascii) : ascii :=
  if is_upper c then ascii_of_nat (nat_of_ascii c + 32) else c.

Fixpoint title_from (in_word : bool) (s : string) : string :=
  match s with
  | EmptyString => EmptyString
  | String c t =>
      if is_lower c || is_upper c
      then String (if in_word then to_lower c else to_upper c) (title_from true t)
      else String c (title_from false t)
  end.

Definition title (s : string) : string := title_from false s.

(** [s.splitlines(keepends=True)].  Line boundaries: LF, CR, CR LF, VT,
    FF, FS, GS, RS, and NEL, LS and PS in their UTF-8 encoding.  [cur] is
    the current line, reversed; [skip] counts the remaining bytes of a
    boundary of several bytes. *)
Definition rev_string (l : list ascii) : string :=
  string_of_list_ascii (rev l).

Definition one_byte_boundary (c : ascii) : bool :=
  let n := nat_of_ascii c in
  ((n =? 10) || (n =? 11) || (n =? 12) || (n =? 28) || (n =? 29) || (n =? 30))%nat.

Definition boundary_length (s : string) : nat :=
  match s with
  | String c t =>
      if one_byte_boundary c then 1%nat
      else if Ascii.eqb c CR then
        match t with
        | String d _ => if Ascii.eqb d LF then 2%nat else 1%nat
        | EmptyString => 1%nat
        end
      else if String.prefix (String (ascii_of_nat 194) (String (ascii_of_nat 133) "")) s
      then 2%nat
      else if String.prefix
                (String (ascii_of_nat 226) (String (ascii_of_nat 128) (String (ascii_of_nat 168) ""))) s
              || String.prefix
                (String (ascii_of_nat 226) (String (ascii_of_nat 128) (String (ascii_of_nat 169) ""))) s
      then 3%nat
      else 0%nat
  | EmptyString => 0%nat
  end.

Fixpoint splitlines_from (cur : list ascii) (skip : nat) (s : string) : list string :=
  match s with
  | EmptyString =>
      match cur with [] => [] | _ => [rev_string cur] end
  | String c t =>
      match skip with
      | S (S k) => splitlines_from (c :: cur) (S k) t
      | S O => rev_string (c :: cur) :: splitlines_from [] O t
      | O =>
          match boundary_length s with
          | O => splitlines_from (c :: cur) O t
          | S O => rev_string (c :: cur) :: splitlines_from [] O t
          | S k => splitlines_from (c :: cur) k t
          end
      end
  end.

Definition splitlines (s : string) : list string := splitlines_from [] O s.

(** [len(s)] in code points: the bytes that do not continue a UTF-8
    sequence. *)
Fixpoint len (s : string) : Z :=
  match s with
  | EmptyString => 0
  | String c t =>
      let n := nat_of_ascii c in
      (if ((128 <=? n) && (n <=? 191))%nat then 0 else 1) + len t
  end.

End Py.

(* ===================================================================== *)
(** ** What the add-on takes from its platform *)
(* ===================================================================== *)

(** Library functions whose result rests on tables or engines outside the
    add-on: every theorem below holds for all of them.  Dates are day
    numbers ([date.toordinal()]), times are seconds. *)
Class Runtime := {
  (** [re.sub(pattern, repl, s)], with [re.IGNORECASE] when the flag is
      set; the one pattern that the diff renderer needs is [Py.sub_tags]. *)
  re_sub : string -> string -> string -> bool -> string;
  (** [_charref.sub(_replace_charref, s)] of [html.unescape]. *)
  charref_sub : string -> string;
  (** [s.strip()] and [s.split()] on Unicode white space. *)
  str_strip : string -> string;
  str_split : string -> list string;
  (** [d.strftime(format)] for a date and for a time; [str(t)] of a time. *)
  date_strftime : string -> Z -> string;
  datetime_strftime : string -> Z -> string;
  datetime_str : Z -> string;
  (** [d.replace(day=1)] and [d.replace(month=1, day=1)] *)
  first_of_month : Z -> Z;
  first_of_year : Z -> Z;
  (** [round(x, 2)] of a float, floats being read as the rationals they
      stand for. *)
  round2 : Q -> Q;
  (** [odoo.http.content_disposition(filename)] *)
  content_disposition : string -> string;
  (** The run of the external renderer on a page: the bytes of the PDF, or
      the message of the failure (a missing binary, a non-zero exit, a
      timeout, a temporary file that cannot be written). *)
  wkhtmltopdf : string -> string + string
}.

Module Html.
(** [html.unescape(s)], as in Lib/html/__init__.py. *)
Definition unescape `{Runtime} (s : string) : string :=
  if negb (Py.contains_char "&"%char s) then s else charref_sub s.
End Html.

(* ===================================================================== *)
(** ** Data model *)
(* ===================================================================== *)

(** The selection of [state]. *)
Inductive State := draft | published | archived.

Definition state_key (s : State) : string :=
  match s with
  | draft => "draft"
  | published => "published"
  | archived => "archived"
  end.

(** The selection of [mood]. *)
Inductive Mood :=
  happy | sad | excited | angry | peaceful | anxious | grateful | tired.

Definition mood_eqb (a b : Mood) : bool :=
  match a, b with
  | happy, happy | sad, sad | excited, excited | angry, angry
  | peaceful, peaceful | anxious, anxious | grateful, grateful
  | tired, tired => true
  | _, _ => false
  end.

Definition mood_key (m : Mood) : string :=
  match m with
  | happy => "happy" | sad => "sad" | excited => "excited"
  | angry => "angry" | peaceful => "peaceful" | anxious => "anxious"
  | grateful => "grateful" | tired => "tired"
  end.

(** [dict(self._fields['mood'].selection).get(mood, '')] *)
Definition mood_display (m : Mood) : string :=
  match m with
  | happy => "😊 Happy" | sad => "😢 Sad" | excited => "😃 Excited"
  | angry => "😠 Angry" | peaceful => "😌 Peaceful" | anxious => "😰 Anxious"
  | grateful => "🙏 Grateful" | tired => "😴 Tired"
  end.

(** A row of journal.entry.  [content] is [""] for an empty content. *)
Module Entry.
Record t := mk {
  id : Z;
  name : string;
  content : string;
  notebook_id : Z;
  tag_ids : list Z;
  user_id : Z;
  entry_date : Z;
  write_date : Z;
  state : State;
  mood : option Mood;
  is_favorite : bool;
  word_count : Z;
  char_count : Z;
  current_version : Z
}.
End Entry.

(** A row of journal.entry.version. *)
Module Version.
Record t := mk {
  id : Z;
  entry_id : Z;
  version_number : Z;
  content : string;
  word_count : Z;
  char_count : Z;
  created_by : Z;
  create_date : Z
}.
End Version.

(** A row of journal.notebook; [entry_ids] is read from the entries. *)
Module Notebook.
Record t := mk {
  id : Z;
  name : string;
  description : string;
  color : string;
  user_id : Z;
  active : bool
}.
End Notebook.

(** A row of journal.tag. *)
Module Tag.
Record t := mk {
  id : Z;
  name : string;
  active : bool
}.
End Tag.

(** The tables, each in the order in which its rows were created, and the
    counter from which the ids of new rows are taken. *)
Record Store := mkStore {
  entries : list Entry.t;
  versions : list Version.t;
  notebooks : list Notebook.t;
  tags : list Tag.t;
  next_id : Z
}.

(** [self.env]: the user of the request and the clock. *)
Record Env := mkEnv {
  env_user : Z;
  today : Z;
  now : Z
}.

(** What a method raises. *)
Inductive exn :=
| ValidationError (msg : string)
| UserError (msg : string)
| MissingError
| IntegrityError (msg : string)
| ValueError (msg : string).

Inductive result (A : Type) : Type :=
| Ok (a : A)
| Raise (e : exn).
Arguments Ok {A} a.
Arguments Raise {A} e.

Definition bind {A B} (m : result A) (k : A -> result B) : result B :=
  match m with
  | Ok a => k a
  | Raise e => Raise e
  end.

Notation "x <- m ;; k" := (bind m (fun x => k))
  (at level 61, m at next level, right associativity).

(** [for record in self: body], the store threaded through. *)
Fixpoint for_each {S : Type} (ids : list Z) (body : S -> Z -> result S) (st : S)
  : result S :=
  match ids with
  | [] => Ok st
  | i :: rest => st' <- body st i ;; for_each rest body st'
  end.

Definition find_entry (st : Store) (i : Z) : option Entry.t :=
  find (fun e => Entry.id e =? i) (entries st).

Definition find_version (st : Store) (i : Z) : option Version.t :=
  find (fun v => Version.id v =? i) (versions st).

Definition find_notebook (st : Store) (i : Z) : option Notebook.t :=
  find (fun n => Notebook.id n =? i) (notebooks st).

Definition find_tag (st : Store) (i : Z) : option Tag.t :=
  find (fun n => Tag.id n =? i) (tags st).

(** Reading a field of a record: a missing row raises. *)
Definition read_entry (st : Store) (i : Z) : result Entry.t :=
  match find_entry st i with
  | Some e => Ok e
  | None => Raise MissingError
  end.

Definition read_version (st : Store) (i : Z) : result Version.t :=
  match find_version st i with
  | Some v => Ok v
  | None => Raise MissingError
  end.

Definition set_entries (st : Store) (l : list Entry.t) : Store :=
  mkStore l (versions st) (notebooks st) (tags st) (next_id st).

Definition update_entry (st : Store) (i : Z) (f : Entry.t -> Entry.t) : Store :=
  set_entries st (map (fun e => if Entry.id e =? i then f e else e) (entries st)).

(** [entry.version_ids], [notebook.entry_ids] *)
Definition version_ids (st : Store) (entry : Z) : list Version.t :=
  filter (fun v => Version.entry_id v =? entry) (versions st).

Definition entry_ids (st : Store) (notebook : Z) : list Entry.t :=
  filter (fun e => Entry.notebook_id e =? notebook) (entries st).

(** [entry.notebook_id.name]; the field is required and an entry goes
    with its notebook, so that the notebook is there. *)
Definition notebook_name (st : Store) (e : Entry.t) : string :=
  match find_notebook st (Entry.notebook_id e) with
  | Some n => Notebook.name n
  | None => ""
  end.

(* ===================================================================== *)
(** ** Python dicts, [max] and numbers *)
(* ===================================================================== *)

(** A Python dict: the bindings in the order of the first insertion of
    their keys. *)
Module Dict.
Section Dict.
Variables K V : Type.
Variable eqb : K -> K -> bool.

Definition t := list (K * V).

(** [d.get(k, default)] *)
Fixpoint get (d : t) (k : K) (default : V) : V :=
  match d with
  | [] => default
  | (k', v) :: rest => if eqb k' k then v else get rest k default
  end.

(** [k in d] *)
Fixpoint has (d : t) (k : K) : bool :=
  match d with
  | [] => false
  | (k', _) :: rest => eqb k' k || has rest k
  end.

(** [d[k] = v]: a key that is there keeps its place. *)
Fixpoint set (d : t) (k : K) (v : V) : t :=
  match d with
  | [] => [(k, v)]
  | (k', v') :: rest =>
      if eqb k' k then (k', v) :: rest else (k', v') :: set rest k v
  end.

(** [list(d.keys())] *)
Definition keys (d : t) : list K := map fst d.

End Dict.
Arguments get {K V} eqb d k default.
Arguments has {K V} eqb d k.
Arguments set {K V} eqb d k v.
Arguments keys {K V} d.
End Dict.

(** [max(l, key=f)]: the first of the elements whose key is the greatest. *)
Definition max_by {K : Type} (f : K -> Z) (l : list K) : option K :=
  match l with
  | [] => None
  | x :: rest =>
      Some (fold_left (fun best y => if f best <? f y then y else best) rest x)
  end.

(** A number of Python: an int, or a float read as a rational. *)
Inductive num :=
| Int (z : Z)
| Float (x : Q).

Module Num.
(** [x > 0], [x < 0] *)
Definition positive (x : num) : bool :=
  match x with
  | Int z => 0 <? z
  | Float x => match (x ?= 0)%Q with Gt => true | _ => false end
  end.

Definition negative (x : num) : bool :=
  match x with
  | Int z => z <? 0
  | Float x => match (x ?= 0)%Q with Lt => true | _ => false end
  end.

(** [round(x, 2)]: an int is its own rounding. *)
Definition round `{Runtime} (x : num) : num :=
  match x with
  | Int z => Int z
  | Float x => Float (round2 x)
  end.
End Num.

(* ===================================================================== *)
(** ** difflib.unified_diff *)
(* ===================================================================== *)

(** [difflib.SequenceMatcher(None, a, b)] and [difflib.unified_diff] of
    the standard library (Lib/difflib.py), on lists of lines.  Without
    [isjunk] no element is junk, and the two loops of
    [find_longest_match] that absorb junk do nothing: they are left out. *)
Module Difflib.

Inductive Tag := replace | delete | insert | equal.

(** [Match(a, b, size)] and an opcode [(tag, i1, i2, j1, j2)]. *)
Definition Match : Type := nat * nat * nat.
Definition Opcode : Type := Tag * nat * nat * nat * nat.

(** A range [(alo, ahi, blo, bhi)] of the queue. *)
Definition Range : Type := nat * nat * nat * nat.

(** [l[i]] and [l[lo:hi]] *)
Definition item (l : list string) (i : nat) : string := nth i l "".

Definition slice {A : Type} (l : list A) (lo hi : nat) : list A :=
  firstn (hi - lo) (skipn lo l).

(** [enumerate(b)] *)
Definition enumerate {A : Type} (l : list A) : list (nat * A) :=
  combine (seq 0 (List.length l)) l.

(** [__chain_b]: for every element of [b] the indices at which it is, in
    increasing order; with 200 elements or more, the elements that occur
    more than [n // 100 + 1] times are left out. *)
Definition chain_step (b2j : Dict.t string (list nat)) (x : nat * string)
  : Dict.t string (list nat) :=
  Dict.set String.eqb b2j (snd x)
    (Dict.get String.eqb b2j (snd x) [] ++ [fst x])%list.

Definition chain_b (b : list string) : Dict.t string (list nat) :=
  let b2j := fold_left chain_step (enumerate b) [] in
  let n := List.length b in
  if (200 <=? n)%nat then
    let ntest := (n / 100 + 1)%nat in
    filter (fun kv => negb (ntest <? List.length (snd kv))%nat) b2j
  else b2j.

(** [j2len.get(j-1, 0)]: no key is negative. *)
Definition j2len_before (j2len : Dict.t nat nat) (j : nat) : nat :=
  match j with
  | O => O
  | S j' => Dict.get Nat.eqb j2len j' O
  end.

(** The loop [for j in b2j.get(a[i], nothing)] of [find_longest_match],
    with its [continue] and its [break]. *)
Fixpoint scan_row (j2len : Dict.t nat nat) (blo bhi i : nat) (js : list nat)
    (newj2len : Dict.t nat nat) (best : Match) : Dict.t nat nat * Match :=
  match js with
  | [] => (newj2len, best)
  | j :: rest =>
      if (j <? blo)%nat then scan_row j2len blo bhi i rest newj2len best
      else if (bhi <=? j)%nat then (newj2len, best)
      else
        let k := (j2len_before j2len j + 1)%nat in
        let newj2len := Dict.set Nat.eqb newj2len j k in
        let best :=
          let '(besti, bestj, bestsize) := best in
          if (bestsize <? k)%nat then ((i + 1 - k)%nat, (j + 1 - k)%nat, k)
          else best in
        scan_row j2len blo bhi i rest newj2len best
  end.

(** The loop [for i in range(alo, ahi)]. *)
Fixpoint scan_rows (a : list string) (b2j : Dict.t string (list nat))
    (blo bhi : nat) (rows : list nat) (j2len : Dict.t nat nat) (best : Match)
  : Match :=
  match rows with
  | [] => best
  | i :: rest =>
      let '(newj2len, best) :=
        scan_row j2len blo bhi i (Dict.get String.eqb b2j (item a i) []) [] best in
      scan_rows a b2j blo bhi rest newj2len best
  end.

(** The two loops that extend the match by equal elements, before and
    after.  Each turn of the first lowers [besti], each turn of the second
    raises [besti + bestsize]: [fuel] bounds the turns and is not
    exhausted when it is at least [besti], or [ahi]. *)
Fixpoint extend_before (a b : list string) (alo blo : nat) (fuel : nat)
    (best : Match) : Match :=
  let '(besti, bestj, bestsize) := best in
  match fuel with
  | O => best
  | S fuel =>
      if (alo <? besti)%nat && (blo <? bestj)%nat
         && String.eqb (item a (besti - 1)) (item b (bestj - 1))
      then extend_before a b alo blo fuel
             ((besti - 1)%nat, (bestj - 1)%nat, (bestsize + 1)%nat)
      else best
  end.

Fixpoint extend_after (a b : list string) (ahi bhi : nat) (fuel : nat)
    (best : Match) : Match :=
  let '(besti, bestj, bestsize) := best in
  match fuel with
  | O => best
  | S fuel =>
      if (besti + bestsize <? ahi)%nat && (bestj + bestsize <? bhi)%nat
         && String.eqb (item a (besti + bestsize)) (item b (bestj + bestsize))
      then extend_after a b ahi bhi fuel (besti, bestj, (bestsize + 1)%nat)
      else best
  end.

(** [find_longest_match(alo, ahi, blo, bhi)] *)
Definition find_longest_match (a b : list string)
    (b2j : Dict.t string (list nat)) (alo ahi blo bhi : nat) : Match :=
  let best := scan_rows a b2j blo bhi (seq alo (ahi - alo)) [] (alo, blo, O) in
  let best := extend_before a b alo blo (fst (fst best)) best in
  extend_after a b ahi bhi ahi best.

(** The loop [while queue] of [get_matching_blocks]; the head of [queue]
    is the range that [queue.pop()] takes.  [None]: [fuel] turns were not
    enough. *)
Fixpoint matching_loop (a b : list string) (b2j : Dict.t string (list nat))
    (fuel : nat) (queue : list Range) (matching_blocks : list Match)
  : option (list Match) :=
  match queue with
  | [] => Some matching_blocks
  | (alo, ahi, blo, bhi) :: queue =>
      match fuel with
      | O => None
      | S fuel =>
          let '(i, j, k) := find_longest_match a b b2j alo ahi blo bhi in
          match k with
          | O => matching_loop a b b2j fuel queue matching_blocks
          | S _ =>
              let matching_blocks := (matching_blocks ++ [(i, j, k)])%list in
              let queue :=
                if (alo <? i)%nat && (blo <? j)%nat
                then (alo, i, blo, j) :: queue else queue in
              let queue :=
                if (i + k <? ahi)%nat && (j + k <? bhi)%nat
                then ((i + k)%nat, ahi, (j + k)%nat, bhi) :: queue else queue in
              matching_loop a b b2j fuel queue matching_blocks
          end
      end
  end.

(** [matching_blocks.sort()]: the order of tuples. *)
Definition match_le (x y : Match) : bool :=
  let '(i1, j1, k1) := x in
  let '(i2, j2, k2) := y in
  (i1 <? i2)%nat
  || ((i1 =? i2)%nat && ((j1 <? j2)%nat || ((j1 =? j2)%nat && (k1 <=? k2)%nat))).

Fixpoint insert_match (x : Match) (l : list Match) : list Match :=
  match l with
  | [] => [x]
  | y :: rest => if match_le x y then x :: l else y :: insert_match x rest
  end.

Definition sort_matches (l : list Match) : list Match :=
  fold_right insert_match [] l.

(** The loop that collapses adjacent blocks; [(i1, j1, k1)] is the block
    to compare against. *)
Fixpoint collapse (blocks : list Match) (cur : Match) (non_adjacent : list Match)
  : list Match :=
  let '(i1, j1, k1) := cur in
  match blocks with
  | [] =>
      match k1 with
      | O => non_adjacent
      | S _ => (non_adjacent ++ [cur])%list
      end
  | (i2, j2, k2) :: rest =>
      if ((i1 + k1 =? i2) && (j1 + k1 =? j2))%nat
      then collapse rest (i1, j1, (k1 + k2)%nat) non_adjacent
      else
        collapse rest (i2, j2, k2)
          (match k1 with
           | O => non_adjacent
           | S _ => (non_adjacent ++ [cur])%list
           end)
  end.

(** [get_matching_blocks].  The loop ends within [2 * len(a) + 1] turns
    ([matching_loop_ends]), so that [None] does not occur. *)
Definition get_matching_blocks (a b : list string) : list Match :=
  let la := List.length a in
  let lb := List.length b in
  let matching_blocks :=
    match matching_loop a b (chain_b b) (2 * la + 1) [(O, la, O, lb)] [] with
    | Some l => l
    | None => []
    end in
  (collapse (sort_matches matching_blocks) (O, O, O) [] ++ [(la, lb, O)])%list.

(** [get_opcodes] *)
Fixpoint opcodes_from (blocks : list Match) (i j : nat) : list Opcode :=
  match blocks with
  | [] => []
  | (ai, bj, size) :: rest =>
      let changed :=
        if (i <? ai)%nat && (j <? bj)%nat then [(replace, i, ai, j, bj)]
        else if (i <? ai)%nat then [(delete, i, ai, j, bj)]
        else if (j <? bj)%nat then [(insert, i, ai, j, bj)]
        else [] in
      let i := (ai + size)%nat in
      let j := (bj + size)%nat in
      let same :=
        match size with
        | O => []
        | S _ => [(equal, ai, i, bj, j)]
        end in
      (changed ++ same ++ opcodes_from rest i j)%list
  end.

Definition get_opcodes (a b : list string) : list Opcode :=
  opcodes_from (get_matching_blocks a b) O O.

Definition is_equal (t : Tag) : bool :=
  match t with equal => true | _ => false end.

(** The fix of the first and of the last opcode in [get_grouped_opcodes]. *)
Definition fix_first (n : nat) (codes : list Opcode) : list Opcode :=
  match codes with
  | (equal, i1, i2, j1, j2) :: rest =>
      (equal, Nat.max i1 (i2 - n), i2, Nat.max j1 (j2 - n), j2) :: rest
  | _ => codes
  end.

Fixpoint fix_last (n : nat) (codes : list Opcode) : list Opcode :=
  match codes with
  | [] => []
  | [(equal, i1, i2, j1, j2)] =>
      [(equal, i1, Nat.min i2 (i1 + n), j1, Nat.min j2 (j1 + n))]
  | c :: rest => c :: fix_last n rest
  end.

(** The loop of [get_grouped_opcodes]: the groups yielded, in order. *)
Fixpoint group_codes (n : nat) (codes : list Opcode) (group : list Opcode)
  : list (list Opcode) :=
  match codes with
  | [] =>
      match group with
      | [] => []
      | [(equal, _, _, _, _)] => []
      | _ => [group]
      end
  | (tag, i1, i2, j1, j2) :: rest =>
      if is_equal tag && (n + n <? i2 - i1)%nat then
        (group ++ [(tag, i1, Nat.min i2 (i1 + n), j1, Nat.min j2 (j1 + n))])%list
        :: group_codes n rest [(tag, Nat.max i1 (i2 - n), i2, Nat.max j1 (j2 - n), j2)]
      else group_codes n rest (group ++ [(tag, i1, i2, j1, j2)])%list
  end.

(** [get_grouped_opcodes(n)] *)
Definition get_grouped_opcodes (a b : list string) (n : nat)
  : list (list Opcode) :=
  let codes := get_opcodes a b in
  let codes := match codes with [] => [(equal, 0, 1, 0, 1)%nat] | _ => codes end in
  let codes := fix_first n codes in
  let codes := fix_last n codes in
  group_codes n codes [].

Definition str_nat (n : nat) : string := Py.str_int (Z.of_nat n).

(** [_format_range_unified(start, stop)] *)
Definition _format_range_unified (start stop : nat) : string :=
  let beginning := (start + 1)%nat in
  let length := (stop - start)%nat in
  if (length =? 1)%nat then str_nat beginning
  else
    let beginning := if (length =? 0)%nat then (beginning - 1)%nat else beginning in
    str_nat beginning ++ "," ++ str_nat length.

(** The lines of one opcode. *)
Definition opcode_lines (a b : list string) (code : Opcode) : list string :=
  let '(tag, i1, i2, j1, j2) := code in
  match tag with
  | equal => map (fun line => " " ++ line) (slice a i1 i2)
  | replace =>
      let removed := map (fun line => "-" ++ line) (slice a i1 i2) in
      let added := map (fun line => "+" ++ line) (slice b j1 j2) in
      (removed ++ added)%list
  | delete => map (fun line => "-" ++ line) (slice a i1 i2)
  | insert => map (fun line => "+" ++ line) (slice b j1 j2)
  end.

(** The lines of one group, from the hunk header on. *)
Definition group_lines (a b : list string) (lineterm : string)
    (group : list Opcode) : list string :=
  match group, rev group with
  | (_, f1, _, f3, _) :: _, (_, _, l2, _, l4) :: _ =>
      let file1_range := _format_range_unified f1 l2 in
      let file2_range := _format_range_unified f3 l4 in
      ("@@ -" ++ file1_range ++ " +" ++ file2_range ++ " @@" ++ lineterm)
        :: flat_map (opcode_lines a b) group
  | _, _ => []
  end.

(** [unified_diff(a, b, fromfile, tofile, n=n)], the dates empty and
    [lineterm] the line feed: the lines yielded. *)
Definition unified_diff (a b : list string) (fromfile tofile : string) (n : nat)
  : list string :=
  let lineterm := Py.nl in
  match get_grouped_opcodes a b n with
  | [] => []
  | groups =>
      ("--- " ++ fromfile ++ lineterm)
        :: ("+++ " ++ tofile ++ lineterm)
        :: flat_map (group_lines a b lineterm) groups
  end.

End Difflib.

(* ===================================================================== *)
(** ** models/journal_entry.py *)
(* ===================================================================== *)

(** The [vals] of [create] and [write]: a field is [None] when the dict
    has no such key. *)
Module Vals.
Record t := mk {
  name : option string;
  content : option string;
  notebook_id : option Z;
  tag_ids : option (list Z);
  user_id : option Z;
  entry_date : option Z;
  state : option State;
  mood : option (option Mood);
  is_favorite : option bool;
  word_count : option Z;
  char_count : option Z;
  current_version : option Z
}.

Definition empty : t :=
  mk None None None None None None None None None None None None.

(** [{'content': c}], [{'current_version': n}] and the dict of
    [action_restore_version]. *)
Definition of_content (c : string) : t :=
  mk None (Some c) None None None None None None None None None None.

Definition of_current_version (n : Z) : t :=
  mk None None None None None None None None None None None (Some n).

Definition of_snapshot (c : string) (w k : Z) : t :=
  mk None (Some c) None None None None None None None (Some w) (Some k) None.

(** ['content' in vals] *)
Definition has_content (v : t) : bool :=
  match content v with Some _ => true | None => false end.
End Vals.

Definition get_or {A} (o : option A) (d : A) : A :=
  match o with Some a => a | None => d end.

Module JournalEntry.

Definition block_elements : list string :=
  ["p"; "div"; "br"; "li"; "h1"; "h2"; "h3"; "h4"; "h5"; "h6"].

(** [_compute_word_count], for one record: the word count and the
    character count of a content.  The [except] branch of the source is
    not reached, none of the calls raising on a string. *)
Definition _compute_word_count `{Runtime} (content : string) : Z * Z :=
  if Py.truthy content then
    let content_with_spaces :=
      fold_left
        (fun s element =>
           let s := re_sub ("</" ++ element ++ ">") " " s true in
           re_sub ("<" ++ element ++ "[^>]*/?>") " " s true)
        block_elements content in
    let text_content := Py.sub_tags "" content_with_spaces in
    let text_content := Html.unescape text_content in
    let text_content := re_sub "\s+" " " text_content false in
    let text_content := str_strip text_content in
    if Py.truthy text_content then
      let text_without_punctuation := Py.remove_punctuation text_content in
      let words := filter Py.truthy (str_split text_without_punctuation) in
      (Z.of_nat (List.length words), Py.len text_content)
    else (0, 0)
  else (0, 0).

(** The constraints. *)
Definition _check_entry_date (env : Env) (entry : Entry.t) : result unit :=
  if today env <? Entry.entry_date entry
  then Raise (ValidationError "Entry date cannot be in the future.")
  else Ok tt.

Definition _check_name_length `{Runtime} (entry : Entry.t) : result unit :=
  if Py.len (str_strip (Entry.name entry)) <? 2
  then Raise (ValidationError "Title must be at least 2 characters long.")
  else Ok tt.

(** The ORM's assignment of [vals] to a row.  The stored computed counts
    follow the new content, unless [vals] gives them; [write_date] is the
    time of the write. *)
Definition assign `{Runtime} (env : Env) (vals : Vals.t) (e : Entry.t)
  : Entry.t :=
  let content := get_or (Vals.content vals) (Entry.content e) in
  let recomputed (old : Z) (new : Z) :=
    if Vals.has_content vals then new else old in
  Entry.mk
    (Entry.id e)
    (get_or (Vals.name vals) (Entry.name e))
    content
    (get_or (Vals.notebook_id vals) (Entry.notebook_id e))
    (get_or (Vals.tag_ids vals) (Entry.tag_ids e))
    (get_or (Vals.user_id vals) (Entry.user_id e))
    (get_or (Vals.entry_date vals) (Entry.entry_date e))
    (now env)
    (get_or (Vals.state vals) (Entry.state e))
    (get_or (Vals.mood vals) (Entry.mood e))
    (get_or (Vals.is_favorite vals) (Entry.is_favorite e))
    (get_or (Vals.word_count vals)
       (recomputed (Entry.word_count e) (fst (_compute_word_count content))))
    (get_or (Vals.char_count vals)
       (recomputed (Entry.char_count e) (snd (_compute_word_count content))))
    (get_or (Vals.current_version vals) (Entry.current_version e)).

(** The constraints that the ORM runs after a write: those of the fields
    in [vals]. *)
Definition validate `{Runtime} (env : Env) (vals : Vals.t) (st : Store) (i : Z)
  : result Store :=
  e <- read_entry st i ;;
  _ <- match Vals.entry_date vals with
       | Some _ => _check_entry_date env e
       | None => Ok tt
       end ;;
  _ <- match Vals.name vals with
       | Some _ => _check_name_length e
       | None => Ok tt
       end ;;
  Ok st.

(** [super().write(vals)]: the rows are assigned, then validated. *)
Definition super_write `{Runtime} (env : Env) (st : Store) (self : list Z)
    (vals : Vals.t) : result Store :=
  st <- for_each self
          (fun st i => _ <- read_entry st i ;; Ok (update_entry st i (assign env vals)))
          st ;;
  for_each self (validate env vals) st.

(** [self.env['journal.entry.version'].create(version_vals)], with the
    constraint [unique_version_per_entry]. *)
Definition version_create (env : Env) (st : Store)
    (entry_id version_number : Z) (content : string)
    (word_count char_count created_by : Z) : result Store :=
  if existsb
       (fun v => (Version.entry_id v =? entry_id)
                 && (Version.version_number v =? version_number))
       (versions st)
  then Raise (IntegrityError "Version number must be unique per entry.")
  else
    let v := Version.mk (next_id st) entry_id version_number content
               word_count char_count created_by (now env) in
    Ok (mkStore (entries st) (versions st ++ [v]) (notebooks st) (tags st)
          (next_id st + 1)).

(** [_create_version].  The assignment [record.current_version += 1] is a
    write of that one field; as its [vals] have no content, the overridden
    [write] below does for it what [super().write] does
    ([write_without_content]). *)
Definition _create_version `{Runtime} (env : Env) (st : Store) (self : list Z)
  : result Store :=
  for_each self
    (fun st i =>
       record <- read_entry st i ;;
       if Py.truthy (Entry.content record) then
         st <- version_create env st
                 (Entry.id record)
                 (Entry.current_version record)
                 (Entry.content record)
                 (Entry.word_count record)
                 (Entry.char_count record)
                 (env_user env) ;;
         super_write env st [i]
           (Vals.of_current_version (Entry.current_version record + 1))
       else Ok st)
    st.

(** [create]: the ORM's create, with the defaults of the fields; [name]
    and [notebook_id] are required, and the notebook must exist. *)
Definition create `{Runtime} (env : Env) (st : Store) (vals : Vals.t)
  : result (Z * Store) :=
  match Vals.name vals, Vals.notebook_id vals with
  | Some name, Some notebook_id =>
      match find_notebook st notebook_id with
      | None => Raise (IntegrityError "notebook_id")
      | Some _ =>
          let content := get_or (Vals.content vals) "" in
          let i := next_id st in
          let record :=
            Entry.mk i name content notebook_id
              (get_or (Vals.tag_ids vals) [])
              (get_or (Vals.user_id vals) (env_user env))
              (get_or (Vals.entry_date vals) (today env))
              (now env)
              (get_or (Vals.state vals) draft)
              (get_or (Vals.mood vals) None)
              (get_or (Vals.is_favorite vals) false)
              (get_or (Vals.word_count vals) (fst (_compute_word_count content)))
              (get_or (Vals.char_count vals) (snd (_compute_word_count content)))
              (get_or (Vals.current_version vals) 1) in
          _ <- _check_entry_date env record ;;
          _ <- _check_name_length record ;;
          Ok (i, mkStore (entries st ++ [record]) (versions st) (notebooks st)
                   (tags st) (i + 1))
      end
  | _, _ => Raise (IntegrityError "required")
  end.

(** [write] *)
Definition write `{Runtime} (env : Env) (st : Store) (self : list Z)
    (vals : Vals.t) : result Store :=
  st <- (if Vals.has_content vals then _create_version env st self else Ok st) ;;
  super_write env st self vals.

(** [self.ensure_one()] *)
Definition ensure_one (self : list Z) : result Z :=
  match self with
  | [i] => Ok i
  | _ => Raise (ValueError "Expected singleton")
  end.

(** [action_restore_version]; it returns [True]. *)
Definition action_restore_version `{Runtime} (env : Env) (st : Store)
    (self : list Z) (version_id : Z) : result Store :=
  i <- ensure_one self ;;
  version <- read_version st version_id ;;
  if Version.entry_id version =? i then
    st <- _create_version env st self ;;
    write env st self
      (Vals.of_snapshot (Version.content version)
         (Version.word_count version) (Version.char_count version))
  else Ok st.

(** [', '.join(self.tag_ids.mapped('name'))]; the tags are read in the
    order of [tag_ids]. *)
Definition tag_names (st : Store) (entry : Entry.t) : list string :=
  flat_map
    (fun i => match find_tag st i with Some t => [Tag.name t] | None => [] end)
    (Entry.tag_ids entry).

(** [_get_clean_content_text] *)
Definition _get_clean_content_text `{Runtime} (entry : Entry.t) : string :=
  if negb (Py.truthy (Entry.content entry)) then ""
  else
    let text_content := re_sub "<br\s*/?>" Py.nl (Entry.content entry) true in
    let text_content := re_sub "<p[^>]*>" Py.nl text_content true in
    let text_content := re_sub "</p>" (Py.nl ++ Py.nl) text_content true in
    let text_content := re_sub "<h[1-6][^>]*>" (Py.nl ++ "# ") text_content true in
    let text_content := re_sub "</h[1-6]>" (Py.nl ++ Py.nl) text_content true in
    let text_content := re_sub "<strong[^>]*>" "**" text_content true in
    let text_content := re_sub "</strong>" "**" text_content true in
    let text_content := re_sub "<em[^>]*>" "*" text_content true in
    let text_content := re_sub "</em>" "*" text_content true in
    let text_content := Py.sub_tags "" text_content in
    let text_content := Html.unescape text_content in
    let text_content := re_sub "\n\s*\n" (Py.nl ++ Py.nl) text_content false in
    str_strip text_content.

(** [_generate_markdown_content] *)
Definition _generate_markdown_content `{Runtime} (env : Env) (st : Store)
    (entry : Entry.t) : string :=
  let markdown := "# " ++ Entry.name entry ++ Py.nl ++ Py.nl in
  let markdown := markdown ++ "## Metadata" ++ Py.nl ++ Py.nl in
  let markdown :=
    markdown ++ "- **Date:** "
    ++ date_strftime "%Y-%m-%d" (Entry.entry_date entry) ++ Py.nl in
  let markdown :=
    markdown ++ "- **Notebook:** " ++ notebook_name st entry ++ Py.nl in
  let markdown :=
    match Entry.tag_ids entry with
    | _ :: _ =>
        let tags := Py.join ", " (tag_names st entry) in
        markdown ++ "- **Tags:** " ++ tags ++ Py.nl
    | [] => markdown
    end in
  let markdown :=
    match Entry.mood entry with
    | Some mood => markdown ++ "- **Mood:** " ++ mood_display mood ++ Py.nl
    | None => markdown
    end in
  let markdown :=
    markdown ++ "- **Status:** " ++ Py.title (state_key (Entry.state entry))
    ++ Py.nl in
  let markdown :=
    if Entry.is_favorite entry then markdown ++ "- **Favorite:** ⭐" ++ Py.nl
    else markdown in
  let markdown :=
    markdown ++ "- **Words:** " ++ Py.str_int (Entry.word_count entry) ++ Py.nl in
  let markdown :=
    markdown ++ "- **Characters:** " ++ Py.str_int (Entry.char_count entry)
    ++ Py.nl in
  let markdown :=
    markdown ++ "- **Version:** " ++ Py.str_int (Entry.current_version entry - 1)
    ++ Py.nl in
  let markdown := markdown ++ Py.nl ++ "## Content" ++ Py.nl ++ Py.nl in
  let markdown := markdown ++ _get_clean_content_text entry in
  let markdown :=
    markdown ++ Py.nl ++ Py.nl ++ "---" ++ Py.nl ++ "*Exported from Journal on "
    ++ datetime_strftime "%Y-%m-%d %H:%M" (now env) ++ "*" in
  markdown.

(** [_generate_pdf_html_content] *)
Definition _generate_pdf_html_content `{Runtime} (env : Env) (st : Store)
    (entry : Entry.t) : string :=
  let html_content :=
  Py.q "<!DOCTYPE html>
<html>
<head>
    <meta charset=`UTF-8`>
    <title>"
  ++ (Py.escape (Entry.name entry))
  ++ Py.q "</title>
    <style>
        @page {
            margin: 2cm;
            size: A4;
        }
        body {
            font-family: `DejaVu Sans`, `Arial`, sans-serif;
            font-size: 12px;
            line-height: 1.4;
            color: #000000;
            margin: 0;
            padding: 0;
        }
        .header {
            border-bottom: 3px solid #333333;
            padding-bottom: 15px;
            margin-bottom: 25px;
        }
        .title {
            font-size: 20px;
            font-weight: bold;
            color: #000000;
            text-align: center;
            margin: 0;
        }
        .metadata {
            background: #f8f9fa;
            border: 1px solid #dee2e6;
            padding: 15px;
            margin: 20px 0;
            border-radius: 4px;
        }
        .metadata-row {
            margin: 6px 0;
            display: flex;
        }
        .metadata-label {
            font-weight: bold;
            min-width: 100px;
            color: #495057;
        }
        .metadata-value {
            flex: 1;
        }
        .content {
            margin-top: 25px;
        }
        .content p {
            margin-bottom: 12px;
        }
        .content h1, .content h2, .content h3 {
            margin-top: 20px;
            margin-bottom: 10px;
            color: #000000;
        }
        .footer {
            margin-top: 40px;
            padding-top: 15px;
            border-top: 1px solid #cccccc;
            color: #666666;
            font-size: 10px;
            text-align: center;
        }
        .no-content {
            font-style: italic;
            color: #6c757d;
            text-align: center;
            margin: 40px 0;
        }
    </style>
</head>
<body>
    <div class=`header`>
        <h1 class=`title`>"
  ++ (Py.escape (Entry.name entry))
  ++ Py.q "</h1>
    </div>

    <div class=`metadata`>
        <div class=`metadata-row`>
            <span class=`metadata-label`>Date:</span>
            <span class=`metadata-value`>"
  ++ (date_strftime "%B %d, %Y" (Entry.entry_date entry))
  ++ Py.q "</span>
        </div>
        <div class=`metadata-row`>
            <span class=`metadata-label`>Notebook:</span>
            <span class=`metadata-value`>"
  ++ (Py.escape (notebook_name st entry))
  ++ "</span>
        </div>
" in
  let html_content :=
    match Entry.tag_ids entry with
    | _ :: _ =>
        let tags := Py.join ", " (tag_names st entry) in
        html_content ++
  Py.q "        <div class=`metadata-row`>
            <span class=`metadata-label`>Tags:</span>
            <span class=`metadata-value`>"
  ++ (Py.escape tags)
  ++ "</span>
        </div>
"
    | [] => html_content
    end in
  let html_content :=
    match Entry.mood entry with
    | Some mood =>
        html_content ++
  Py.q "        <div class=`metadata-row`>
            <span class=`metadata-label`>Mood:</span>
            <span class=`metadata-value`>"
  ++ (Py.escape (mood_display mood))
  ++ "</span>
        </div>
"
    | None => html_content
    end in
  let html_content :=
    html_content ++
  Py.q "        <div class=`metadata-row`>
            <span class=`metadata-label`>Status:</span>
            <span class=`metadata-value`>"
  ++ (Py.title (state_key (Entry.state entry)))
  ++ Py.q "</span>
        </div>
"
  ++ Py.q "        <div class=`metadata-row`>
            <span class=`metadata-label`>Favorite:</span>
            <span class=`metadata-value`>"
  ++ (if Entry.is_favorite entry then "⭐ Yes" else "No")
  ++ Py.q "</span>
        </div>
"
  ++ Py.q "        <div class=`metadata-row`>
            <span class=`metadata-label`>Words:</span>
            <span class=`metadata-value`>"
  ++ (Py.str_int (Entry.word_count entry))
  ++ Py.q "</span>
        </div>
"
  ++ Py.q "        <div class=`metadata-row`>
            <span class=`metadata-label`>Characters:</span>
            <span class=`metadata-value`>"
  ++ (Py.str_int (Entry.char_count entry))
  ++ Py.q "</span>
        </div>
"
  ++ Py.q "        <div class=`metadata-row`>
            <span class=`metadata-label`>Version:</span>
            <span class=`metadata-value`>"
  ++ (Py.str_int (Entry.current_version entry - 1))
  ++ Py.q "</span>
        </div>
"
  ++ Py.q "    </div>

    <div class=`content`>
        "
  ++ (if Py.truthy (Entry.content entry) then Entry.content entry else Py.q "<p class=`no-content`>No content available</p>")
  ++ Py.q "
    </div>

    <div class=`footer`>
        Exported from Journal on "
  ++ (datetime_strftime "%B %d, %Y at %H:%M" (now env))
  ++ "
    </div>
</body>
</html>" in
  html_content.

End JournalEntry.

(* ===================================================================== *)
(** ** models/journal_notebook.py *)
(* ===================================================================== *)

Module JournalNotebook.

(** [i in ids] *)
Definition mem (i : Z) (ids : list Z) : bool := existsb (Z.eqb i) ids.

(** [self.entry_ids] of a recordset of notebooks. *)
Definition entry_ids_of (st : Store) (self : list Z) : list Entry.t :=
  filter (fun e => mem (Entry.notebook_id e) self) (entries st).

(** [entries.unlink()]: journal.entry does not override it; the rows go,
    and their versions with them ([ondelete='cascade']). *)
Definition unlink_entries (st : Store) (ids : list Z) : Store :=
  mkStore
    (filter (fun e => negb (mem (Entry.id e) ids)) (entries st))
    (filter (fun v => negb (mem (Version.entry_id v) ids)) (versions st))
    (notebooks st) (tags st) (next_id st).

(** [super().unlink()] of notebooks: the rows go, and with them the
    entries that refer to them ([ondelete='cascade'] of [notebook_id]). *)
Definition super_unlink (st : Store) (self : list Z) : Store :=
  let st := unlink_entries st (map Entry.id (entry_ids_of st self)) in
  mkStore (entries st) (versions st)
    (filter (fun n => negb (mem (Notebook.id n) self)) (notebooks st))
    (tags st) (next_id st).

Definition still_has_entries : string :=
  "Cannot delete notebook that still has entries. Use the 'Delete Notebook' button instead.".

(** [unlink] *)
Definition unlink (st : Store) (self : list Z) : result Store :=
  st <- for_each self
          (fun st notebook =>
             match entry_ids st notebook with
             | _ :: _ => Raise (UserError still_has_entries)
             | [] => Ok st
             end)
          st ;;
  Ok (super_unlink st self).

(** [action_delete]; the action that it returns is the one of the list of
    notebooks, read from the data of the add-on before anything is
    deleted. *)
Definition action_delete (st : Store) (self : list Z) : result (string * Store) :=
  let action := "journal.action_journal_notebooks" in
  let st :=
    match entry_ids_of st self with
    | _ :: _ => unlink_entries st (map Entry.id (entry_ids_of st self))
    | [] => st
    end in
  st <- unlink st self ;;
  Ok (action, st).

End JournalNotebook.

(* ===================================================================== *)
(** ** models/journal_mood_analysis.py *)
(* ===================================================================== *)

Module MoodAnalysis.

(** An entry of [mood_trends]. *)
Record Trend := mkTrend {
  recent_count : Z;
  previous_count : Z;
  trend_percentage : num;
  trend_direction : string
}.

(** The dict that [get_mood_statistics] returns; [period] is [None] when
    the dict has no such key. *)
Record Statistics := mkStatistics {
  total_entries : Z;
  mood_counts : Dict.t Mood Z;
  mood_percentages : Dict.t Mood num;
  most_common_mood : option Mood;
  mood_trends : Dict.t Mood Trend;
  notebook_breakdown : Dict.t string (Dict.t Mood Z);
  period : option string
}.

(** The order of journal.entry, ['entry_date desc, write_date desc']:
    [a] does not come after [b]. *)
Definition before (a b : Entry.t) : bool :=
  (Entry.entry_date b <? Entry.entry_date a)
  || ((Entry.entry_date b =? Entry.entry_date a)
      && (Entry.write_date b <=? Entry.write_date a)).

Fixpoint insert_ordered (e : Entry.t) (l : list Entry.t) : list Entry.t :=
  match l with
  | [] => [e]
  | x :: rest => if before e x then e :: l else x :: insert_ordered e rest
  end.

(** [self.env['journal.entry'].search(domain)] *)
Definition search (st : Store) (domain : Entry.t -> bool) : list Entry.t :=
  fold_right insert_ordered [] (filter domain (entries st)).

Definition has_mood (e : Entry.t) : bool :=
  match Entry.mood e with Some _ => true | None => false end.

(** The moods of a list of entries, the entries without mood left out. *)
Fixpoint moods_of (l : list Entry.t) : list Mood :=
  match l with
  | [] => []
  | e :: rest =>
      match Entry.mood e with
      | Some m => m :: moods_of rest
      | None => moods_of rest
      end
  end.

(** [counts[mood] = counts.get(mood, 0) + 1], and the loop
    [for entry in entries] around it. *)
Definition count_step (counts : Dict.t Mood Z) (mood : Mood) : Dict.t Mood Z :=
  Dict.set mood_eqb counts mood (Dict.get mood_eqb counts mood 0 + 1).

Definition count_moods (l : list Mood) : Dict.t Mood Z :=
  fold_left count_step l [].

(** [user_id or self.env.user.id] *)
Definition user_or_self (env : Env) (user_id : option Z) : Z :=
  match user_id with
  | Some u => if u =? 0 then env_user env else u
  | None => env_user env
  end.

(** The trend, before it is rounded. *)
Definition trend_of (recent_count previous_count : Z) : num :=
  if previous_count =? 0
  then Int (if 0 <? recent_count then 100 else 0)
  else Float ((inject_Z (recent_count - previous_count) / inject_Z previous_count)
              * inject_Z 100)%Q.

Definition trend_entry `{Runtime} (recent_count previous_count : Z) : Trend :=
  let trend := trend_of recent_count previous_count in
  mkTrend recent_count previous_count (Num.round trend)
    (if Num.positive trend then "up"
     else if Num.negative trend then "down" else "stable").

(** [set(a + b)], read in the order of the first occurrences; Python gives
    no order to a set, and no property below rests on this one. *)
Fixpoint distinct (seen : list Mood) (l : list Mood) : list Mood :=
  match l with
  | [] => []
  | m :: rest =>
      if existsb (mood_eqb m) seen then distinct seen rest
      else m :: distinct (m :: seen) rest
  end.

(** [_calculate_mood_trends] *)
Definition _calculate_mood_trends `{Runtime} (env : Env) (st : Store) (user_id : Z)
  : Dict.t Mood Trend :=
  let end_date := today env in
  let recent_start := end_date - 7 in
  let previous_start := recent_start - 7 in
  let recent_entries :=
    search st (fun e => (Entry.user_id e =? user_id) && has_mood e
                        && (recent_start <=? Entry.entry_date e)
                        && (Entry.entry_date e <=? end_date)) in
  let previous_entries :=
    search st (fun e => (Entry.user_id e =? user_id) && has_mood e
                        && (previous_start <=? Entry.entry_date e)
                        && (Entry.entry_date e <? recent_start)) in
  let recent_counts := count_moods (moods_of recent_entries) in
  let previous_counts := count_moods (moods_of previous_entries) in
  let all_moods :=
    distinct [] (Dict.keys recent_counts ++ Dict.keys previous_counts)%list in
  fold_left
    (fun trends mood =>
       let recent_count := Dict.get mood_eqb recent_counts mood 0 in
       let previous_count := Dict.get mood_eqb previous_counts mood 0 in
       Dict.set mood_eqb trends mood (trend_entry recent_count previous_count))
    all_moods [].

(** The domain of [get_mood_statistics]. *)
Definition in_period `{Runtime} (env : Env) (user_id : Z) (period : string)
    (e : Entry.t) : bool :=
  (Entry.user_id e =? user_id)
  && (if String.eqb period "week" then today env - 7 <=? Entry.entry_date e
      else if String.eqb period "month"
           then first_of_month (today env) <=? Entry.entry_date e
      else if String.eqb period "year"
           then first_of_year (today env) <=? Entry.entry_date e
      else true).

(** [mood_entries] of [get_mood_statistics] *)
Definition mood_entries `{Runtime} (env : Env) (st : Store) (user_id : option Z)
    (period : string) : list Entry.t :=
  let user_id := user_or_self env user_id in
  let entries := search st (in_period env user_id period) in
  filter has_mood entries.

(** [get_mood_statistics] *)
Definition get_mood_statistics `{Runtime} (env : Env) (st : Store)
    (user_id : option Z) (period : string) : Statistics :=
  let mood_entries := mood_entries env st user_id period in
  let user_id := user_or_self env user_id in
  match mood_entries with
  | [] => mkStatistics 0 [] [] None [] [] None
  | _ :: _ =>
      let mood_counts := count_moods (moods_of mood_entries) in
      let total_entries := Z.of_nat (List.length mood_entries) in
      let mood_percentages :=
        fold_left
          (fun percentages mc =>
             Dict.set mood_eqb percentages (fst mc)
               (Num.round
                  (Float ((inject_Z (snd mc) / inject_Z total_entries)
                          * inject_Z 100)%Q)))
          mood_counts [] in
      let most_common_mood :=
        max_by (fun m => Dict.get mood_eqb mood_counts m 0) (Dict.keys mood_counts) in
      let mood_trends := _calculate_mood_trends env st user_id in
      let notebook_breakdown :=
        fold_left
          (fun breakdown entry =>
             match Entry.mood entry with
             | None => breakdown
             | Some mood =>
                 let notebook_name := notebook_name st entry in
                 let breakdown :=
                   if Dict.has String.eqb breakdown notebook_name then breakdown
                   else Dict.set String.eqb breakdown notebook_name [] in
                 let moods := Dict.get String.eqb breakdown notebook_name [] in
                 Dict.set String.eqb breakdown notebook_name
                   (Dict.set mood_eqb moods mood (Dict.get mood_eqb moods mood 0 + 1))
             end)
          mood_entries [] in
      mkStatistics total_entries mood_counts mood_percentages most_common_mood
        mood_trends notebook_breakdown (Some period)
  end.

End MoodAnalysis.

(* ===================================================================== *)
(** ** controllers/journal_controller.py *)
(* ===================================================================== *)

Module JournalExportController.
Import JournalEntry.

(** What a route returns: [request.not_found()], or the response made by
    [request.make_response(body, headers)]. *)
Inductive response :=
| not_found
| make_response (body : string) (headers : list (string * string)).

(** [html_to_text] *)
Definition html_to_text `{Runtime} (html : string) : string :=
  if negb (Py.truthy html) then ""
  else
    let text := Py.replace (Py.replace html "<p>" Py.nl) "</p>" Py.nl in
    let text := Py.sub_tags "" text in
    let text := Html.unescape text in
    text.

(** The block of one line of the diff. *)
Definition diff_block (line : string) : string :=
  if Py.startswith line "+" then
    Py.q "<div class=`diff-added`>+ " ++ Py.escape (Py.tail1 line) ++ "</div>"
  else if Py.startswith line "-" then
    Py.q "<div class=`diff-removed`>- " ++ Py.escape (Py.tail1 line) ++ "</div>"
  else if Py.startswith line "@" then
    Py.q "<div class=`diff-header`>" ++ Py.escape line ++ "</div>"
  else
    Py.q "<div class=`diff-context`>" ++ Py.escape line ++ "</div>".

Definition no_changes : string :=
  Py.q "<div class=`no-changes`>No changes detected</div>".

(** [html_diff_with_highlighting], which both routes of comparison define
    alike but for the names [fromfile] and [tofile] given to
    [unified_diff]. *)
Definition html_diff_with_highlighting `{Runtime} (fromfile tofile : string)
    (old_html new_html : string) : string :=
  let old_text := html_to_text old_html in
  let new_text := html_to_text new_html in
  let diff :=
    Difflib.unified_diff (Py.splitlines old_text) (Py.splitlines new_text)
      fromfile tofile 3 in
  let diff_html := map diff_block diff in
  match diff_html with
  | [] => no_changes
  | _ => Py.concat_all diff_html
  end.

(** The page that [export_pdf] returns when the export fails; [e] is the
    message of the exception. *)
Definition error_html (e : string) : string :=
  "
            <html>
            <body>
                <h1>PDF Export Failed</h1>
                <p>Could not generate PDF file.</p>
                <p>Error: "
  ++ e
  ++ "</p>
                <p>Please check Odoo server logs for details.</p>
            </body>
            </html>
            ".

(** The name of the file of an export. *)
Definition export_filename `{Runtime} (entry : Entry.t) (extension : string)
  : string :=
  "journal_entry_" ++ Py.replace (Entry.name entry) " " "_" ++ "_"
  ++ date_strftime "%Y-%m-%d" (Entry.entry_date entry) ++ extension.

(** [export_pdf] *)
Definition export_pdf `{Runtime} (env : Env) (st : Store) (entry_id : Z)
  : response :=
  match find_entry st entry_id with
  | None => not_found
  | Some entry =>
      if negb (Entry.user_id entry =? env_user env) then not_found
      else
        let html_content := _generate_pdf_html_content env st entry in
        match wkhtmltopdf html_content with
        | inl pdf_content =>
            let filename := export_filename entry ".pdf" in
            make_response pdf_content
              [("Content-Type", "application/pdf");
               ("Content-Disposition", content_disposition filename);
               ("Content-Length",
                Py.str_int (Z.of_nat (String.length pdf_content)))]
        | inr e =>
            make_response (error_html e) [("Content-Type", "text/html")]
        end
  end.

(** [export_markdown] *)
Definition export_markdown `{Runtime} (env : Env) (st : Store) (entry_id : Z)
  : response :=
  match find_entry st entry_id with
  | None => not_found
  | Some entry =>
      if negb (Entry.user_id entry =? env_user env) then not_found
      else
        let markdown_content := _generate_markdown_content env st entry in
        let filename := export_filename entry ".md" in
        make_response markdown_content
          [("Content-Type", "text/markdown; charset=utf-8");
           ("Content-Disposition", content_disposition filename)]
  end.

(** The page of [compare_versions]. *)
Definition compare_versions_page `{Runtime} (st : Store) (entry : Entry.t)
    (version1 version2 : Version.t) (diff_content : string) : string :=
  Py.q "
            <!DOCTYPE html>
            <html>
            <head>
                <meta charset=`UTF-8`>
                <title>Compare: "
  ++ (Py.escape (Entry.name entry))
  ++ Py.q "</title>
                <style>
                    body { font-family: Arial, sans-serif; margin: 20px; line-height: 1.6; }
                    .header { background: #f8f9fa; padding: 20px; border-radius: 5px; margin-bottom: 20px; }
                    .comparison-container { display: flex; gap: 20px; }
                    .version-panel { flex: 1; border: 1px solid #dee2e6; border-radius: 5px; overflow: hidden; }
                    .version-header { background: #e9ecef; padding: 15px; border-bottom: 1px solid #dee2e6; }
                    .version-content { padding: 15px; max-height: 600px; overflow-y: auto; }
                    .diff-container { flex: 1; border: 1px solid #dee2e6; border-radius: 5px; overflow: hidden; }
                    .diff-header { background: #e9ecef; padding: 15px; border-bottom: 1px solid #dee2e6; }
                    .diff-content { padding: 15px; max-height: 600px; overflow-y: auto; font-family: monospace; }
                    .diff-added { background: #d4edda; color: #155724; padding: 2px 5px; margin: 1px 0; }
                    .diff-removed { background: #f8d7da; color: #721c24; padding: 2px 5px; margin: 1px 0; }
                    .diff-context { color: #6c757d; padding: 2px 5px; margin: 1px 0; }
                    .diff-header { background: #fff3cd; color: #856404; padding: 5px; font-weight: bold; }
                    .no-changes { color: #6c757d; font-style: italic; text-align: center; padding: 20px; }
                    .back-button { margin-bottom: 20px; }
                    .btn { padding: 8px 16px; background: #007bff; color: white; border: none; border-radius: 4px; cursor: pointer; text-decoration: none; display: inline-block; }
                    .btn:hover { background: #0056b3; }
                </style>
            </head>
            <body>
                <div class=`header`>
                    <h1>Compare Versions: "
  ++ (Py.escape (Entry.name entry))
  ++ "</h1>
                    <p>Entry: "
  ++ (Py.escape (Entry.name entry))
  ++ " | Notebook: "
  ++ (Py.escape (notebook_name st entry))
  ++ Py.q "</p>
                </div>

                <div class=`comparison-container`>
                    <div class=`version-panel`>
                        <div class=`version-header`>
                            <h3>Version "
  ++ (Py.str_int (Version.version_number version1))
  ++ "</h3>
                            <small>Created: "
  ++ (datetime_str (Version.create_date version1))
  ++ " | "
  ++ (Py.str_int (Version.word_count version1))
  ++ " words | "
  ++ (Py.str_int (Version.char_count version1))
  ++ Py.q " chars</small>
                        </div>
                        <div class=`version-content`>
                            "
  ++ (Py.or_else (Version.content version1) "<p><em>No content</em></p>")
  ++ Py.q "
                        </div>
                    </div>

                    <div class=`version-panel`>
                        <div class=`version-header`>
                            <h3>Version "
  ++ (Py.str_int (Version.version_number version2))
  ++ "</h3>
                            <small>Created: "
  ++ (datetime_str (Version.create_date version2))
  ++ " | "
  ++ (Py.str_int (Version.word_count version2))
  ++ " words | "
  ++ (Py.str_int (Version.char_count version2))
  ++ Py.q " chars</small>
                        </div>
                        <div class=`version-content`>
                            "
  ++ (Py.or_else (Version.content version2) "<p><em>No content</em></p>")
  ++ Py.q "
                        </div>
                    </div>
                </div>

                <div style=`margin-top: 30px;`>
                    <div class=`diff-container`>
                        <div class=`diff-header`>
                            <h3>Change Highlights</h3>
                            <small>Green = Added, Red = Removed, Gray = Unchanged</small>
                        </div>
                        <div class=`diff-content`>
                            "
  ++ diff_content
  ++ "
                        </div>
                    </div>
                </div>
            </body>
            </html>
            ".

(** [compare_versions] *)
Definition compare_versions `{Runtime} (env : Env) (st : Store)
    (entry_id version1_id version2_id : Z) : response :=
  match find_entry st entry_id, find_version st version1_id,
        find_version st version2_id with
  | Some entry, Some version1, Some version2 =>
      let diff_content :=
        html_diff_with_highlighting
          ("Version " ++ Py.str_int (Version.version_number version1))
          ("Version " ++ Py.str_int (Version.version_number version2))
          (Version.content version1) (Version.content version2) in
      let html_content :=
        compare_versions_page st entry version1 version2 diff_content in
      make_response html_content [("Content-Type", "text/html; charset=utf-8")]
  | _, _, _ => not_found
  end.

(** The page of [compare_with_current]. *)
Definition compare_with_current_page `{Runtime} (st : Store) (entry : Entry.t)
    (version : Version.t) (diff_content : string) : string :=
  Py.q "
            <!DOCTYPE html>
            <html>
            <head>
                <meta charset=`UTF-8`>
                <title>Compare with Current: "
  ++ (Py.escape (Entry.name entry))
  ++ Py.q "</title>
                <style>
                    body { font-family: Arial, sans-serif; margin: 20px; line-height: 1.6; }
                    .header { background: #f8f9fa; padding: 20px; border-radius: 5px; margin-bottom: 20px; }
                    .comparison-container { display: flex; gap: 20px; }
                    .version-panel { flex: 1; border: 1px solid #dee2e6; border-radius: 5px; overflow: hidden; }
                    .version-header { background: #e9ecef; padding: 15px; border-bottom: 1px solid #dee2e6; }
                    .version-content { padding: 15px; max-height: 600px; overflow-y: auto; }
                    .current-version { border: 2px solid #28a745; }
                    .diff-container { flex: 1; border: 1px solid #dee2e6; border-radius: 5px; overflow: hidden; }
                    .diff-header { background: #e9ecef; padding: 15px; border-bottom: 1px solid #dee2e6; }
                    .diff-content { padding: 15px; max-height: 600px; overflow-y: auto; font-family: monospace; }
                    .diff-added { background: #d4edda; color: #155724; padding: 2px 5px; margin: 1px 0; }
                    .diff-removed { background: #f8d7da; color: #721c24; padding: 2px 5px; margin: 1px 0; }
                    .diff-context { color: #6c757d; padding: 2px 5px; margin: 1px 0; }
                    .diff-header { background: #fff3cd; color: #856404; padding: 5px; font-weight: bold; }
                    .no-changes { color: #6c757d; font-style: italic; text-align: center; padding: 20px; }
                    .back-button { margin-bottom: 20px; }
                    .btn { padding: 8px 16px; background: #007bff; color: white; border: none; border-radius: 4px; cursor: pointer; text-decoration: none; display: inline-block; }
                    .btn:hover { background: #0056b3; }
                </style>
            </head>
            <body>
                <div class=`header`>
                    <h1>Compare with Current: "
  ++ (Py.escape (Entry.name entry))
  ++ "</h1>
                    <p>Entry: "
  ++ (Py.escape (Entry.name entry))
  ++ " | Notebook: "
  ++ (Py.escape (notebook_name st entry))
  ++ Py.q "</p>
                </div>

                <div class=`comparison-container`>
                    <div class=`version-panel`>
                        <div class=`version-header`>
                            <h3>Version "
  ++ (Py.str_int (Version.version_number version))
  ++ "</h3>
                            <small>Created: "
  ++ (datetime_str (Version.create_date version))
  ++ " | "
  ++ (Py.str_int (Version.word_count version))
  ++ " words | "
  ++ (Py.str_int (Version.char_count version))
  ++ Py.q " chars</small>
                        </div>
                        <div class=`version-content`>
                            "
  ++ (Py.or_else (Version.content version) "<p><em>No content</em></p>")
  ++ Py.q "
                        </div>
                    </div>

                    <div class=`version-panel current-version`>
                        <div class=`version-header`>
                            <h3>Current Version (v"
  ++ (Py.str_int (Entry.current_version entry - 1))
  ++ ")</h3>
                            <small>Latest • "
  ++ (Py.str_int (Entry.word_count entry))
  ++ " words | "
  ++ (Py.str_int (Entry.char_count entry))
  ++ Py.q " chars</small>
                        </div>
                        <div class=`version-content`>
                            "
  ++ (Py.or_else (Entry.content entry) "<p><em>No content</em></p>")
  ++ Py.q "
                        </div>
                    </div>
                </div>

                <div style=`margin-top: 30px;`>
                    <div class=`diff-container`>
                        <div class=`diff-header`>
                            <h3>Change Highlights</h3>
                            <small>Green = Added in current, Red = Removed from version, Gray = Unchanged</small>
                        </div>
                        <div class=`diff-content`>
                            "
  ++ diff_content
  ++ "
                        </div>
                    </div>
                </div>
            </body>
            </html>
            ".

(** [compare_with_current] *)
Definition compare_with_current `{Runtime} (env : Env) (st : Store)
    (entry_id version_id : Z) : response :=
  match find_entry st entry_id, find_version st version_id with
  | Some entry, Some version =>
      let diff_content :=
        html_diff_with_highlighting
          ("Version " ++ Py.str_int (Version.version_number version))
          "Current Version"
          (Version.content version) (Entry.content entry) in
      let html_content :=
        compare_with_current_page st entry version diff_content in
      make_response html_content [("Content-Type", "text/html; charset=utf-8")]
  | _, _ => not_found
  end.

End JournalExportController.

(* ===================================================================== *)
(** ** models/journal_entry.py: the actions *)
(* ===================================================================== *)

Module JournalEntryActions.
Import JournalEntry.

(** [{'state': s}] and [{'is_favorite': b}] *)
Definition of_state (s : State) : Vals.t :=
  Vals.mk None None None None None None (Some s) None None None None None.

Definition of_is_favorite (b : bool) : Vals.t :=
  Vals.mk None None None None None None None None (Some b) None None None.

(** [_compute_versions_count], for one record. *)
Definition _compute_versions_count (st : Store) (i : Z) : Z :=
  Z.of_nat (List.length (version_ids st i)).

(** [action_publish], [action_draft] and [action_archive]; they return
    [True]. *)
Definition action_publish `{Runtime} (env : Env) (st : Store) (self : list Z)
  : result Store :=
  for_each self
    (fun st i =>
       entry <- read_entry st i ;;
       match Entry.state entry with
       | draft => write env st [i] (of_state published)
       | _ => Ok st
       end)
    st.

Definition action_draft `{Runtime} (env : Env) (st : Store) (self : list Z)
  : result Store :=
  for_each self
    (fun st i =>
       entry <- read_entry st i ;;
       match Entry.state entry with
       | published | archived => write env st [i] (of_state draft)
       | _ => Ok st
       end)
    st.

Definition action_archive `{Runtime} (env : Env) (st : Store) (self : list Z)
  : result Store :=
  for_each self
    (fun st i =>
       entry <- read_entry st i ;;
       match Entry.state entry with
       | published => write env st [i] (of_state archived)
       | _ => Ok st
       end)
    st.

(** [action_toggle_favorite]: the assignment of the field is a write of
    that one field. *)
Definition action_toggle_favorite `{Runtime} (env : Env) (st : Store)
    (self : list Z) : result Store :=
  for_each self
    (fun st i =>
       entry <- read_entry st i ;;
       write env st [i] (of_is_favorite (negb (Entry.is_favorite entry))))
    st.

(** [action_delete]: the action of the list of entries, read before the
    rows go. *)
Definition action_delete (st : Store) (self : list Z) : string * Store :=
  let action := "journal.action_journal_entries" in
  (action, JournalNotebook.unlink_entries st self).

(** [self.copy(default)]: the ORM reads the fields that are copied (all
    the stored ones but the computed counts and the one2many of the
    versions), lets [default] win, and creates the row. *)
Definition copy_data (entry : Entry.t) (default : Vals.t) : Vals.t :=
  Vals.mk
    (Some (get_or (Vals.name default) (Entry.name entry)))
    (Some (get_or (Vals.content default) (Entry.content entry)))
    (Some (get_or (Vals.notebook_id default) (Entry.notebook_id entry)))
    (Some (get_or (Vals.tag_ids default) (Entry.tag_ids entry)))
    (Some (get_or (Vals.user_id default) (Entry.user_id entry)))
    (Some (get_or (Vals.entry_date default) (Entry.entry_date entry)))
    (Some (get_or (Vals.state default) (Entry.state entry)))
    (Some (get_or (Vals.mood default) (Entry.mood entry)))
    (Some (get_or (Vals.is_favorite default) (Entry.is_favorite entry)))
    (Vals.word_count default)
    (Vals.char_count default)
    (Some (get_or (Vals.current_version default) (Entry.current_version entry))).

(** [action_duplicate]: the id of the copy. *)
Definition action_duplicate `{Runtime} (env : Env) (st : Store) (self : list Z)
  : result (Z * Store) :=
  i <- ensure_one self ;;
  entry <- read_entry st i ;;
  let default :=
    Vals.mk (Some (Entry.name entry ++ " (Copy)")) None None None None None None
      None (Some false) None None (Some 1) in
  create env st (copy_data entry default).

End JournalEntryActions.

(* ===================================================================== *)
(** ** models/journal_entry_version.py *)
(* ===================================================================== *)

Module JournalEntryVersion.
Import JournalEntry.

(** [action_restore] *)
Definition action_restore `{Runtime} (env : Env) (st : Store) (self : list Z)
  : result Store :=
  i <- ensure_one self ;;
  version <- read_version st i ;;
  action_restore_version env st [Version.entry_id version] i.

(** [_compute_time_ago], for a version made at [create_date]: [diff.days]
    and [diff.seconds] of the difference of two times are the quotient
    and the remainder by the seconds of a day, the remainder never
    negative. *)
Definition _compute_time_ago (env : Env) (create_date : Z) : string :=
  let diff := now env - create_date in
  let days := diff / 86400 in
  let seconds := diff mod 86400 in
  if 0 <? days then Py.str_int days ++ " days ago"
  else if 3600 <=? seconds then
    let hours := seconds / 3600 in
    Py.str_int hours ++ " hours ago"
  else if 60 <=? seconds then
    let minutes := seconds / 60 in
    Py.str_int minutes ++ " minutes ago"
  else "Just now".

(** The [url] of the actions [action_compare_with_current] and
    [action_compare_with_version]. *)
Definition action_compare_with_current (version : Version.t) : string :=
  "/journal/compare/" ++ Py.str_int (Version.entry_id version) ++ "/"
  ++ Py.str_int (Version.id version) ++ "/current".

Definition action_compare_with_version (version : Version.t)
    (other_version_id : Z) : string :=
  "/journal/compare/" ++ Py.str_int (Version.entry_id version) ++ "/"
  ++ Py.str_int (Version.id version) ++ "/" ++ Py.str_int other_version_id.

End JournalEntryVersion.

(* ===================================================================== *)
(** ** models/journal_tag.py *)
(* ===================================================================== *)

Module JournalTag.
Import JournalEntry.

(** [tag.entry_ids]: the entries whose [tag_ids] hold the tag, both fields
    reading the one relation of the two models. *)
Definition entry_ids (st : Store) (tag : Z) : list Entry.t :=
  filter (fun e => JournalNotebook.mem tag (Entry.tag_ids e)) (entries st).

(** [_compute_entries_count], for one record. *)
Definition _compute_entries_count (st : Store) (tag : Z) : Z :=
  Z.of_nat (List.length (entry_ids st tag)).

(** [{'tag_ids': l}] *)
Definition of_tag_ids (l : list Z) : Vals.t :=
  Vals.mk None None None (Some l) None None None None None None None None.

(** The command [(3, tag)] on the tags of a record: the link to the tag is
    removed, the others stay in their order. *)
Definition remove_link (tag : Z) (l : list Z) : list Z :=
  filter (fun t => negb (t =? tag)) l.

(** [records.write({'tag_ids': [(3, tag)]})]: the [write] of journal.entry,
    which gives to every record its tags without the tag. *)
Definition write_remove_link `{Runtime} (env : Env) (st : Store)
    (records : list Z) (tag : Z) : result Store :=
  for_each records
    (fun st i =>
       e <- read_entry st i ;;
       write env st [i] (of_tag_ids (remove_link tag (Entry.tag_ids e))))
    st.

(** The loop of [action_archive] and of [action_delete]:
    [if tag.entry_ids: tag.entry_ids.write({'tag_ids': [(3, tag.id)]})]. *)
Definition remove_from_entries `{Runtime} (env : Env) (st : Store)
    (self : list Z) : result Store :=
  for_each self
    (fun st tag =>
       match entry_ids st tag with
       | _ :: _ => write_remove_link env st (map Entry.id (entry_ids st tag)) tag
       | [] => Ok st
       end)
    st.

(** [self.write({'active': b})], which journal.tag does not override. *)
Definition write_active (st : Store) (self : list Z) (b : bool) : Store :=
  mkStore (entries st) (versions st) (notebooks st)
    (map (fun t =>
            if JournalNotebook.mem (Tag.id t) self
            then Tag.mk (Tag.id t) (Tag.name t) b else t)
       (tags st))
    (next_id st).

(** [self.unlink()], which journal.tag does not override: the rows go, and
    with them the links of the relation that refer to them. *)
Definition unlink (st : Store) (self : list Z) : Store :=
  mkStore
    (map (fun e =>
            Entry.mk (Entry.id e) (Entry.name e) (Entry.content e)
              (Entry.notebook_id e)
              (filter (fun t => negb (JournalNotebook.mem t self)) (Entry.tag_ids e))
              (Entry.user_id e) (Entry.entry_date e) (Entry.write_date e)
              (Entry.state e) (Entry.mood e) (Entry.is_favorite e)
              (Entry.word_count e) (Entry.char_count e)
              (Entry.current_version e))
       (entries st))
    (versions st) (notebooks st)
    (filter (fun t => negb (JournalNotebook.mem (Tag.id t) self)) (tags st))
    (next_id st).

(** [action_archive] and [action_unarchive]; they return [True]. *)
Definition action_archive `{Runtime} (env : Env) (st : Store) (self : list Z)
  : result Store :=
  st <- remove_from_entries env st self ;;
  Ok (write_active st self false).

Definition action_unarchive (st : Store) (self : list Z) : Store :=
  write_active st self true.

(** [action_delete]; the action is the one of the list of tags. *)
Definition action_delete `{Runtime} (env : Env) (st : Store) (self : list Z)
  : result (string * Store) :=
  let action := "journal.action_journal_tags" in
  st <- remove_from_entries env st self ;;
  Ok (action, unlink st self).

End JournalTag.

(* ===================================================================== *)
(** ** models/journal_notebook.py: the other methods *)
(* ===================================================================== *)

Module JournalNotebookActions.

(** The [vals] of [create]: a field is [None] when the dict has no such
    key. *)
Record Vals := mkVals {
  vals_name : option string;
  vals_description : option string;
  vals_color : option string;
  vals_user_id : option Z;
  vals_active : option bool
}.

(** The keys of the selection of [color]. *)
Definition colors : list string :=
  ["0"; "1"; "2"; "3"; "4"; "5"; "6"; "7"; "8"; "9"; "10"; "11"].

(** [_check_name], for one record. *)
Definition _check_name `{Runtime} (notebook : Notebook.t) : result unit :=
  if negb (Py.truthy (str_strip (Notebook.name notebook)))
  then Raise (ValidationError "Notebook name cannot be empty.")
  else Ok tt.

(** [create]; [randint] is the number that [random.randint(0, 11)] gives.
    The ORM wants the required name, refuses a colour that is not a key of
    the selection, gives their defaults to the other fields and runs the
    constraint. *)
Definition create `{Runtime} (env : Env) (st : Store) (randint : Z)
    (vals : Vals) : result (Z * Store) :=
  let vals :=
    match vals_color vals with
    | Some _ => vals
    | None =>
        mkVals (vals_name vals) (vals_description vals)
          (Some (Py.str_int randint)) (vals_user_id vals) (vals_active vals)
    end in
  match vals_name vals with
  | None => Raise (IntegrityError "required")
  | Some name =>
      let color := get_or (vals_color vals) "0" in
      if negb (existsb (String.eqb color) colors)
      then Raise (ValueError "Wrong value for journal.notebook.color")
      else
        let i := next_id st in
        let record :=
          Notebook.mk i name (get_or (vals_description vals) "") color
            (get_or (vals_user_id vals) (env_user env))
            (get_or (vals_active vals) true) in
        _ <- _check_name record ;;
        Ok (i, mkStore (entries st) (versions st) (notebooks st ++ [record])
                 (tags st) (i + 1))
  end.

(** [self.write({'active': b})], which journal.notebook does not
    override. *)
Definition write_active (st : Store) (self : list Z) (b : bool) : Store :=
  mkStore (entries st) (versions st)
    (map (fun n =>
            if JournalNotebook.mem (Notebook.id n) self
            then Notebook.mk (Notebook.id n) (Notebook.name n)
                   (Notebook.description n) (Notebook.color n)
                   (Notebook.user_id n) b
            else n)
       (notebooks st))
    (tags st) (next_id st).

(** [action_archive] and [action_unarchive] *)
Definition action_archive (st : Store) (self : list Z) : Store :=
  write_active st self false.

Definition action_unarchive (st : Store) (self : list Z) : Store :=
  write_active st self true.

(** [_compute_entries_count] and [_compute_last_entry_date], for one
    record; [None] is the [False] of an empty date. *)
Definition _compute_entries_count (st : Store) (notebook : Z) : Z :=
  Z.of_nat (List.length (entry_ids st notebook)).

Definition _compute_last_entry_date (st : Store) (notebook : Z) : option Z :=
  match map Entry.entry_date (entry_ids st notebook) with
  | [] => None
  | d :: rest => Some (fold_left (fun best x => if best <? x then x else best) rest d)
  end.

End JournalNotebookActions.

(* ===================================================================== *)
(** ** models/journal_mood_analysis.py: timeline, calendar, correlations *)
(* ===================================================================== *)


Module MoodTimeline.
Import MoodAnalysis.

(** [search(domain, order='entry_date')]: the earliest first; the entries
    of one date are left in the order of the table, the database giving
    them no order, and no property below rests on it. *)
Fixpoint insert_by_date (e : Entry.t) (l : list Entry.t) : list Entry.t :=
  match l with
  | [] => [e]
  | x :: rest =>
      if Entry.entry_date e <=? Entry.entry_date x then e :: l
      else x :: insert_by_date e rest
  end.

Definition search_by_date (st : Store) (domain : Entry.t -> bool) : list Entry.t :=
  fold_right insert_by_date [] (filter domain (entries st)).

(** An entry of [timeline_data]; the entries of [mood_sequence] are pairs
    of the date and the mood. *)
Record Item := mkItem {
  item_date : string;
  item_mood : Mood;
  item_mood_display : string;
  item_entry_name : string;
  item_word_count : Z;
  item_notebook : string
}.

(** The dict of [_calculate_mood_consistency]; [changes] is [None] when
    the dict has no such key. *)
Record Consistency := mkConsistency {
  score : num;
  changes : option Z;
  trend : string
}.

Record Timeline := mkTimeline {
  timeline_data : list Item;
  mood_sequence : list (string * Mood);
  consistency : Consistency;
  days : Z;
  total_entries : Z
}.

(** One turn of the loop that counts the changes: the count and
    [previous_mood]. *)
Definition changes_step (acc : Z * option Mood) (entry : string * Mood)
  : Z * option Mood :=
  let '(changes, previous_mood) := acc in
  let changes :=
    match previous_mood with
    | Some previous => if negb (mood_eqb (snd entry) previous) then changes + 1 else changes
    | None => changes
    end in
  (changes, Some (snd entry)).

Definition count_changes (mood_sequence : list (string * Mood)) : Z :=
  fst (fold_left changes_step mood_sequence (0, None)).

(** [max(0, 100 - (changes / max(1, total_entries - 1)) * 100)]: the
    float, unless it is not above the int 0. *)
Definition consistency_score (changes total_entries : Z) : num :=
  let x :=
    (inject_Z 100
     - (inject_Z changes / inject_Z (Z.max 1 (total_entries - 1))) * inject_Z 100)%Q in
  if Num.positive (Float x) then Float x else Int 0.

(** [x > n] for an int [n]. *)
Definition above (x : num) (n : Z) : bool :=
  match x with
  | Int z => n <? z
  | Float x => match (x ?= inject_Z n)%Q with Gt => true | _ => false end
  end.

(** [_calculate_mood_consistency] *)
Definition _calculate_mood_consistency `{Runtime}
    (mood_sequence : list (string * Mood)) : Consistency :=
  match mood_sequence with
  | [] => mkConsistency (Int 0) None "stable"
  | _ :: _ =>
      let changes := count_changes mood_sequence in
      let total_entries := Z.of_nat (List.length mood_sequence) in
      let consistency_score := consistency_score changes total_entries in
      mkConsistency (Num.round consistency_score) (Some changes)
        (if above consistency_score 70 then "high"
         else if above consistency_score 40 then "medium" else "low")
  end.

(** What [get_mood_timeline] does: it returns, or raises OverflowError. *)
Inductive outcome (A : Type) : Type :=
| Returned (a : A)
| OverflowError.
Arguments Returned {A} a.
Arguments OverflowError {A}.

(** [timedelta(days=days)], for an int: the days, of a magnitude of
    999999999 at most. *)
Definition timedelta (days : Z) : outcome Z :=
  if Z.abs days <=? 999999999 then Returned days else OverflowError.

(** [date - delta]: a date, from the first day of the year 1 to the last
    of the year 9999 ([date.max.toordinal()] is 3652059). *)
Definition date_sub (date delta : Z) : outcome Z :=
  let ordinal := date - delta in
  if (1 <=? ordinal) && (ordinal <=? 3652059) then Returned ordinal
  else OverflowError.

(** [datetime.now().date() - timedelta(days=days)] *)
Definition start_date_of (env : Env) (days : Z) : outcome Z :=
  match timedelta days with
  | Returned delta => date_sub (today env) delta
  | OverflowError => OverflowError
  end.

(** The entries of [get_mood_timeline]. *)
Definition timeline_entries (env : Env) (st : Store) (user_id : option Z)
    (start_date : Z) : list Entry.t :=
  let user_id := user_or_self env user_id in
  search_by_date st
    (fun e => (Entry.user_id e =? user_id) && has_mood e
              && (start_date <=? Entry.entry_date e)).

(** [get_mood_timeline] *)
Definition get_mood_timeline `{Runtime} (env : Env) (st : Store)
    (user_id : option Z) (days : Z) : outcome Timeline :=
  match start_date_of env days with
  | OverflowError => OverflowError
  | Returned start_date =>
      let entries := timeline_entries env st user_id start_date in
      let timeline_data :=
        flat_map
          (fun entry =>
             match Entry.mood entry with
             | Some mood =>
                 [mkItem (date_strftime "%Y-%m-%d" (Entry.entry_date entry)) mood
                    (mood_display mood) (Entry.name entry)
                    (Entry.word_count entry) (notebook_name st entry)]
             | None => []
             end)
          entries in
      let mood_sequence :=
        flat_map
          (fun entry =>
             match Entry.mood entry with
             | Some mood =>
                 [(date_strftime "%Y-%m-%d" (Entry.entry_date entry), mood)]
             | None => []
             end)
          entries in
      let consistency := _calculate_mood_consistency mood_sequence in
      Returned
        (mkTimeline timeline_data mood_sequence consistency days
           (Z.of_nat (List.length entries)))
  end.

End MoodTimeline.

Module MoodCalendar.
Import MoodAnalysis.

(** An entry of the list [entries] of a day. *)
Record DayEntry := mkDayEntry {
  day_entry_name : string;
  day_entry_mood : Mood;
  day_entry_mood_display : string;
  day_entry_word_count : Z
}.

(** The dict of a day of [calendar_data]. *)
Record Day := mkDay {
  moods : list Mood;
  day_entries : list DayEntry;
  primary_mood : option Mood;
  entry_count : Z
}.

Record t := mk {
  year : Z;
  month : Z;
  calendar_data : Dict.t string Day;
  mood_summary : Dict.t Mood Z;
  total_days_with_entries : Z;
  total_entries : Z
}.









End MoodCalendar.

Module MoodCorrelations.
Import MoodAnalysis.

Record t := mk {
  mood_avg_words : Dict.t Mood num;
  mood_notebook_distribution : Dict.t Mood (Dict.t string Z);
  mood_weekday_distribution : Dict.t Mood (list Z);
  weekdays : list string
}.

(** [d.weekday()]: Monday is 0, and the day 1 is a Monday. *)
Definition weekday (date : Z) : nat := Z.to_nat ((date + 6) mod 7).

(** [l[i] += 1] *)
Fixpoint increment (l : list Z) (i : nat) : list Z :=
  match l, i with
  | [], _ => []
  | x :: rest, O => (x + 1) :: rest
  | x :: rest, S i => x :: increment rest i
  end.

(** [sum(l)] *)
Definition sum (l : list Z) : Z := fold_left Z.add l 0.

(** The three loops over the entries, and the loop of the averages. *)
Definition word_step (mood_word_stats : Dict.t Mood (list Z)) (entry : Entry.t)
  : Dict.t Mood (list Z) :=
  match Entry.mood entry with
  | None => mood_word_stats
  | Some mood =>
      let mood_word_stats :=
        if negb (Dict.has mood_eqb mood_word_stats mood)
        then Dict.set mood_eqb mood_word_stats mood []
        else mood_word_stats in
      Dict.set mood_eqb mood_word_stats mood
        (Dict.get mood_eqb mood_word_stats mood [] ++ [Entry.word_count entry])%list
  end.

Definition average `{Runtime} (word_counts : list Z) : num :=
  Num.round
    (Float (inject_Z (sum word_counts)
            / inject_Z (Z.of_nat (List.length word_counts)))%Q).

Definition notebook_step (st : Store)
    (mood_notebook_stats : Dict.t Mood (Dict.t string Z)) (entry : Entry.t)
  : Dict.t Mood (Dict.t string Z) :=
  match Entry.mood entry with
  | None => mood_notebook_stats
  | Some mood =>
      let notebook := notebook_name st entry in
      let mood_notebook_stats :=
        if negb (Dict.has mood_eqb mood_notebook_stats mood)
        then Dict.set mood_eqb mood_notebook_stats mood []
        else mood_notebook_stats in
      let stats := Dict.get mood_eqb mood_notebook_stats mood [] in
      Dict.set mood_eqb mood_notebook_stats mood
        (Dict.set String.eqb stats notebook
           (Dict.get String.eqb stats notebook 0 + 1))
  end.

Definition weekday_step (mood_weekday_stats : Dict.t Mood (list Z))
    (entry : Entry.t) : Dict.t Mood (list Z) :=
  match Entry.mood entry with
  | None => mood_weekday_stats
  | Some mood =>
      let weekday := weekday (Entry.entry_date entry) in
      let mood_weekday_stats :=
        if negb (Dict.has mood_eqb mood_weekday_stats mood)
        then Dict.set mood_eqb mood_weekday_stats mood (repeat 0 7)
        else mood_weekday_stats in
      Dict.set mood_eqb mood_weekday_stats mood
        (increment (Dict.get mood_eqb mood_weekday_stats mood []) weekday)
  end.

(** The entries of [get_mood_correlations]. *)
Definition correlation_entries (env : Env) (st : Store) (user_id : option Z)
  : list Entry.t :=
  let user_id := user_or_self env user_id in
  search st (fun e => (Entry.user_id e =? user_id) && has_mood e).

(** [get_mood_correlations]; [None] is the empty dict. *)
Definition get_mood_correlations `{Runtime} (env : Env) (st : Store)
    (user_id : option Z) : option t :=
  let entries := correlation_entries env st user_id in
  match entries with
  | [] => None
  | _ :: _ =>
      let mood_word_stats := fold_left word_step entries [] in
      let mood_avg_words :=
        fold_left
          (fun avg item => Dict.set mood_eqb avg (fst item) (average (snd item)))
          mood_word_stats [] in
      let mood_notebook_stats := fold_left (notebook_step st) entries [] in
      let mood_weekday_stats := fold_left weekday_step entries [] in
      Some
        (mk mood_avg_words mood_notebook_stats mood_weekday_stats
           ["Monday"; "Tuesday"; "Wednesday"; "Thursday"; "Friday"; "Saturday";
            "Sunday"])
  end.

End MoodCorrelations.

(* ===================================================================== *)
(** ** models/journal_entry.py: the search by name *)
(* ===================================================================== *)

Module NameSearch.

(** An element of a search domain: one of the operators ['&'], ['|'] and
    ['!'], or a condition [(field, operator, value)]. *)
Inductive element :=
| And
| Or
| Not
| Leaf (field operator value : string).

Definition element_eqb (a b : element) : bool :=
  match a, b with
  | And, And | Or, Or | Not, Not => true
  | Leaf f o v, Leaf f' o' v' => String.eqb f f' && String.eqb o o' && String.eqb v v'
  | _, _ => false
  end.

(** [domain == args] on lists. *)
Fixpoint domain_eqb (a b : list element) : bool :=
  match a, b with
  | [], [] => true
  | x :: a, y :: b => element_eqb x y && domain_eqb a b
  | _, _ => false
  end.

Definition term_domain (term : string) : list element :=
  [Or; Or; Or; Or;
   Leaf "name" "ilike" term;
   Leaf "content" "ilike" term;
   Leaf "tag_ids.name" "ilike" term;
   Leaf "notebook_id.name" "ilike" term;
   Leaf "search_vector" "ilike" ("%" ++ term ++ "%")].

(** One turn of the loop over the search terms. *)
Definition add_term (args domain : list element) (term : string) : list element :=
  if 2 <? Py.len term then
    if domain_eqb domain args then term_domain term
    else ([And] ++ domain ++ term_domain term)%list
  else domain.

(** The domain that [_name_search] hands to [_search], [args] being [[]]
    when the caller gives none; [None] when the name is empty and the
    search is left to [super()._name_search]. *)
Definition _name_search `{Runtime} (name : string) (args : list element)
  : option (list element) :=
  if Py.truthy name then
    let search_terms := str_split (str_strip name) in
    Some (fold_left (add_term args) search_terms args)
  else None.

End NameSearch.

(* ===================================================================== *)
(** ** models/journal_entry_version.py: the preview *)
(* ===================================================================== *)

(** [odoo.tools.html2plaintext] *)
Class Tools := {
  html2plaintext : string -> string
}.

Module VersionPreview.

(** A byte that continues a UTF-8 sequence. *)
Definition continues (c : ascii) : bool :=
  let n := nat_of_ascii c in ((128 <=? n) && (n <=? 191))%nat.

(** [s[:n]], in code points. *)
Fixpoint take (n : nat) (s : string) : string :=
  match s with
  | EmptyString => EmptyString
  | String c t =>
      if continues c then String c (take n t)
      else
        match n with
        | O => EmptyString
        | S k => String c (take k t)
        end
  end.

(** [_compute_preview], for a version of that content. *)
Definition _compute_preview `{Tools} (content : string) : string :=
  if Py.truthy content then
    let plain_text := html2plaintext content in
    if 100 <? Py.len plain_text then take 100 plain_text ++ "..."
    else plain_text
  else "".

End VersionPreview.

(* ===================================================================== *)
(** ** Vocabulary of the properties *)
(* ===================================================================== *)

(** *** Versioning *)

Module VersionSpec.
Import JournalEntry.

(** The version that [_create_version] makes of an entry. *)
Definition snapshot (env : Env) (st : Store) (e : Entry.t) : Version.t :=
  Version.mk (next_id st) (Entry.id e) (Entry.current_version e)
    (Entry.content e) (Entry.word_count e) (Entry.char_count e)
    (env_user env) (now env).

(** A version of that entry with that number is in the table. *)
Definition number_taken (st : Store) (entry number : Z) : bool :=
  existsb
    (fun v => (Version.entry_id v =? entry) && (Version.version_number v =? number))
    (versions st).

(** The constraints accept the values of [vals]. *)
Definition accepted `{Runtime} (env : Env) (vals : Vals.t) : bool :=
  match Vals.entry_date vals with
  | Some d => negb (today env <? d)
  | None => true
  end
  && match Vals.name vals with
     | Some n => negb (Py.len (str_strip n) <? 2)
     | None => true
     end.

(** The store after the snapshot of [e]: the version is appended and the
    counter of the entry is one more. *)
Definition snapshotted `{Runtime} (env : Env) (st : Store) (e : Entry.t) : Store :=
  update_entry
    (mkStore (entries st) (versions st ++ [snapshot env st e]) (notebooks st)
       (tags st) (next_id st + 1))
    (Entry.id e)
    (assign env (Vals.of_current_version (Entry.current_version e + 1))).

(** The store after [write] on the one entry [e]. *)
Definition written `{Runtime} (env : Env) (st : Store) (e : Entry.t)
    (vals : Vals.t) : Store :=
  update_entry
    (if Vals.has_content vals && Py.truthy (Entry.content e)
     then snapshotted env st e else st)
    (Entry.id e) (assign env vals).

(** The ids in use are below the counter from which ids are taken. *)
Definition ids_below_counter (st : Store) : bool :=
  forallb (fun e => Entry.id e <? next_id st) (entries st)
  && forallb (fun v => Version.entry_id v <? next_id st) (versions st).

(** A write that the constraints accept, that gives a non-empty content
    and that leaves the counter to [_create_version]. *)
Definition content_write `{Runtime} (env : Env) (vals : Vals.t) : bool :=
  match Vals.content vals with
  | Some c => Py.truthy c
  | None => false
  end
  && accepted env vals
  && match Vals.current_version vals with
     | None => true
     | Some _ => false
     end.

(** Successive writes on one recordset. *)
Fixpoint write_each `{Runtime} (env : Env) (st : Store) (self : list Z)
    (ws : list Vals.t) : result Store :=
  match ws with
  | [] => Ok st
  | vals :: rest => st <- write env st self vals ;; write_each env st self rest
  end.

(** The entry [i] after [k] writes: the counter is [k + 1], the content is
    not empty and the numbers of the versions are 1 to [k], in the order
    of creation. *)
Definition after_writes (i : Z) (k : nat) (st : Store) : Prop :=
  exists e,
    find_entry st i = Some e
    /\ Entry.current_version e = Z.of_nat k + 1
    /\ Py.truthy (Entry.content e) = true
    /\ map Version.version_number (version_ids st i) = map Z.of_nat (seq 1 k).

(** The key of the constraint [unique_version_per_entry]. *)
Definition version_key (v : Version.t) : Z * Z :=
  (Version.entry_id v, Version.version_number v).

(** The field of an entry in a store, when the entry is there. *)
Definition entry_field {A} (f : Entry.t -> A) (st : Store) (i : Z) : option A :=
  option_map f (find_entry st i).

End VersionSpec.

(** *** Mood statistics *)

Module MoodSpec.

(** How many times a mood occurs in a list. *)
Definition occurrences (m : Mood) (l : list Mood) : Z :=
  Z.of_nat (List.length (filter (mood_eqb m) l)).

(** How many entries of the store are of the user, have the mood [m] and
    a date that [dated] takes. *)
Definition entries_with_mood (st : Store) (user_id : Z) (m : Mood)
    (dated : Z -> bool) : Z :=
  Z.of_nat
    (List.length
       (filter
          (fun e =>
             (Entry.user_id e =? user_id)
             && match Entry.mood e with
                | Some x => mood_eqb m x
                | None => false
                end
             && dated (Entry.entry_date e))
          (entries st))).

(** The statistics of a user without entry with a mood. *)
Definition no_statistics : MoodAnalysis.Statistics :=
  MoodAnalysis.mkStatistics 0 [] [] None [] [] None.

End MoodSpec.

(** *** The diff *)

Module DiffSpec.
Import Difflib.

(** The match starts in the range of [a], and ends in it unless it is the
    empty match at [alo]. *)
Definition in_range (alo ahi : nat) (best : Match) : Prop :=
  let '(besti, _, bestsize) := best in
  (alo <= besti
   /\ (besti = alo /\ bestsize = 0 \/ besti + bestsize <= ahi))%nat.

(** The weight of a queue: every turn of the loop lowers it. *)
Definition weight (queue : list Range) : nat :=
  fold_right
    (fun r w => let '(alo, ahi, _, _) := r in (2 * (ahi - alo) + 1 + w)%nat)
    O queue.

(** The indices at which [x] is in [l], among the first [m], and among
    all. *)
Definition positions_upto (l : list string) (m : nat) (x : string) : list nat :=
  filter (fun j => String.eqb (item l j) x) (seq 0 m).

Definition positions (l : list string) (x : string) : list nat :=
  positions_upto l (List.length l) x.

(** The length of the run of the rows that end before [i] and whose
    element [chain_b] keeps. *)
Fixpoint run_upto (l : list string) (i : nat) : nat :=
  match i with
  | O => O
  | S i' =>
      match Dict.get String.eqb (chain_b l) (item l i') [] with
      | [] => O
      | _ :: _ => S (run_upto l i')
      end
  end.

End DiffSpec.

(* ===================================================================== *)
(** ** Examples *)
(* ===================================================================== *)

(** A runtime to evaluate the methods on texts of one word that hold no
    markup, no entity and no white space: there no pattern matches and
    nothing is stripped or split.  Dates and times print as their number;
    a month has 30 days and a year 365. *)
Definition one_word_runtime : Runtime := {|
  re_sub := fun _ _ s _ => s;
  charref_sub := fun s => s;
  str_strip := fun s => s;
  str_split := fun s => [s];
  date_strftime := fun _ d => Py.str_int d;
  datetime_strftime := fun _ t => Py.str_int t;
  datetime_str := fun t => Py.str_int t;
  first_of_month := fun d => d - (d mod 30);
  first_of_year := fun d => d - (d mod 365);
  round2 := fun x => x;
  content_disposition := fun f => "attachment; filename=" ++ f;
  wkhtmltopdf := fun page => inl ("%PDF" ++ page)
|}.

(** [round(x, 2)] on exact rationals: the nearest multiple of 1/100, and
    the even one of the two when [x] is half way between them.  Python
    rounds the binary float, which can fall on the other side of a half
    way mark; away from those marks the two agree. *)
Definition round_hundredths (x : Q) : Q :=
  let n := Qnum x * 100 in
  let d := Z.pos (Qden x) in
  let low := n / d in
  let twice := 2 * (n mod d) in
  let nearest :=
    if twice <? d then low
    else if d <? twice then low + 1
    else if Z.even low then low else low + 1 in
  nearest # 100.

(** The runtime above, with the rounding to hundredths. *)
Definition hundredths_runtime : Runtime := {|
  re_sub := fun _ _ s _ => s;
  charref_sub := fun s => s;
  str_strip := fun s => s;
  str_split := fun s => [s];
  date_strftime := fun _ d => Py.str_int d;
  datetime_strftime := fun _ t => Py.str_int t;
  datetime_str := fun t => Py.str_int t;
  first_of_month := fun d => d - (d mod 30);
  first_of_year := fun d => d - (d mod 365);
  round2 := round_hundredths;
  content_disposition := fun f => "attachment; filename=" ++ f;
  wkhtmltopdf := fun page => inl ("%PDF" ++ page)
|}.

(** *** An entry and its versions *)

Module Example.

Definition env : Env := mkEnv 7 100 5000.

(** One notebook, no entry. *)
Definition st0 : Store :=
  mkStore [] [] [Notebook.mk 1 "Diary" "" "0" 7 true] [] 10.

Definition hello : Vals.t :=
  Vals.mk (Some "Monday") (Some "hello") (Some 1) None None None None None None
    None None None.

(** The entry 10 is created with the content hello. *)
Definition st1 : Store :=
  match JournalEntry.create (H := one_word_runtime) env st0 hello with
  | Ok (_, st) => st
  | Raise _ => st0
  end.

(** Its content is edited once: the version 1 (of id 11) is made. *)
Definition st2 : Store :=
  match JournalEntry.write (H := one_word_runtime) env st1 [10]
          (Vals.of_content "there") with
  | Ok st => st
  | Raise _ => st1
  end.

(** The entry 10 in [st1] and in [st2]. *)
Definition entry1 : Entry.t :=
  Entry.mk 10 "Monday" "hello" 1 [] 7 100 5000 draft None false 1 5 1.

Definition entry2 : Entry.t :=
  Entry.mk 10 "Monday" "there" 1 [] 7 100 5000 draft None false 1 5 2.

End Example.

(** *** A store with moods *)

Module MoodExample.

Definition entry (i user date : Z) (mood : option Mood) : Entry.t :=
  Entry.mk i "Monday" "hello" 1 [] user date 5000 draft mood false 1 5 1.

(** The user 7 was sad, happy, happy, sad in the last week (from the
    latest entry to the earliest) and tired the week before; the user 8
    has one entry, without mood. *)
Definition diary : Store :=
  mkStore
    [entry 22 7 96 (Some happy); entry 20 7 98 (Some sad);
     entry 24 8 99 None; entry 25 7 90 (Some tired);
     entry 21 7 97 (Some happy); entry 23 7 95 (Some sad)]
    [] [Notebook.mk 1 "Diary" "" "0" 7 true] [] 30.

(** [n] entries of the user 7, happy on the day [date], of the ids [i],
    [i + 1] and so on. *)
Fixpoint happy_entries (n : nat) (i date : Z) : list Entry.t :=
  match n with
  | O => []
  | S n' => entry i 7 date (Some happy) :: happy_entries n' (i + 1) date
  end.

(** The user 7 was happy 20002 times in the last week, on the day 98, and
    20001 times the week before, on the day 90. *)
Definition crowd : Store :=
  mkStore
    (happy_entries (Z.to_nat 20002) 1 98 ++ happy_entries (Z.to_nat 20001) 20003 90)%list
    [] [Notebook.mk 1 "Diary" "" "0" 7 true] [] 40004.

End MoodExample.

(** *** A notebook with entries *)

Module NotebookExample.

(** The notebook 1 owns the entries 10 and 12, the notebook 2 the entry 11;
    the entry 10 has one version. *)
Definition shelf : Store :=
  mkStore
    [Entry.mk 10 "Monday" "there" 1 [] 7 100 5000 draft None false 1 5 2;
     Entry.mk 11 "Tuesday" "hello" 2 [] 7 100 5000 draft None false 1 5 1;
     Entry.mk 12 "Sunday" "hello" 1 [] 7 99 5000 draft None false 1 5 1]
    [Version.mk 13 10 1 "hello" 1 5 7 5000]
    [Notebook.mk 1 "Diary" "" "0" 7 true; Notebook.mk 2 "Travel" "" "3" 7 true]
    [] 20.

(** The user 8, who owns nothing on the shelf. *)
Definition stranger : Env := mkEnv 8 100 5000.

End NotebookExample.

(* ===================================================================== *)
(** ** Vocabulary and examples of the further properties *)
(* ===================================================================== *)

(** *** The history of an entry *)

Module HistorySpec.
Import JournalEntry JournalEntryActions.

(** The counter of the entry is one more than the number of its versions,
    which are numbered from 1 in the order of their creation. *)
Definition numbered (st : Store) (e : Entry.t) : Prop :=
  exists k : nat,
    Entry.current_version e = Z.of_nat k + 1
    /\ map Version.version_number (version_ids st (Entry.id e))
       = map Z.of_nat (seq 1 k).

Definition well_numbered (st : Store) : Prop :=
  Forall (numbered st) (entries st).

(** The ids of the versions are below the counter from which ids are
    taken. *)
Definition version_ids_below_counter (st : Store) : bool :=
  forallb (fun v => Version.id v <? next_id st) (versions st).

(** From [st] to [st'] the table of the versions has only grown, by
    versions of the entries of [self]; the other entries, the notebooks and
    the tags are as they were, and no entry has come or gone. *)
Definition extends (self : list Z) (st st' : Store) : Prop :=
  (exists new,
      versions st' = (versions st ++ new)%list
      /\ Forall (fun v => In (Version.entry_id v) self) new)
  /\ (forall j, ~ In j self -> find_entry st' j = find_entry st j)
  /\ map Entry.id (entries st') = map Entry.id (entries st)
  /\ notebooks st' = notebooks st
  /\ tags st' = tags st.

(** The buttons of the form of an entry. *)
Inductive Action := Publish | Draft | Archive | ToggleFavorite.

Definition run_action `{Runtime} (env : Env) (st : Store) (self : list Z)
    (a : Action) : result Store :=
  match a with
  | Publish => action_publish env st self
  | Draft => action_draft env st self
  | Archive => action_archive env st self
  | ToggleFavorite => action_toggle_favorite env st self
  end.

Fixpoint run_actions `{Runtime} (env : Env) (st : Store) (self : list Z)
    (l : list Action) : result Store :=
  match l with
  | [] => Ok st
  | a :: rest => st <- run_action env st self a ;; run_actions env st self rest
  end.

(** The life cycle: a draft is published, a published entry is archived,
    and both a published and an archived entry go back to draft. *)
Definition next_state (s : State) (a : Action) : State :=
  match a, s with
  | Publish, draft => published
  | Draft, _ => draft
  | Archive, published => archived
  | _, s => s
  end.

Definition next_favorite (b : bool) (a : Action) : bool :=
  match a with
  | ToggleFavorite => negb b
  | _ => b
  end.

(** What the buttons leave alone. *)
Definition text_of (e : Entry.t) :=
  (Entry.id e, Entry.name e, Entry.content e, Entry.notebook_id e,
   Entry.tag_ids e, Entry.user_id e, Entry.entry_date e, Entry.mood e,
   Entry.word_count e, Entry.char_count e, Entry.current_version e).

End HistorySpec.

(** *** Tags and notebooks *)

Module TagSpec.

(** The fields of an entry other than its tags and the time of its last
    write. *)
Definition but_tags (e : Entry.t) :=
  (Entry.id e, Entry.name e, Entry.content e, Entry.notebook_id e,
   Entry.user_id e, Entry.entry_date e, Entry.state e, Entry.mood e,
   Entry.is_favorite e, Entry.word_count e, Entry.char_count e,
   Entry.current_version e).

(** From [st0] to [st] the records of [done] have lost the tag, the others
    may have, and nothing else has changed. *)
Definition detached (tag : Z) (st0 : Store) (done : list Z) (st : Store) : Prop :=
  versions st = versions st0
  /\ notebooks st = notebooks st0
  /\ tags st = tags st0
  /\ next_id st = next_id st0
  /\ map Entry.id (entries st) = map Entry.id (entries st0)
  /\ forall j e,
       find_entry st0 j = Some e ->
       exists e',
         find_entry st j = Some e'
         /\ but_tags e' = but_tags e
         /\ (Entry.tag_ids e' = Entry.tag_ids e
             \/ Entry.tag_ids e' = JournalTag.remove_link tag (Entry.tag_ids e))
         /\ (In j done ->
             Entry.tag_ids e' = JournalTag.remove_link tag (Entry.tag_ids e)).

End TagSpec.

(** *** A shelf with tags *)

Module TagExample.

(** The entries 10 and 12 have the tag 30, the entry 10 also the tag 31;
    the entry 10 has one version. *)
Definition shelf : Store :=
  mkStore
    [Entry.mk 10 "Monday" "there" 1 [30; 31] 7 100 4000 draft None false 1 5 2;
     Entry.mk 11 "Tuesday" "hello" 1 [] 7 100 4000 draft None false 1 5 1;
     Entry.mk 12 "Sunday" "hello" 1 [30] 7 99 4000 draft None false 1 5 1]
    [Version.mk 13 10 1 "hello" 1 5 7 4000]
    [Notebook.mk 1 "Diary" "" "0" 7 true]
    [Tag.mk 30 "work" true; Tag.mk 31 "home" true] 40.

End TagExample.

(** *** Timeline, calendar and correlations *)

Module TimelineSpec.

(** How many times the mood changes from one element of the list to the
    next. *)
Fixpoint switches (l : list Mood) : Z :=
  match l with
  | a :: (b :: _) as rest => (if mood_eqb a b then 0 else 1) + switches rest
  | _ => 0
  end.

(** The eight moods. *)
Definition all_moods : list Mood :=
  [happy; sad; excited; angry; peaceful; anxious; grateful; tired].

(** A mood sequence of one day. *)
Definition same_day (l : list Mood) : list (string * Mood) :=
  map (fun m => ("2024-01-01", m)) l.

End TimelineSpec.

Module CalendarSpec.
Import MoodAnalysis MoodCalendar.







End CalendarSpec.

Module CorrelationSpec.
Import MoodAnalysis MoodCorrelations.

(** The entries of a list that have the mood [m]. *)
Definition with_mood (m : Mood) (entries : list Entry.t) : list Entry.t :=
  filter
    (fun e => match Entry.mood e with Some x => mood_eqb x m | None => false end)
    entries.

(** For each of the seven days of the week, how many of the entries with
    the mood [m] are dated on it. *)
Definition weekday_counts (entries : list Entry.t) (m : Mood) : list Z :=
  map
    (fun w =>
       Z.of_nat
         (List.length
            (filter (fun e => Nat.eqb (weekday (Entry.entry_date e)) w)
               (with_mood m entries))))
    (seq 0 7).

(** What the loop of the days of the week, and the loop of the word
    counts, keep true. *)
Definition weekdays_counted (done : list Entry.t) (d : Dict.t Mood (list Z))
  : Prop :=
  Dict.keys d = distinct [] (moods_of done)
  /\ forall m, In m (moods_of done) ->
               Dict.get mood_eqb d m [] = weekday_counts done m.

Definition words_listed (done : list Entry.t) (d : Dict.t Mood (list Z)) : Prop :=
  Dict.keys d = distinct [] (moods_of done)
  /\ forall m, In m (moods_of done) ->
               Dict.get mood_eqb d m [] = map Entry.word_count (with_mood m done).

(** The entries of the store that are of the user and have the mood
    [m]. *)
Definition entries_of (st : Store) (user_id : Z) (m : Mood) : list Entry.t :=
  filter
    (fun e =>
       (Entry.user_id e =? user_id)
       && match Entry.mood e with Some x => mood_eqb x m | None => false end)
    (entries st).

End CorrelationSpec.

Module StatisticsSpec.



End StatisticsSpec.

(** *** The search by name *)

Module SearchSpec.
Import NameSearch.

(** The reading of a domain in prefix notation on one record, [holds]
    telling which conditions the record meets: the domain is read from its
    end, a condition puts its value on a stack, an operator takes its
    operands from it; the conditions left at the end are all required. *)
Definition read (holds : string -> string -> string -> bool) (x : element)
    (stack : list bool) : list bool :=
  match x, stack with
  | Leaf field operator value, _ => holds field operator value :: stack
  | And, a :: b :: rest => (a && b) :: rest
  | Or, a :: b :: rest => (a || b) :: rest
  | Not, a :: rest => negb a :: rest
  | _, _ => stack
  end.

Definition matches (holds : string -> string -> string -> bool)
    (domain : list element) : bool :=
  forallb (fun b => b) (fold_right (read holds) [] domain).

(** A domain that reads as one value, whatever is read after it. *)
Definition reads_as (holds : string -> string -> string -> bool)
    (domain : list element) (v : bool) : Prop :=
  forall stack, fold_right (read holds) stack domain = v :: stack.

(** The record has the term in its title, its content, the name of one of
    its tags, the name of its notebook or its search vector. *)
Definition has_term (holds : string -> string -> string -> bool) (term : string)
  : bool :=
  holds "name" "ilike" term
  || holds "content" "ilike" term
  || holds "tag_ids.name" "ilike" term
  || holds "notebook_id.name" "ilike" term
  || holds "search_vector" "ilike" ("%" ++ term ++ "%").

(** The terms of a name that are searched for. *)
Definition searched_terms `{Runtime} (name : string) : list string :=
  filter (fun term => 2 <? Py.len term) (str_split (str_strip name)).

(** A runtime that splits a name at its spaces. *)
Fixpoint split_spaces (cur : list ascii) (s : string) : list string :=
  match s with
  | EmptyString => match cur with [] => [] | _ => [Py.rev_string cur] end
  | String c t =>
      if Ascii.eqb c " "%char
      then match cur with
           | [] => split_spaces [] t
           | _ => Py.rev_string cur :: split_spaces [] t
           end
      else split_spaces (c :: cur) t
  end.

Definition words_runtime : Runtime := {|
  re_sub := fun _ _ s _ => s;
  charref_sub := fun s => s;
  str_strip := fun s => s;
  str_split := fun s => split_spaces [] s;
  date_strftime := fun _ d => Py.str_int d;
  datetime_strftime := fun _ t => Py.str_int t;
  datetime_str := fun t => Py.str_int t;
  first_of_month := fun d => d - (d mod 30);
  first_of_year := fun d => d - (d mod 365);
  round2 := fun x => x;
  content_disposition := fun f => "attachment; filename=" ++ f;
  wkhtmltopdf := fun page => inl ("%PDF" ++ page)
|}.

End SearchSpec.

(** *** Texts *)

Module TextSpec.

(** No ['<'] of the text opens a tag: it is followed at once by a ['>'],
    or by no ['>'] at all. *)
Fixpoint settled (s : string) : Prop :=
  match s with
  | EmptyString => True
  | String c t => (c = "<"%char -> Py.tag_closes t = false) /\ settled t
  end.

(** The characters with which markup is written. *)
Definition markup : list ascii := ["<"%char; ">"%char; Py.DQ; "'"%char].

(** The openings of the blocks of the diff. *)
Definition openings : list string :=
  [Py.q "<div class=`diff-added`>+ "; Py.q "<div class=`diff-removed`>- ";
   Py.q "<div class=`diff-header`>"; Py.q "<div class=`diff-context`>"].

(** A converter to plain text that leaves plain text as it is. *)
Definition plain_tools : Tools := {| html2plaintext := fun s => s |}.

End TextSpec.

(* ===================================================================== *)
(** * Properties *)
(* ===================================================================== *)

(** ** The store *)

Section StoreFacts.

Lemma find_entry_id (st : Store) (i : Z) (e : Entry.t) :
  find_entry st i = Some e -> Entry.id e = i.
Proof.
  unfold find_entry. intros Hf.
  apply find_some in Hf. destruct Hf as [_ Hid].
  now apply Z.eqb_eq in Hid.
Qed.

Lemma find_entry_update (st : Store) (i j : Z) (f : Entry.t -> Entry.t) :
  (forall e, Entry.id (f e) = Entry.id e) ->
  find_entry (update_entry st i f) j
  = option_map (fun e => if Entry.id e =? i then f e else e) (find_entry st j).
Proof.
  intros Hid. unfold find_entry, update_entry, set_entries. simpl.
  induction (entries st) as [| a l IH]; simpl; [reflexivity |].
  destruct (Entry.id a =? i) eqn:Hai.
  - rewrite Hid. destruct (Entry.id a =? j) eqn:Haj; simpl.
    + now rewrite Hai.
    + exact IH.
  - destruct (Entry.id a =? j) eqn:Haj; simpl.
    + now rewrite Hai.
    + exact IH.
Qed.

Lemma find_entry_update_same (st : Store) (i : Z) (e : Entry.t)
    (f : Entry.t -> Entry.t) :
  (forall e, Entry.id (f e) = Entry.id e) ->
  find_entry st i = Some e ->
  find_entry (update_entry st i f) i = Some (f e).
Proof.
  intros Hid Hf. rewrite find_entry_update by exact Hid.
  rewrite Hf. simpl. rewrite (find_entry_id st i e Hf), Z.eqb_refl. reflexivity.
Qed.

Lemma versions_update_entry (st : Store) (i : Z) (f : Entry.t -> Entry.t) :
  versions (update_entry st i f) = versions st.
Proof. reflexivity. Qed.

Lemma next_id_update_entry (st : Store) (i : Z) (f : Entry.t -> Entry.t) :
  next_id (update_entry st i f) = next_id st.
Proof. reflexivity. Qed.

End StoreFacts.

(** ** Dicts, for any key whose test of equality decides the equality *)

Module DictFacts.
Local Open Scope list_scope.

Section Keys.
Variables K V : Type.
Variable eqb : K -> K -> bool.
Hypothesis eqb_eq : forall a b, eqb a b = true <-> a = b.
Implicit Types (d : Dict.t K V) (k : K) (v : V).

Lemma eqb_refl k : eqb k k = true.
Proof. now apply eqb_eq. Qed.

Lemma eqb_neq k k' : k <> k' -> eqb k k' = false.
Proof.
  intros Hn. destruct (eqb k k') eqn:He; [| reflexivity].
  apply eqb_eq in He. contradiction.
Qed.

Lemma get_set_same d k v default :
  Dict.get eqb (Dict.set eqb d k v) k default = v.
Proof.
  induction d as [| [k' v'] d IH]; simpl.
  - now rewrite eqb_refl.
  - destruct (eqb k' k) eqn:Hk; simpl; rewrite Hk; [reflexivity | exact IH].
Qed.

Lemma get_set_other d k k' v default :
  k <> k' ->
  Dict.get eqb (Dict.set eqb d k v) k' default = Dict.get eqb d k' default.
Proof.
  intros Hn. induction d as [| [k0 v0] d IH]; simpl.
  - now rewrite (eqb_neq k k' Hn).
  - destruct (eqb k0 k) eqn:Hk; simpl.
    + apply eqb_eq in Hk. subst k0. now rewrite (eqb_neq k k' Hn).
    + now rewrite IH.
Qed.

Lemma has_keys d k : Dict.has eqb d k = true <-> In k (Dict.keys d).
Proof.
  unfold Dict.keys. induction d as [| [k' v'] d IH]; simpl.
  - split; [discriminate | intros []].
  - rewrite orb_true_iff, IH, eqb_eq. tauto.
Qed.

Lemma keys_set_in d k v :
  In k (Dict.keys d) -> Dict.keys (Dict.set eqb d k v) = Dict.keys d.
Proof.
  unfold Dict.keys. induction d as [| [k' v'] d IH]; simpl; [intros [] |].
  intros Hin. destruct (eqb k' k) eqn:Hk; simpl; [reflexivity |].
  f_equal. apply IH. destruct Hin as [He | Hin]; [| exact Hin].
  subst. rewrite eqb_refl in Hk. discriminate.
Qed.

Lemma keys_set_new d k v :
  ~ In k (Dict.keys d) -> Dict.keys (Dict.set eqb d k v) = Dict.keys d ++ [k].
Proof.
  unfold Dict.keys. induction d as [| [k' v'] d IH]; simpl; [reflexivity |].
  intros Hn. destruct (eqb k' k) eqn:Hk; simpl.
  - apply eqb_eq in Hk. subst. exfalso. apply Hn. now left.
  - f_equal. apply IH. intros Hin. apply Hn. now right.
Qed.

Lemma in_dec_keys d k : In k (Dict.keys d) \/ ~ In k (Dict.keys d).
Proof.
  destruct (Dict.has eqb d k) eqn:Hh.
  - left. now apply has_keys.
  - right. intros Hin. apply has_keys in Hin. congruence.
Qed.

Lemma NoDup_keys_set d k v :
  NoDup (Dict.keys d) -> NoDup (Dict.keys (Dict.set eqb d k v)).
Proof.
  intros Hnd. destruct (in_dec_keys d k) as [Hin | Hn].
  - now rewrite keys_set_in.
  - rewrite keys_set_new by exact Hn.
    apply NoDup_app; [exact Hnd | constructor; [intros [] | constructor] |].
    intros x Hx [Hk | []]. subst. contradiction.
Qed.

Lemma get_absent d k default :
  ~ In k (Dict.keys d) -> Dict.get eqb d k default = default.
Proof.
  unfold Dict.keys. induction d as [| [k' v'] d IH]; simpl; [reflexivity |].
  intros Hn. destruct (eqb k' k) eqn:Hk.
  - apply eqb_eq in Hk. subst. exfalso. apply Hn. now left.
  - apply IH. intros Hin. apply Hn. now right.
Qed.

(** Bindings are deleted from a dict without two bindings of one key. *)
Lemma get_filter d (keep : K * V -> bool) k default :
  NoDup (Dict.keys d) ->
  Dict.get eqb (filter keep d) k default
  = Dict.get eqb d k default
  \/ Dict.get eqb (filter keep d) k default = default.
Proof.
  unfold Dict.keys. induction d as [| [k' v'] d IH]; simpl; [now left |].
  intros Hnd. inversion Hnd as [| x xs Hnotin Hnd']. subst.
  destruct (eqb k' k) eqn:Hk.
  - apply eqb_eq in Hk. subst k'.
    destruct (keep (k, v')); simpl.
    + rewrite eqb_refl. now left.
    + right. apply get_absent. unfold Dict.keys. intros Hin.
      apply Hnotin. apply in_map_iff in Hin. destruct Hin as [[k1 v1] [Hk1 Hin]].
      apply filter_In in Hin. simpl in Hk1. subst.
      apply in_map_iff. exists (k, v1). split; [reflexivity | tauto].
  - destruct (keep (k', v')); simpl.
    + rewrite Hk. now apply IH.
    + now apply IH.
Qed.

End Keys.
End DictFacts.

(** ** Versioning: [_create_version], [write], [action_restore_version] *)

Module VersionFacts.
Import JournalEntry.

Import VersionSpec.
Local Open Scope list_scope.

Section Facts.
Context `{RT : Runtime}.
Variable env : Env.

Lemma assign_id (vals : Vals.t) (e : Entry.t) :
  Entry.id (assign env vals e) = Entry.id e.
Proof. reflexivity. Qed.

Lemma super_write_one (st : Store) (i : Z) (e : Entry.t) (vals : Vals.t) :
  find_entry st i = Some e ->
  accepted env vals = true ->
  super_write env st [i] vals = Ok (update_entry st i (assign env vals)).
Proof.
  intros Hf Hacc. unfold super_write. simpl.
  unfold read_entry at 1. rewrite Hf. simpl.
  unfold validate, read_entry.
  rewrite (find_entry_update_same st i e _ (assign_id vals) Hf).
  unfold accepted in Hacc. apply andb_true_iff in Hacc. destruct Hacc as [Hd Hn].
  unfold _check_entry_date, _check_name_length.
  destruct vals as [vn vc vnb vt vu [d |] vs vm vf vw vk vv];
    destruct vn as [n |]; cbn in *;
    repeat match goal with
           | H : negb _ = true |- _ => apply negb_true_iff in H; rewrite H
           end;
    reflexivity.
Qed.

(** The overridden [write] does, for values without content, what
    [super().write] does. *)
Lemma write_without_content (st : Store) (self : list Z) (vals : Vals.t) :
  Vals.has_content vals = false ->
  write env st self vals = super_write env st self vals.
Proof. intros Hc. unfold write. rewrite Hc. reflexivity. Qed.

Lemma create_version_one (st : Store) (i : Z) (e : Entry.t) :
  find_entry st i = Some e ->
  number_taken st i (Entry.current_version e) = false ->
  _create_version env st [i]
  = Ok (if Py.truthy (Entry.content e) then snapshotted env st e else st).
Proof.
  intros Hf Hfree. unfold _create_version. simpl.
  unfold read_entry. rewrite Hf. simpl.
  destruct (Py.truthy (Entry.content e)); [| reflexivity].
  pose proof (find_entry_id _ _ _ Hf) as Hid.
  unfold version_create. fold (number_taken st (Entry.id e) (Entry.current_version e)).
  rewrite Hid, Hfree. simpl.
  rewrite (super_write_one _ i e).
  - unfold snapshotted, snapshot. rewrite Hid. reflexivity.
  - exact Hf.
  - reflexivity.
Qed.

Lemma find_entry_snapshotted (st : Store) (i : Z) (e : Entry.t) :
  find_entry st i = Some e ->
  find_entry (snapshotted env st e) i
  = Some (assign env (Vals.of_current_version (Entry.current_version e + 1)) e).
Proof.
  intros Hf. unfold snapshotted. rewrite (find_entry_id _ _ _ Hf).
  apply find_entry_update_same; [apply assign_id | exact Hf].
Qed.

Lemma write_one (st : Store) (i : Z) (e : Entry.t) (vals : Vals.t) :
  find_entry st i = Some e ->
  accepted env vals = true ->
  number_taken st i (Entry.current_version e) = false ->
  write env st [i] vals = Ok (written env st e vals).
Proof.
  intros Hf Hacc Hfree. unfold write, written. rewrite (find_entry_id _ _ _ Hf).
  destruct (Vals.has_content vals); simpl.
  - rewrite (create_version_one _ _ _ Hf Hfree). simpl.
    destruct (Py.truthy (Entry.content e)).
    + eapply super_write_one; [| exact Hacc].
      apply find_entry_snapshotted. exact Hf.
    + eapply super_write_one; eauto.
  - eapply super_write_one; eauto.
Qed.

Lemma versions_written (st : Store) (e : Entry.t) (vals : Vals.t) :
  versions (written env st e vals)
  = versions st ++ (if Vals.has_content vals && Py.truthy (Entry.content e)
                    then [snapshot env st e] else []).
Proof.
  unfold written. rewrite versions_update_entry.
  destruct (Vals.has_content vals && Py.truthy (Entry.content e)).
  - reflexivity.
  - now rewrite app_nil_r.
Qed.

Lemma find_entry_written (st : Store) (i : Z) (e : Entry.t) (vals : Vals.t) :
  find_entry st i = Some e ->
  find_entry (written env st e vals) i
  = Some (assign env vals
            (if Vals.has_content vals && Py.truthy (Entry.content e)
             then assign env (Vals.of_current_version (Entry.current_version e + 1)) e
             else e)).
Proof.
  intros Hf. unfold written. rewrite (find_entry_id _ _ _ Hf).
  destruct (Vals.has_content vals && Py.truthy (Entry.content e)).
  - apply find_entry_update_same; [apply assign_id |].
    now apply find_entry_snapshotted.
  - apply find_entry_update_same; [apply assign_id | exact Hf].
Qed.

Lemma number_taken_iff (st : Store) (i n : Z) :
  number_taken st i n = true
  <-> In n (map Version.version_number (version_ids st i)).
Proof.
  unfold number_taken, version_ids. rewrite existsb_exists, in_map_iff.
  split.
  - intros [v [Hin Hv]]. apply andb_true_iff in Hv. destruct Hv as [He Hn].
    exists v. split; [now apply Z.eqb_eq in Hn |].
    apply filter_In. now split.
  - intros [v [Hn Hin]]. apply filter_In in Hin. destruct Hin as [Hin He].
    exists v. split; [exact Hin |].
    apply andb_true_iff. split; [exact He | now apply Z.eqb_eq].
Qed.

Lemma version_ids_written (st : Store) (i : Z) (e : Entry.t) (vals : Vals.t) :
  Entry.id e = i ->
  version_ids (written env st e vals) i
  = version_ids st i ++ (if Vals.has_content vals && Py.truthy (Entry.content e)
                         then [snapshot env st e] else []).
Proof.
  intros Hid. unfold version_ids at 1. rewrite versions_written, filter_app.
  fold (version_ids st i). f_equal.
  destruct (Vals.has_content vals && Py.truthy (Entry.content e)); [| reflexivity].
  simpl. rewrite Hid, Z.eqb_refl. reflexivity.
Qed.

End Facts.

(** C3, as the code has it.  A write that the constraints accept, on an
    entry whose counter is not yet the number of one of its versions,
    returns; it appends the snapshot of the entry exactly when [vals] has
    the key content and the content of the entry before the write is not
    empty, whatever the value given; otherwise the versions are the same,
    and so is the counter unless [vals] assigns it. *)
Theorem write_snapshots_iff_content_key `{Runtime} (env : Env) (st : Store)
    (i : Z) (e : Entry.t) (vals : Vals.t) :
  find_entry st i = Some e ->
  accepted env vals = true ->
  number_taken st i (Entry.current_version e) = false ->
  exists st',
    write env st [i] vals = Ok st'
    /\ (Vals.has_content vals = true /\ Entry.content e <> "" ->
        versions st' = versions st ++ [snapshot env st e]
        /\ entry_field Entry.current_version st' i
           = Some (get_or (Vals.current_version vals) (Entry.current_version e + 1)))
    /\ (~ (Vals.has_content vals = true /\ Entry.content e <> "") ->
        versions st' = versions st)
    /\ (Vals.has_content vals = false -> Vals.current_version vals = None ->
        entry_field Entry.current_version st' i = Some (Entry.current_version e)).
Proof.
  intros Hf Hacc Hfree. exists (written env st e vals).
  split; [now apply write_one |].
  unfold entry_field. rewrite (find_entry_written env st i e vals Hf), versions_written.
  split; [| split].
  - intros [Hc Hne]. rewrite Hc.
    destruct (Entry.content e) as [| c s]; [congruence |]. simpl.
    split; [reflexivity |]. now destruct (Vals.current_version vals).
  - intros Hn. destruct (Vals.has_content vals) eqn:Hc; simpl.
    + destruct (Entry.content e) as [| c s]; simpl; [now rewrite app_nil_r |].
      exfalso. apply Hn. split; [reflexivity | discriminate].
    + now rewrite app_nil_r.
  - intros Hc Hv. rewrite Hc. simpl. now rewrite Hv.
Qed.

(** A write of the very content that the entry has. *)
Lemma write_snapshots_iff_content_key_witness :
  exists st',
    write (H := one_word_runtime) Example.env Example.st2 [10]
      (Vals.of_content "there") = Ok st'
    /\ (Vals.has_content (Vals.of_content "there") = true
        /\ Entry.content Example.entry2 <> "" ->
        versions st'
        = versions Example.st2 ++ [snapshot Example.env Example.st2 Example.entry2]
        /\ entry_field Entry.current_version st' 10
           = Some (get_or (Vals.current_version (Vals.of_content "there"))
                     (Entry.current_version Example.entry2 + 1)))
    /\ (~ (Vals.has_content (Vals.of_content "there") = true
           /\ Entry.content Example.entry2 <> "") ->
        versions st' = versions Example.st2)
    /\ (Vals.has_content (Vals.of_content "there") = false ->
        Vals.current_version (Vals.of_content "there") = None ->
        entry_field Entry.current_version st' 10
        = Some (Entry.current_version Example.entry2)).
Proof.
  apply (write_snapshots_iff_content_key (H := one_word_runtime)
           Example.env Example.st2 10 Example.entry2 (Vals.of_content "there"));
    reflexivity.
Defined.

(** C3, as the spec has it, fails: a write that gives the content that the
    entry already has makes a version. *)
Lemma write_of_same_content_snapshots :
  ~ (forall (R : Runtime) (env : Env) (st st' : Store) (i : Z) (e : Entry.t),
        find_entry st i = Some e ->
        write env st [i] (Vals.of_content (Entry.content e)) = Ok st' ->
        versions st' = versions st).
Proof.
  intros Hclaim.
  specialize (Hclaim one_word_runtime Example.env Example.st2
                (written (H := one_word_runtime) Example.env Example.st2
                   Example.entry2 (Vals.of_content "there"))
                10 Example.entry2 eq_refl eq_refl).
  vm_compute in Hclaim. discriminate Hclaim.
Qed.

(** Restoring takes the snapshot of the entry twice: once by the call of
    [_create_version] in [action_restore_version], once more by [write],
    the values restored having the key content.  Both versions hold the
    content and the counts that the entry had before, under two successive
    numbers; the counter ends two higher. *)
Lemma restore_snapshots_twice `{Runtime} (env : Env) (st : Store) (i vid : Z)
    (e : Entry.t) (k : Version.t) :
  find_entry st i = Some e ->
  find_version st vid = Some k ->
  Version.entry_id k = i ->
  Entry.content e <> "" ->
  number_taken st i (Entry.current_version e) = false ->
  number_taken st i (Entry.current_version e + 1) = false ->
  exists st' v1 v2,
    action_restore_version env st [i] vid = Ok st'
    /\ versions st' = versions st ++ [v1; v2]
    /\ (Version.version_number v1, Version.version_number v2)
       = (Entry.current_version e, Entry.current_version e + 1)
    /\ (Version.content v1, Version.word_count v1, Version.char_count v1)
       = (Entry.content e, Entry.word_count e, Entry.char_count e)
    /\ (Version.content v2, Version.word_count v2, Version.char_count v2)
       = (Entry.content e, Entry.word_count e, Entry.char_count e)
    /\ entry_field Entry.current_version st' i = Some (Entry.current_version e + 2)
    /\ entry_field Entry.content st' i = Some (Version.content k).
Proof.
  intros Hf Hk Hki Hne Hfree Hfree'.
  assert (Htr : Py.truthy (Entry.content e) = true)
    by (destruct (Entry.content e); [congruence | reflexivity]).
  set (e1 := assign env (Vals.of_current_version (Entry.current_version e + 1)) e).
  set (st1 := snapshotted env st e).
  set (vals := Vals.of_snapshot (Version.content k) (Version.word_count k)
                 (Version.char_count k)).
  assert (Hf1 : find_entry st1 i = Some e1) by now apply find_entry_snapshotted.
  assert (Hfree1 : number_taken st1 i (Entry.current_version e1) = false).
  { unfold number_taken, st1, snapshotted. simpl.
    rewrite existsb_app. fold (number_taken st i (Entry.current_version e + 1)).
    rewrite Hfree'. simpl.
    replace (Entry.current_version e =? Entry.current_version e + 1) with false
      by (symmetry; apply Z.eqb_neq; lia).
    now rewrite andb_false_r. }
  exists (written env st1 e1 vals), (snapshot env st e), (snapshot env st1 e1).
  split.
  - unfold action_restore_version. simpl. unfold read_version. rewrite Hk. simpl.
    apply Z.eqb_eq in Hki. rewrite Hki.
    rewrite (create_version_one env st i e Hf Hfree), Htr. simpl.
    now apply write_one.
  - unfold entry_field.
    rewrite (find_entry_written env st1 i e1 vals Hf1), versions_written.
    change (Entry.content e1) with (Entry.content e). rewrite Htr. simpl.
    rewrite <- app_assoc. simpl.
    repeat split. f_equal. lia.
Qed.

(** C1 at an entry edited once and restored to its version 1: the state
    before the restore (content there, counter 2) is kept twice, as the
    versions 2 and 3, and the counter goes from 2 to 4. *)
Theorem restore_of_first_version_adds_two_versions `{Runtime} :
  exists st',
    action_restore_version Example.env Example.st2 [10] 11 = Ok st'
    /\ map (fun v => (Version.version_number v, Version.content v))
         (versions Example.st2)
       = [(1, "hello")]
    /\ entry_field Entry.current_version Example.st2 10 = Some 2
    /\ map (fun v => (Version.version_number v, Version.content v)) (versions st')
       = [(1, "hello"); (2, "there"); (3, "there")]
    /\ entry_field Entry.current_version st' 10 = Some 4
    /\ entry_field Entry.content st' 10 = Some "hello".
Proof.
  eexists. split; [vm_compute; reflexivity |].
  vm_compute. repeat split.
Qed.

(** ** N writes of a content *)

Section Writes.
Context `{RT : Runtime}.
Variable env : Env.
Variable i : Z.

Lemma write_step (k : nat) (st : Store) (vals : Vals.t) :
  after_writes i k st ->
  content_write env vals = true ->
  exists st', write env st [i] vals = Ok st' /\ after_writes i (S k) st'.
Proof.
  intros [e [Hf [Hcv [Htr Hnum]]]] Hw.
  unfold content_write in Hw.
  apply andb_true_iff in Hw. destruct Hw as [Hw Hv].
  apply andb_true_iff in Hw. destruct Hw as [Hc Hacc].
  destruct (Vals.content vals) as [c |] eqn:Hcontent; [| discriminate].
  destruct (Vals.current_version vals) eqn:Hversion; [discriminate |].
  assert (Hhas : Vals.has_content vals = true)
    by (unfold Vals.has_content; now rewrite Hcontent).
  assert (Hfree : number_taken st i (Entry.current_version e) = false).
  { apply not_true_is_false. intros Ht. apply number_taken_iff in Ht.
    rewrite Hnum, Hcv in Ht. apply in_map_iff in Ht. destruct Ht as [n [Hn Hin]].
    apply in_seq in Hin. lia. }
  exists (written env st e vals). split; [now apply write_one |].
  exists (assign env vals
            (assign env (Vals.of_current_version (Entry.current_version e + 1)) e)).
  split; [| split; [| split]].
  - rewrite (find_entry_written env st i e vals Hf), Hhas, Htr. reflexivity.
  - simpl. rewrite Hversion. simpl. lia.
  - simpl. rewrite Hcontent. exact Hc.
  - rewrite (version_ids_written env st i e vals (find_entry_id _ _ _ Hf)).
    rewrite Hhas, Htr. cbn [andb]. rewrite map_app, Hnum, seq_S, map_app.
    cbn [map snapshot Version.version_number]. f_equal. f_equal. rewrite Hcv. lia.
Qed.

Lemma write_each_steps (ws : list Vals.t) (k : nat) (st : Store) :
  after_writes i k st ->
  forallb (content_write env) ws = true ->
  exists st',
    write_each env st [i] ws = Ok st' /\ after_writes i (k + List.length ws) st'.
Proof.
  revert k st. induction ws as [| vals ws IH]; intros k st Hinv Hall.
  - exists st. split; [reflexivity |]. simpl. now rewrite Nat.add_0_r.
  - simpl in Hall. apply andb_true_iff in Hall. destruct Hall as [Hw Hall].
    destruct (write_step k st vals Hinv Hw) as [st1 [Hwrite Hinv1]].
    destruct (IH (S k) st1 Hinv1 Hall) as [st' [Heach Hinv']].
    exists st'. split.
    + simpl. rewrite Hwrite. exact Heach.
    + simpl. now rewrite Nat.add_succ_r.
Qed.

End Writes.

Lemma find_in_app {A : Type} (f : A -> bool) (l1 l2 : list A) :
  find f (l1 ++ l2)
  = match find f l1 with Some x => Some x | None => find f l2 end.
Proof.
  induction l1 as [| a l IH]; simpl; [reflexivity |].
  now destruct (f a).
Qed.

Lemma NoDup_numbers (k : nat) : NoDup (map Z.of_nat (seq 1 k)).
Proof.
  generalize 1%nat. induction k as [| k IH]; intros s; simpl; constructor.
  - rewrite in_map_iff. intros [n [Hn Hin]]. apply in_seq in Hin. lia.
  - apply IH.
Qed.

Lemma created_entry `{Runtime} (env : Env) (st0 st1 : Store) (vals0 : Vals.t)
    (i : Z) :
  ids_below_counter st0 = true ->
  create env st0 vals0 = Ok (i, st1) ->
  Py.truthy (get_or (Vals.content vals0) "") = true ->
  Vals.current_version vals0 = None ->
  after_writes i 0 st1.
Proof.
  intros Hids Hcreate Htr Hv. unfold create in Hcreate.
  destruct (Vals.name vals0) as [name |]; [| discriminate].
  destruct (Vals.notebook_id vals0) as [nb |]; [| discriminate].
  destruct (find_notebook st0 nb); [| discriminate].
  destruct (_check_entry_date _ _); [| discriminate].
  destruct (_check_name_length _); [| discriminate].
  simpl in Hcreate. injection Hcreate as Hi Hst. subst i st1.
  apply andb_true_iff in Hids. destruct Hids as [He Hvs].
  rewrite forallb_forall in He, Hvs.
  eexists. split; [| split; [| split]].
  - unfold find_entry. simpl. rewrite find_in_app.
    destruct (find _ (entries st0)) as [e |] eqn:Hfind.
    + apply find_some in Hfind. destruct Hfind as [Hin Hid].
      apply He in Hin. apply Z.eqb_eq in Hid. lia.
    + simpl. rewrite Z.eqb_refl. reflexivity.
  - simpl. now rewrite Hv.
  - exact Htr.
  - unfold version_ids. simpl.
    induction (versions st0) as [| v l IH]; [reflexivity |]. simpl.
    destruct (Version.entry_id v =? next_id st0) eqn:Hid.
    + assert (Hlt : (Version.entry_id v <? next_id st0) = true)
        by (apply Hvs; now left).
      apply Z.eqb_eq in Hid. lia.
    + apply IH. intros x Hx. apply Hvs. now right.
Qed.

(** C4. An entry is created with a content, in a store whose ids are below
    its counter, and [ws] are then written in turn, each accepted and each
    with a content.  All the writes return; the entry then has as many
    versions as there were writes, numbered 1, 2, ... in the order of their
    creation, no two with the same key (entry, number), and its counter is
    one more than the number of writes. *)
Theorem versions_after_content_writes `{Runtime} (env : Env) (st0 st1 : Store)
    (vals0 : Vals.t) (i : Z) (ws : list Vals.t) :
  ids_below_counter st0 = true ->
  create env st0 vals0 = Ok (i, st1) ->
  Py.truthy (get_or (Vals.content vals0) "") = true ->
  Vals.current_version vals0 = None ->
  forallb (content_write env) ws = true ->
  exists stN,
    write_each env st1 [i] ws = Ok stN
    /\ List.length (version_ids stN i) = List.length ws
    /\ map Version.version_number (version_ids stN i)
       = map Z.of_nat (seq 1 (List.length ws))
    /\ NoDup (map version_key (version_ids stN i))
    /\ entry_field Entry.current_version stN i
       = Some (Z.of_nat (List.length ws) + 1).
Proof.
  intros Hids Hcreate Htr Hv Hall.
  pose proof (created_entry env st0 st1 vals0 i Hids Hcreate Htr Hv) as Hinv.
  destruct (write_each_steps env i ws 0 st1 Hinv Hall) as [stN [Heach HinvN]].
  simpl in HinvN. destruct HinvN as [e [Hf [Hcv [_ Hnum]]]].
  exists stN. split; [exact Heach |].
  assert (Hlen : List.length (version_ids stN i) = List.length ws).
  { rewrite <- (length_map Version.version_number), Hnum, length_map.
    apply length_seq. }
  split; [exact Hlen |]. split; [exact Hnum |]. split.
  - assert (Hnd : NoDup (map Version.version_number (version_ids stN i))).
    { rewrite Hnum. apply NoDup_numbers. }
    clear - Hnd. induction (version_ids stN i) as [| v l IH]; simpl.
    + constructor.
    + simpl in Hnd. inversion Hnd as [| x xs Hnotin Hnd']. subst.
      constructor; [| now apply IH].
      intros Hin. apply Hnotin. apply in_map_iff in Hin.
      destruct Hin as [w [Hkey Hw]]. apply in_map_iff. exists w.
      split; [| exact Hw]. unfold version_key in Hkey. congruence.
  - unfold entry_field. rewrite Hf. simpl. now rewrite Hcv.
Qed.

(** Three writes after the creation of the entry 10. *)
Lemma versions_after_content_writes_witness :
  exists stN,
    write_each (H := one_word_runtime) Example.env Example.st1 [10]
      [Vals.of_content "there"; Vals.of_content "there"; Vals.of_content "again"]
    = Ok stN
    /\ List.length (version_ids stN 10) = 3%nat
    /\ map Version.version_number (version_ids stN 10) = [1; 2; 3]
    /\ NoDup (map version_key (version_ids stN 10))
    /\ entry_field Entry.current_version stN 10 = Some 4.
Proof.
  apply (versions_after_content_writes (H := one_word_runtime)
           Example.env Example.st0 Example.st1 Example.hello 10
           [Vals.of_content "there"; Vals.of_content "there";
            Vals.of_content "again"]);
    reflexivity.
Defined.

End VersionFacts.

(** ** Mood statistics *)

Module MoodFacts.
Import MoodAnalysis MoodSpec.
Local Open Scope list_scope.

Lemma mood_eqb_eq (a b : Mood) : mood_eqb a b = true <-> a = b.
Proof. destruct a, b; simpl; split; intros Hab; congruence. Qed.

Lemma mood_eqb_refl (a : Mood) : mood_eqb a a = true.
Proof. now apply mood_eqb_eq. Qed.

Lemma mood_eqb_sym (a b : Mood) : mood_eqb a b = mood_eqb b a.
Proof. now destruct a, b. Qed.

Lemma mood_eqb_neq (a b : Mood) : mood_eqb a b = false <-> a <> b.
Proof.
  split.
  - intros Hf Hab. apply mood_eqb_eq in Hab. congruence.
  - intros Hn. destruct (mood_eqb a b) eqn:Hab; [| reflexivity].
    apply mood_eqb_eq in Hab. contradiction.
Qed.

Lemma existsb_mood_In (m : Mood) (l : list Mood) :
  existsb (mood_eqb m) l = true <-> In m l.
Proof.
  rewrite existsb_exists. split.
  - intros [x [Hin Hx]]. apply mood_eqb_eq in Hx. now subst.
  - intros Hin. exists m. split; [exact Hin | apply mood_eqb_refl].
Qed.

(** *** Dicts keyed by moods *)

Section MoodDict.
Variable V : Type.
Implicit Types (d : Dict.t Mood V) (m k : Mood) (v : V).

Lemma get_set d m k v default :
  Dict.get mood_eqb (Dict.set mood_eqb d m v) k default
  = if mood_eqb m k then v else Dict.get mood_eqb d k default.
Proof.
  destruct (mood_eqb m k) eqn:Hmk.
  - apply mood_eqb_eq in Hmk. subst.
    apply (DictFacts.get_set_same Mood V mood_eqb mood_eqb_eq).
  - apply mood_eqb_neq in Hmk.
    now apply (DictFacts.get_set_other Mood V mood_eqb mood_eqb_eq).
Qed.

Lemma keys_set d m v :
  Dict.keys (Dict.set mood_eqb d m v)
  = if existsb (mood_eqb m) (Dict.keys d) then Dict.keys d else Dict.keys d ++ [m].
Proof.
  destruct (existsb (mood_eqb m) (Dict.keys d)) eqn:Hm.
  - apply existsb_mood_In in Hm.
    now apply (DictFacts.keys_set_in Mood V mood_eqb mood_eqb_eq).
  - apply (DictFacts.keys_set_new Mood V mood_eqb mood_eqb_eq).
    intros Hin. apply existsb_mood_In in Hin. congruence.
Qed.

Lemma in_set d m v k w :
  In (k, w) (Dict.set mood_eqb d m v) -> (k = m /\ w = v) \/ In (k, w) d.
Proof.
  induction d as [| [k' v'] d IH]; simpl.
  - intros [Heq | []]. left. split; congruence.
  - destruct (mood_eqb k' m) eqn:Hkm; simpl.
    + apply mood_eqb_eq in Hkm. subst k'.
      intros [Heq | Hin]; [left; split; congruence | right; now right].
    + intros [Heq | Hin]; [right; now left |].
      destruct (IH Hin) as [Hl | Hr]; [now left | right; now right].
Qed.

End MoodDict.

(** *** [distinct]: the first occurrences, in their order *)

Lemma distinct_seen (s1 s2 l : list Mood) :
  (forall x, In x s1 <-> In x s2) -> distinct s1 l = distinct s2 l.
Proof.
  revert s1 s2. induction l as [| m l IH]; intros s1 s2 Hs; simpl; [reflexivity |].
  assert (He : existsb (mood_eqb m) s1 = existsb (mood_eqb m) s2).
  { destruct (existsb (mood_eqb m) s1) eqn:H1; symmetry.
    - apply existsb_mood_In. apply Hs. now apply existsb_mood_In.
    - apply not_true_is_false. intros H2. apply existsb_mood_In in H2.
      apply Hs in H2. apply existsb_mood_In in H2. congruence. }
  rewrite He. destruct (existsb (mood_eqb m) s2).
  - now apply IH.
  - f_equal. apply IH. intros x. simpl. now rewrite Hs.
Qed.

Lemma distinct_app (s l1 l2 : list Mood) :
  distinct s (l1 ++ l2) = distinct s l1 ++ distinct (rev l1 ++ s) l2.
Proof.
  revert s. induction l1 as [| m l1 IH]; intros s; simpl; [reflexivity |].
  destruct (existsb (mood_eqb m) s) eqn:Hm.
  - rewrite IH. f_equal. apply distinct_seen. intros x.
    rewrite !in_app_iff. simpl. apply existsb_mood_In in Hm.
    split; [tauto |]. intros [[Hx | [Hx | []]] | Hx]; subst; tauto.
  - simpl. f_equal. rewrite IH. f_equal. apply distinct_seen. intros x.
    rewrite !in_app_iff. simpl. tauto.
Qed.

Lemma in_distinct (s l : list Mood) (x : Mood) :
  In x (distinct s l) <-> In x l /\ ~ In x s.
Proof.
  revert s. induction l as [| m l IH]; intros s; simpl; [tauto |].
  destruct (existsb (mood_eqb m) s) eqn:Hm.
  - apply existsb_mood_In in Hm. rewrite IH. split.
    + tauto.
    + intros [[Hx | Hx] Hn]; [subst; contradiction | tauto].
  - assert (Hn : ~ In m s).
    { intros Hin. apply existsb_mood_In in Hin. congruence. }
    simpl. rewrite IH. simpl. split.
    + intros [Hx | [Hx Hs]]; [subst; tauto | tauto].
    + intros [[Hx | Hx] Hs]; [now left |].
      destruct (mood_eqb m x) eqn:Hmx.
      * apply mood_eqb_eq in Hmx. now left.
      * apply mood_eqb_neq in Hmx. right. tauto.
Qed.

(** *** [count_moods] *)

Lemma count_fold_get (l : list Mood) (d : Dict.t Mood Z) (x : Mood) :
  Dict.get mood_eqb (fold_left count_step l d) x 0
  = Dict.get mood_eqb d x 0 + occurrences x l.
Proof.
  revert d. induction l as [| m l IH]; intros d; simpl.
  - unfold occurrences. simpl. lia.
  - rewrite IH. unfold count_step. rewrite get_set.
    unfold occurrences. simpl. rewrite (mood_eqb_sym x m).
    destruct (mood_eqb m x) eqn:Hmx; simpl.
    + apply mood_eqb_eq in Hmx. subst. lia.
    + lia.
Qed.

Lemma count_fold_keys (l : list Mood) (d : Dict.t Mood Z) :
  Dict.keys (fold_left count_step l d) = Dict.keys d ++ distinct (Dict.keys d) l.
Proof.
  revert d. induction l as [| m l IH]; intros d; simpl.
  - now rewrite app_nil_r.
  - rewrite IH. unfold count_step. rewrite keys_set.
    destruct (existsb (mood_eqb m) (Dict.keys d)); [reflexivity |].
    rewrite <- app_assoc. simpl. f_equal. f_equal.
    apply distinct_seen. intros x. rewrite in_app_iff. simpl. tauto.
Qed.

Lemma count_moods_get (l : list Mood) (x : Mood) :
  Dict.get mood_eqb (count_moods l) x 0 = occurrences x l.
Proof. unfold count_moods. apply (count_fold_get l [] x). Qed.

Lemma count_moods_keys (l : list Mood) :
  Dict.keys (count_moods l) = distinct [] l.
Proof. unfold count_moods. apply (count_fold_keys l []). Qed.

Lemma occurrences_nonneg (x : Mood) (l : list Mood) : 0 <= occurrences x l.
Proof. unfold occurrences. lia. Qed.

Lemma occurrences_absent (x : Mood) (l : list Mood) :
  ~ In x l -> occurrences x l = 0.
Proof.
  intros Hn. unfold occurrences.
  replace (filter (mood_eqb x) l) with (@nil Mood); [reflexivity |].
  symmetry. induction l as [| m l IH]; simpl; [reflexivity |].
  destruct (mood_eqb x m) eqn:Hxm.
  - apply mood_eqb_eq in Hxm. subst. exfalso. apply Hn. now left.
  - apply IH. intros Hin. apply Hn. now right.
Qed.

(** *** [max_by]: the first of the greatest *)

Lemma max_fold (f : Mood -> Z) (rest done : list Mood) (best : Mood) :
  forall before after,
    done = before ++ best :: after ->
    (forall x, In x before -> f x < f best) ->
    (forall x, In x after -> f x <= f best) ->
    exists r before' after',
      fold_left (fun best y => if f best <? f y then y else best) rest best = r
      /\ done ++ rest = before' ++ r :: after'
      /\ (forall x, In x before' -> f x < f r)
      /\ (forall x, In x after' -> f x <= f r).
Proof.
  revert done best. induction rest as [| y rest IH]; intros done best before after Hd Hb Ha.
  - exists best, before, after. rewrite app_nil_r. now repeat split.
  - simpl. destruct (f best <? f y) eqn:Hlt.
    + apply Z.ltb_lt in Hlt.
      destruct (IH (done ++ [y]) y done []) as [r [b' [a' [Hr [Hl [Hb' Ha']]]]]].
      * reflexivity.
      * intros x Hx. subst done. apply in_app_iff in Hx.
        destruct Hx as [Hx | [Hx | Hx]].
        -- specialize (Hb x Hx). lia.
        -- subst. exact Hlt.
        -- specialize (Ha x Hx). lia.
      * intros x [].
      * exists r, b', a'. rewrite <- app_assoc in Hl. now repeat split.
    + apply Z.ltb_ge in Hlt.
      destruct (IH (done ++ [y]) best before (after ++ [y])) as [r [b' [a' [Hr [Hl [Hb' Ha']]]]]].
      * subst done. rewrite <- app_assoc. reflexivity.
      * exact Hb.
      * intros x Hx. apply in_app_iff in Hx. destruct Hx as [Hx | [Hx | []]].
        -- now apply Ha.
        -- now subst.
      * exists r, b', a'. rewrite <- app_assoc in Hl. now repeat split.
Qed.

Lemma max_by_first_greatest (f : Mood -> Z) (l : list Mood) :
  l <> [] ->
  exists r before after,
    max_by f l = Some r
    /\ l = before ++ r :: after
    /\ (forall x, In x before -> f x < f r)
    /\ (forall x, In x after -> f x <= f r).
Proof.
  destruct l as [| x rest]; [congruence |]. intros _.
  destruct (max_fold f rest [x] x [] []) as [r [b [a [Hr [Hl [Hb Ha]]]]]];
    try reflexivity; try (intros ? []).
  exists r, b, a. simpl. rewrite Hr. now repeat split.
Qed.

Lemma first_occurrence (m : Mood) (l : list Mood) :
  In m l -> exists pre post, l = pre ++ m :: post /\ ~ In m pre.
Proof.
  induction l as [| x l IH]; [intros [] |].
  intros Hin. destruct (mood_eqb x m) eqn:Hxm.
  - apply mood_eqb_eq in Hxm. subst. exists [], l. split; [reflexivity | intros []].
  - apply mood_eqb_neq in Hxm. destruct Hin as [Hx | Hin]; [contradiction |].
    destruct (IH Hin) as [pre [post [Hl Hn]]].
    exists (x :: pre), post. split; [simpl; now f_equal |].
    intros [Hx | Hx]; [contradiction | contradiction].
Qed.

Lemma first_split_unique (m : Mood) (a a' b b' : list Mood) :
  a ++ m :: b = a' ++ m :: b' -> ~ In m a -> ~ In m a' -> a = a'.
Proof.
  revert a'. induction a as [| x a IH]; intros a' Heq Hn Hn'.
  - destruct a' as [| y a']; [reflexivity |]. simpl in Heq.
    injection Heq as Hy _. subst. exfalso. apply Hn'. now left.
  - destruct a' as [| y a']; simpl in Heq.
    + injection Heq as Hx _. subst. exfalso. apply Hn. now left.
    + injection Heq as Hx Hrest. subst. f_equal.
      apply (IH a' Hrest); intros Hin; [apply Hn | apply Hn']; now right.
Qed.

(** *** [search] *)

Lemma in_insert_ordered (e x : Entry.t) (l : list Entry.t) :
  In x (insert_ordered e l) <-> x = e \/ In x l.
Proof.
  induction l as [| y l IH]; simpl.
  - split; [intros [Hx | []]; now left | intros [Hx | []]; now left].
  - destruct (before e y); simpl.
    + split; intros [Hx | Hx]; auto.
    + rewrite IH. split.
      * intros [Hx | [Hx | Hx]]; auto.
      * intros [Hx | [Hx | Hx]]; auto.
Qed.

Lemma in_search (st : Store) (domain : Entry.t -> bool) (x : Entry.t) :
  In x (search st domain) <-> In x (entries st) /\ domain x = true.
Proof.
  unfold search. rewrite <- filter_In.
  induction (filter domain (entries st)) as [| y l IH]; simpl; [tauto |].
  rewrite in_insert_ordered, IH. split; intros [Hx | Hx]; auto.
Qed.

Lemma moods_of_has_mood (l : list Entry.t) :
  l <> [] -> forallb has_mood l = true -> moods_of l <> [].
Proof.
  destruct l as [| e l]; [congruence |]. intros _. simpl. unfold has_mood.
  destruct (Entry.mood e); [discriminate |]. simpl. discriminate.
Qed.

(** C8. When none of the entries of the user that are in the period has a
    mood, [get_mood_statistics] returns the statistics with zero entries,
    empty dicts and no most common mood.  (The function is total: it
    raises on no store.) *)
Theorem no_mood_entries_no_statistics `{Runtime} (env : Env) (st : Store)
    (user_id : option Z) (period : string) :
  (forall e, In e (entries st) ->
             in_period env (user_or_self env user_id) period e = true ->
             Entry.mood e = None) ->
  get_mood_statistics env st user_id period = no_statistics
  /\ total_entries (get_mood_statistics env st user_id period) = 0
  /\ mood_counts (get_mood_statistics env st user_id period) = []
  /\ mood_percentages (get_mood_statistics env st user_id period) = []
  /\ mood_trends (get_mood_statistics env st user_id period) = []
  /\ notebook_breakdown (get_mood_statistics env st user_id period) = []
  /\ most_common_mood (get_mood_statistics env st user_id period) = None.
Proof.
  intros Hnone.
  assert (Hempty : mood_entries env st user_id period = []).
  { unfold mood_entries.
    destruct (filter has_mood _) as [| e l] eqn:Hfilter; [reflexivity |].
    assert (Hin : In e (e :: l)) by now left.
    rewrite <- Hfilter in Hin. apply filter_In in Hin. destruct Hin as [Hin Hmood].
    apply in_search in Hin. destruct Hin as [Hin Hdom].
    unfold has_mood in Hmood. rewrite (Hnone e Hin Hdom) in Hmood. discriminate. }
  assert (Hstats : get_mood_statistics env st user_id period = no_statistics).
  { unfold get_mood_statistics. now rewrite Hempty. }
  rewrite Hstats. now repeat split.
Qed.

(** The user 8 of the diary. *)
Lemma no_mood_entries_no_statistics_witness :
  get_mood_statistics (H := one_word_runtime) Example.env MoodExample.diary
    (Some 8) "month" = no_statistics
  /\ total_entries (get_mood_statistics (H := one_word_runtime) Example.env
                      MoodExample.diary (Some 8) "month") = 0
  /\ mood_counts (get_mood_statistics (H := one_word_runtime) Example.env
                    MoodExample.diary (Some 8) "month") = []
  /\ mood_percentages (get_mood_statistics (H := one_word_runtime) Example.env
                         MoodExample.diary (Some 8) "month") = []
  /\ mood_trends (get_mood_statistics (H := one_word_runtime) Example.env
                    MoodExample.diary (Some 8) "month") = []
  /\ notebook_breakdown (get_mood_statistics (H := one_word_runtime) Example.env
                           MoodExample.diary (Some 8) "month") = []
  /\ most_common_mood (get_mood_statistics (H := one_word_runtime) Example.env
                         MoodExample.diary (Some 8) "month") = None.
Proof.
  apply (no_mood_entries_no_statistics (H := one_word_runtime) Example.env
           MoodExample.diary (Some 8) "month").
  intros e Hin Hperiod. simpl in Hin.
  repeat (destruct Hin as [He | Hin]; [subst e; vm_compute in Hperiod;
                                      first [discriminate | reflexivity] |]).
  destruct Hin.
Defined.

(** *** The most common mood *)

Lemma mood_entries_have_mood `{Runtime} (env : Env) (st : Store)
    (user_id : option Z) (period : string) :
  forallb has_mood (mood_entries env st user_id period) = true.
Proof.
  unfold mood_entries. apply forallb_forall. intros e He.
  apply filter_In in He. tauto.
Qed.

Lemma in_moods_dec (x : Mood) (l : list Mood) : In x l \/ ~ In x l.
Proof.
  destruct (existsb (mood_eqb x) l) eqn:Hx.
  - left. now apply existsb_mood_In.
  - right. intros Hin. apply existsb_mood_In in Hin. congruence.
Qed.

(** The first of the greatest among the keys of [count_moods] is the mood
    whose first occurrence comes first among the moods that occur most. *)
Lemma most_common_of_moods (ms : list Mood) :
  ms <> [] ->
  exists m pre post,
    max_by (fun m => Dict.get mood_eqb (count_moods ms) m 0)
      (Dict.keys (count_moods ms)) = Some m
    /\ ms = pre ++ m :: post
    /\ ~ In m pre
    /\ (forall x, occurrences x ms <= occurrences m ms)
    /\ (forall x, In x pre -> occurrences x ms < occurrences m ms).
Proof.
  intros Hne.
  assert (Hkeys : Dict.keys (count_moods ms) <> []).
  { rewrite count_moods_keys. destruct ms as [| x l]; [congruence |].
    simpl. discriminate. }
  destruct (max_by_first_greatest
              (fun m => Dict.get mood_eqb (count_moods ms) m 0)
              (Dict.keys (count_moods ms)) Hkeys)
    as [m [before [after [Hmax [Hsplit [Hbefore Hafter]]]]]].
  rewrite count_moods_keys in Hsplit.
  assert (Hb : forall x, In x before -> occurrences x ms < occurrences m ms).
  { intros x Hx. specialize (Hbefore x Hx). now rewrite !count_moods_get in Hbefore. }
  assert (Ha : forall x, In x after -> occurrences x ms <= occurrences m ms).
  { intros x Hx. specialize (Hafter x Hx). now rewrite !count_moods_get in Hafter. }
  assert (Hm : In m ms).
  { apply (in_distinct [] ms m). rewrite Hsplit. apply in_app_iff. right. now left. }
  destruct (first_occurrence m ms Hm) as [pre [post [Hms Hpre]]].
  assert (Hd : distinct [] ms
               = distinct [] pre ++ m :: distinct (m :: rev pre ++ []) post).
  { rewrite Hms at 1. rewrite distinct_app. simpl.
    destruct (existsb (mood_eqb m) (rev pre ++ [])) eqn:Hex; [| reflexivity].
    apply existsb_mood_In in Hex. rewrite app_nil_r in Hex.
    apply in_rev in Hex. contradiction. }
  assert (Heq : before = distinct [] pre).
  { apply (first_split_unique m before (distinct [] pre) after
             (distinct (m :: rev pre ++ []) post)).
    - congruence.
    - intros Hin. specialize (Hb m Hin). lia.
    - intros Hin. apply in_distinct in Hin. tauto. }
  exists m, pre, post. repeat split; try assumption.
  - intros x. destruct (in_moods_dec x ms) as [Hx | Hx].
    + assert (Hxd : In x (distinct [] ms)) by (apply in_distinct; tauto).
      rewrite Hsplit in Hxd. apply in_app_iff in Hxd.
      destruct Hxd as [Hxb | [Hxm | Hxa]].
      * specialize (Hb x Hxb). lia.
      * subst. lia.
      * now apply Ha.
    + rewrite (occurrences_absent x ms Hx). apply occurrences_nonneg.
  - intros x Hx. apply Hb. rewrite Heq. apply in_distinct. tauto.
Qed.

(** C6. With the moods of the entries in the order in which they are
    counted: when there is at least one, the most common mood is a mood
    that occurs the most often, and no mood that occurs before its first
    occurrence occurs as often; the counts returned are the numbers of
    occurrences. *)
Theorem most_common_mood_is_first_counted `{Runtime} (env : Env) (st : Store)
    (user_id : option Z) (period : string) :
  mood_entries env st user_id period <> [] ->
  exists m pre post,
    most_common_mood (get_mood_statistics env st user_id period) = Some m
    /\ moods_of (mood_entries env st user_id period) = pre ++ m :: post
    /\ ~ In m pre
    /\ (forall x,
          Dict.get mood_eqb
            (mood_counts (get_mood_statistics env st user_id period)) x 0
          = occurrences x (moods_of (mood_entries env st user_id period)))
    /\ (forall x,
          occurrences x (moods_of (mood_entries env st user_id period))
          <= occurrences m (moods_of (mood_entries env st user_id period)))
    /\ (forall x, In x pre ->
          occurrences x (moods_of (mood_entries env st user_id period))
          < occurrences m (moods_of (mood_entries env st user_id period))).
Proof.
  intros Hne.
  pose proof (mood_entries_have_mood env st user_id period) as Hall.
  pose proof (moods_of_has_mood _ Hne Hall) as Hms.
  destruct (most_common_of_moods _ Hms) as [m [pre [post [Hmax [Hsplit [Hpre [Hle Hlt]]]]]]].
  exists m, pre, post.
  unfold get_mood_statistics.
  destruct (mood_entries env st user_id period) as [| e l] eqn:Hentries;
    [congruence |].
  cbn [most_common_mood mood_counts].
  repeat split; try assumption.
  intros x. apply count_moods_get.
Qed.

(** In the diary, sad and happy both occur twice; sad is counted first. *)
Lemma most_common_mood_is_first_counted_witness :
  exists m pre post,
    most_common_mood (get_mood_statistics (H := one_word_runtime) Example.env
                        MoodExample.diary (Some 7) "all") = Some m
    /\ moods_of (mood_entries (H := one_word_runtime) Example.env
                   MoodExample.diary (Some 7) "all") = pre ++ m :: post
    /\ ~ In m pre
    /\ (forall x,
          Dict.get mood_eqb
            (mood_counts (get_mood_statistics (H := one_word_runtime) Example.env
                            MoodExample.diary (Some 7) "all")) x 0
          = occurrences x (moods_of (mood_entries (H := one_word_runtime)
                                       Example.env MoodExample.diary (Some 7) "all")))
    /\ (forall x,
          occurrences x (moods_of (mood_entries (H := one_word_runtime)
                                     Example.env MoodExample.diary (Some 7) "all"))
          <= occurrences m (moods_of (mood_entries (H := one_word_runtime)
                                        Example.env MoodExample.diary (Some 7) "all")))
    /\ (forall x, In x pre ->
          occurrences x (moods_of (mood_entries (H := one_word_runtime)
                                     Example.env MoodExample.diary (Some 7) "all"))
          < occurrences m (moods_of (mood_entries (H := one_word_runtime)
                                       Example.env MoodExample.diary (Some 7) "all"))).
Proof.
  apply (most_common_mood_is_first_counted (H := one_word_runtime) Example.env
           MoodExample.diary (Some 7) "all").
  vm_compute. discriminate.
Defined.

Example most_common_mood_of_the_diary :
  most_common_mood (get_mood_statistics (H := one_word_runtime) Example.env
                      MoodExample.diary (Some 7) "all") = Some sad
  /\ moods_of (mood_entries (H := one_word_runtime) Example.env
                 MoodExample.diary (Some 7) "all")
     = [sad; happy; happy; sad; tired].
Proof. split; reflexivity. Qed.

(** *** The trends *)

Lemma trends_bindings `{Runtime} (recent previous : Dict.t Mood Z)
    (moods : list Mood) (trends : Dict.t Mood Trend) (m : Mood) (t : Trend) :
  In (m, t)
    (fold_left
       (fun trends mood =>
          Dict.set mood_eqb trends mood
            (trend_entry (Dict.get mood_eqb recent mood 0)
               (Dict.get mood_eqb previous mood 0)))
       moods trends) ->
  In (m, t) trends
  \/ t = trend_entry (Dict.get mood_eqb recent m 0) (Dict.get mood_eqb previous m 0).
Proof.
  revert trends. induction moods as [| k moods IH]; intros trends Hin; simpl in Hin.
  - now left.
  - destruct (IH _ Hin) as [Hset | Ht]; [| now right].
    apply in_set in Hset. destruct Hset as [[Hk Hv] | Hold]; [| now left].
    subst. now right.
Qed.

(** With a count before that is not zero, the sign of the trend is that of
    the difference of the counts. *)
Lemma trend_sign (recent_count previous_count : Z) :
  0 < previous_count ->
  Num.positive (trend_of recent_count previous_count)
  = (previous_count <? recent_count)
  /\ Num.negative (trend_of recent_count previous_count)
     = (recent_count <? previous_count).
Proof.
  intros Hp. unfold trend_of.
  replace (previous_count =? 0) with false by (symmetry; apply Z.eqb_neq; lia).
  destruct previous_count as [| p | p]; try lia.
  unfold Num.positive, Num.negative, Qcompare, Qdiv, Qmult, Qinv, inject_Z.
  cbn [Qnum Qden]. rewrite !Z.mul_1_r. simpl (0 * _).
  destruct (Z.compare_spec ((recent_count - Z.pos p) * 100) 0) as [He | Hl | Hg].
  - split; symmetry; [apply Z.ltb_ge | apply Z.ltb_ge]; lia.
  - split; symmetry; [apply Z.ltb_ge | apply Z.ltb_lt]; lia.
  - split; symmetry; [apply Z.ltb_lt | apply Z.ltb_ge]; lia.
Qed.

(** The counts do not depend on the order of the search. *)
Lemma occurrences_insert_ordered (m : Mood) (e : Entry.t) (l : list Entry.t) :
  occurrences m (moods_of (insert_ordered e l)) = occurrences m (moods_of (e :: l)).
Proof.
  induction l as [| x l IH]; [reflexivity |].
  cbn [insert_ordered]. destruct (before e x); [reflexivity |].
  revert IH. unfold occurrences. cbn [moods_of].
  destruct (Entry.mood x) as [mx |], (Entry.mood e) as [me |]; cbn [filter];
    try destruct (mood_eqb m mx); try destruct (mood_eqb m me);
    cbn [List.length]; lia.
Qed.

Lemma occurrences_search (m : Mood) (st : Store) (domain : Entry.t -> bool) :
  occurrences m (moods_of (search st domain))
  = occurrences m (moods_of (filter domain (entries st))).
Proof.
  unfold search. induction (filter domain (entries st)) as [| e l IH];
    [reflexivity |].
  cbn [fold_right]. rewrite occurrences_insert_ordered.
  revert IH. unfold occurrences. cbn [moods_of].
  destruct (Entry.mood e) as [me |]; cbn [filter];
    try destruct (mood_eqb m me); cbn [List.length]; lia.
Qed.

(** The count of a mood among the entries that a search finds for a user,
    with a mood and in a range of dates, is the number of the entries of
    the store that are of the user, with this mood and in the range. *)
Lemma count_of_search (st : Store) (user_id : Z) (m : Mood) (dated : Z -> bool)
    (domain : Entry.t -> bool) :
  (forall e, domain e
             = (Entry.user_id e =? user_id) && has_mood e
               && dated (Entry.entry_date e)) ->
  Dict.get mood_eqb (count_moods (moods_of (search st domain))) m 0
  = MoodSpec.entries_with_mood st user_id m dated.
Proof.
  intros Hdomain. rewrite count_moods_get, occurrences_search.
  unfold occurrences, MoodSpec.entries_with_mood. f_equal.
  induction (entries st) as [| e l IH]; [reflexivity |].
  cbn [filter]. rewrite Hdomain. unfold has_mood.
  destruct (Entry.user_id e =? user_id); cbn [andb]; [| exact IH].
  destruct (Entry.mood e) as [me |] eqn:Hmood; cbn [andb]; [| exact IH].
  destruct (dated (Entry.entry_date e)); [| destruct (mood_eqb m me); exact IH].
  cbn [moods_of]. rewrite Hmood. cbn [filter].
  destruct (mood_eqb m me); cbn [List.length]; now rewrite IH.
Qed.

(** The direction compares the two counts. *)
Lemma direction_compares_counts `{Runtime} (recent previous : Z) :
  0 <= recent -> 0 <= previous ->
  trend_direction (trend_entry recent previous)
  = (if previous <? recent then "up"
     else if recent <? previous then "down" else "stable").
Proof.
  intros Hr Hp. cbn [trend_entry trend_direction].
  destruct (Z.eq_dec previous 0) as [Hz | Hz].
  - subst previous. unfold trend_of. cbn [Z.eqb].
    replace (recent <? 0) with false by (symmetry; apply Z.ltb_ge; lia).
    destruct (0 <? recent); reflexivity.
  - destruct (trend_sign recent previous) as [Hpos Hneg]; [lia |].
    now rewrite Hpos, Hneg.
Qed.

(** C7. For every mood of the trends, with the counts of the mood among
    the entries of the user in the last seven days (today included) and in
    the seven days before them: when the count before is zero, the
    percentage is the int 100 if the last count is positive and the int 0
    otherwise; when it is not zero, the percentage is the rounding to two
    decimals of the change of the count, in hundredths of the count before;
    the direction is up when the last count is above the count before,
    down when it is below, stable when the two are equal.  The direction is
    that of the trend before it is rounded: a percentage that rounds to
    zero may come with the direction up or down. *)
Theorem trend_percentage_and_direction `{Runtime} (env : Env) (st : Store)
    (user_id : Z) (m : Mood) (t : Trend) :
  In (m, t) (_calculate_mood_trends env st user_id) ->
  let recent :=
    MoodSpec.entries_with_mood st user_id m
      (fun d => (today env - 7 <=? d) && (d <=? today env)) in
  let previous :=
    MoodSpec.entries_with_mood st user_id m
      (fun d => (today env - 7 - 7 <=? d) && (d <? today env - 7)) in
  recent_count t = recent
  /\ previous_count t = previous
  /\ (previous = 0 ->
      trend_percentage t = Int (if 0 <? recent then 100 else 0))
  /\ (previous <> 0 ->
      trend_percentage t
      = Float (round2 ((inject_Z (recent - previous) / inject_Z previous)
                       * inject_Z 100)%Q))
  /\ trend_direction t
     = (if previous <? recent then "up"
        else if recent <? previous then "down" else "stable").
Proof.
  intros Hin recent previous. unfold _calculate_mood_trends in Hin.
  apply trends_bindings in Hin. destruct Hin as [[] | Ht].
  rewrite (count_of_search st user_id m
             (fun d => (today env - 7 <=? d) && (d <=? today env))) in Ht
    by (intros e; now rewrite !andb_assoc).
  rewrite (count_of_search st user_id m
             (fun d => (today env - 7 - 7 <=? d) && (d <? today env - 7))) in Ht
    by (intros e; now rewrite !andb_assoc).
  fold recent previous in Ht. subst t.
  assert (Hr : 0 <= recent) by (unfold recent, MoodSpec.entries_with_mood; lia).
  assert (Hp : 0 <= previous)
    by (unfold previous, MoodSpec.entries_with_mood; lia).
  split; [reflexivity |]. split; [reflexivity |]. split; [| split].
  - intros Hz. cbn [trend_entry trend_percentage]. unfold trend_of.
    rewrite Hz. reflexivity.
  - intros Hnz. cbn [trend_entry trend_percentage]. unfold trend_of.
    replace (previous =? 0) with false by (symmetry; now apply Z.eqb_neq).
    reflexivity.
  - now apply direction_compares_counts.
Qed.

(** The mood sad in the diary: twice in the last week, never the week
    before. *)
Lemma trend_percentage_and_direction_witness :
  In (sad, mkTrend 2 0 (Int 100) "up")
    (_calculate_mood_trends (H := one_word_runtime) Example.env
       MoodExample.diary 7)
  /\ MoodSpec.entries_with_mood MoodExample.diary 7 sad
       (fun d => (today Example.env - 7 <=? d) && (d <=? today Example.env)) = 2
  /\ trend_direction (mkTrend 2 0 (Int 100) "up") = "up".
Proof.
  assert (Hin : In (sad, mkTrend 2 0 (Int 100) "up")
                  (_calculate_mood_trends (H := one_word_runtime) Example.env
                     MoodExample.diary 7))
    by (vm_compute; left; reflexivity).
  split; [exact Hin |]. split; [reflexivity |].
  destruct (trend_percentage_and_direction (H := one_word_runtime) Example.env
              MoodExample.diary 7 sad (mkTrend 2 0 (Int 100) "up") Hin)
    as (_ & _ & _ & _ & Hdirection).
  exact Hdirection.
Defined.

(** C7, as the spec has it, fails: with 20002 happy entries in the last
    seven days against 20001 in the seven days before, the trend is
    100/20001, about 0.005 percent; the percentage, rounded to two
    decimals, is zero, and the direction, taken before the rounding, is
    up. *)
Lemma rounded_trend_zero_with_direction_up :
  ~ (forall (env : Env) (st : Store) (user_id : Z) (m : Mood) (t : Trend),
        In (m, t) (_calculate_mood_trends (H := hundredths_runtime) env st user_id) ->
        (Num.positive (trend_percentage t) = true -> trend_direction t = "up")
        /\ (Num.negative (trend_percentage t) = true ->
            trend_direction t = "down")
        /\ (Num.positive (trend_percentage t) = false ->
            Num.negative (trend_percentage t) = false ->
            trend_direction t = "stable")).
Proof.
  intros Hclaim.
  assert (Hin : In (happy, mkTrend 20002 20001 (Float (0 # 100)) "up")
                  (_calculate_mood_trends (H := hundredths_runtime) Example.env
                     MoodExample.crowd 7))
    by (vm_compute; left; reflexivity).
  apply Hclaim in Hin. destruct Hin as (_ & _ & Hstable).
  specialize (Hstable eq_refl eq_refl). discriminate Hstable.
Qed.

Example trends_of_the_diary :
  _calculate_mood_trends (H := one_word_runtime) Example.env MoodExample.diary 7
  = [(sad, mkTrend 2 0 (Int 100) "up");
     (happy, mkTrend 2 0 (Int 100) "up");
     (tired, mkTrend 0 1 (Float (-100 # 1)) "down")].
Proof. reflexivity. Qed.

(** The rounding to hundredths: down, up, and to the even hundredth when
    half way. *)
Example round_hundredths_of_some :
  round_hundredths (100 # 20001) = 0 # 100
  /\ round_hundredths (2 # 3) = 67 # 100
  /\ round_hundredths (-1 # 3) = -33 # 100
  /\ round_hundredths (12345 # 1000) = 1234 # 100
  /\ round_hundredths (12355 # 1000) = 1236 # 100.
Proof. repeat split. Qed.

(** The trends of the crowd: the percentage zero, the direction up. *)
Example trends_of_the_crowd :
  _calculate_mood_trends (H := hundredths_runtime) Example.env MoodExample.crowd 7
  = [(happy, mkTrend 20002 20001 (Float (0 # 100)) "up")].
Proof. vm_compute. reflexivity. Qed.

End MoodFacts.

(** ** Deleting a notebook *)

Module NotebookFacts.
Import JournalNotebook.
Local Open Scope list_scope.

Lemma mem_In (i : Z) (ids : list Z) : mem i ids = true <-> In i ids.
Proof.
  unfold mem. rewrite existsb_exists. split.
  - intros [x [Hin Hx]]. apply Z.eqb_eq in Hx. now subst.
  - intros Hin. exists i. split; [exact Hin | apply Z.eqb_refl].
Qed.

(** The check of [unlink] raises as soon as one of the notebooks has an
    entry, and passes when none has. *)
Lemma unlink_check_raises (st : Store) (self : list Z) (notebook : Z) :
  In notebook self ->
  entry_ids st notebook <> [] ->
  for_each self
    (fun st notebook =>
       match entry_ids st notebook with
       | _ :: _ => Raise (UserError still_has_entries)
       | [] => Ok st
       end)
    st
  = Raise (UserError still_has_entries).
Proof.
  induction self as [| n self IH]; [intros [] |].
  intros Hin Hne. simpl.
  destruct (entry_ids st n) as [| e l] eqn:Hn; simpl; [| reflexivity].
  destruct Hin as [Heq | Hin]; [subst; congruence |].
  now apply IH.
Qed.

Lemma unlink_check_passes (st : Store) (self : list Z) :
  (forall n, In n self -> entry_ids st n = []) ->
  for_each self
    (fun st notebook =>
       match entry_ids st notebook with
       | _ :: _ => Raise (UserError still_has_entries)
       | [] => Ok st
       end)
    st
  = Ok st.
Proof.
  induction self as [| n self IH]; intros Hall; simpl; [reflexivity |].
  rewrite (Hall n) by now left. simpl. apply IH.
  intros k Hk. apply Hall. now right.
Qed.

(** Once the entries of the notebooks are deleted, none of the notebooks
    has an entry. *)
Lemma no_entry_left (st : Store) (self : list Z) (n : Z) :
  In n self ->
  entry_ids (unlink_entries st (map Entry.id (entry_ids_of st self))) n = [].
Proof.
  intros Hn. unfold entry_ids, unlink_entries. simpl.
  destruct (filter _ (filter _ (entries st))) as [| e l] eqn:Hf; [reflexivity |].
  assert (Hin : In e (e :: l)) by now left.
  rewrite <- Hf in Hin. apply filter_In in Hin. destruct Hin as [Hin Hnb].
  apply filter_In in Hin. destruct Hin as [Hin Hkept].
  apply negb_true_iff in Hkept. apply Z.eqb_eq in Hnb.
  assert (Hmem : mem (Entry.id e) (map Entry.id (entry_ids_of st self)) = true).
  { apply mem_In. apply in_map. unfold entry_ids_of. apply filter_In.
    split; [exact Hin |]. apply mem_In. now rewrite Hnb. }
  congruence.
Qed.

Lemma entry_ids_of_nil (st : Store) (self : list Z) (n : Z) :
  entry_ids_of st self = [] -> In n self -> entry_ids st n = [].
Proof.
  intros Hnil Hn. unfold entry_ids.
  destruct (filter _ (entries st)) as [| e l] eqn:Hf; [reflexivity |].
  assert (Hin : In e (e :: l)) by now left.
  rewrite <- Hf in Hin. apply filter_In in Hin. destruct Hin as [Hin Hnb].
  apply Z.eqb_eq in Hnb.
  assert (He : In e (entry_ids_of st self)).
  { unfold entry_ids_of. apply filter_In. split; [exact Hin |].
    apply mem_In. now rewrite Hnb. }
  rewrite Hnil in He. destruct He.
Qed.

Lemma find_notebook_unlinked (st : Store) (self : list Z) (n : Z) :
  In n self -> find_notebook (super_unlink st self) n = None.
Proof.
  intros Hn. unfold find_notebook, super_unlink. simpl.
  induction (notebooks st) as [| x l IH]; simpl; [reflexivity |].
  destruct (mem (Notebook.id x) self) eqn:Hx; simpl; [exact IH |].
  destruct (Notebook.id x =? n) eqn:Hxn; [| exact IH].
  apply Z.eqb_eq in Hxn. subst n. apply mem_In in Hn. congruence.
Qed.

(** C9. A notebook of the recordset owns an entry.  Then [unlink] raises
    the error that names the button Delete Notebook, and no store comes
    out of it: the notebook and its entries stay as they are.
    [action_delete] returns: it goes through the store [st1] in which the
    entries of the notebooks are deleted and the notebooks are all still
    there, and from it [unlink] gives the store [st2] that
    [action_delete] returns, in which the notebooks are deleted. *)
Theorem notebook_with_entries_is_deleted_by_action (st : Store)
    (self : list Z) (notebook : Z) :
  In notebook self ->
  entry_ids st notebook <> [] ->
  unlink st self = Raise (UserError still_has_entries)
  /\ exists st1 st2 action,
       st1 = unlink_entries st (map Entry.id (entry_ids_of st self))
       /\ (forall n, In n self -> entry_ids st1 n = [])
       /\ notebooks st1 = notebooks st
       /\ unlink st1 self = Ok st2
       /\ action_delete st self = Ok (action, st2)
       /\ (forall n, In n self -> find_notebook st2 n = None)
       /\ (forall n, In n self -> entry_ids st2 n = []).
Proof.
  intros Hin Hne. split.
  - unfold unlink. now rewrite (unlink_check_raises st self notebook Hin Hne).
  - set (st1 := unlink_entries st (map Entry.id (entry_ids_of st self))).
    assert (Hnone : forall n, In n self -> entry_ids st1 n = [])
      by (intros n Hn; now apply no_entry_left).
    assert (Hunlink : unlink st1 self = Ok (super_unlink st1 self)).
    { unfold unlink. now rewrite (unlink_check_passes st1 self Hnone). }
    exists st1, (super_unlink st1 self), "journal.action_journal_notebooks"%string.
    split; [reflexivity |]. split; [exact Hnone |]. split; [reflexivity |].
    split; [exact Hunlink |]. split; [| split].
    + unfold action_delete.
      destruct (entry_ids_of st self) as [| e l] eqn:Hof.
      * exfalso. apply Hne. now apply (entry_ids_of_nil st self).
      * fold st1. rewrite Hunlink. reflexivity.
    + intros n Hn. now apply find_notebook_unlinked.
    + intros n Hn.
      destruct (entry_ids (super_unlink st1 self) n) as [| e l] eqn:Hf;
        [reflexivity |].
      assert (He : In e (e :: l)) by now left.
      rewrite <- Hf in He. apply filter_In in He. destruct He as [He Hnb].
      apply filter_In in He. destruct He as [He _].
      assert (Hin1 : In e (entry_ids st1 n)) by (apply filter_In; now split).
      rewrite (Hnone n Hn) in Hin1. destruct Hin1.
Qed.

(** The notebook 1 of the shelf. *)
Lemma notebook_with_entries_is_deleted_by_action_witness :
  unlink NotebookExample.shelf [1] = Raise (UserError still_has_entries)
  /\ exists st1 st2 action,
       st1 = unlink_entries NotebookExample.shelf
               (map Entry.id (entry_ids_of NotebookExample.shelf [1]))
       /\ (forall n, In n [1] -> entry_ids st1 n = [])
       /\ notebooks st1 = notebooks NotebookExample.shelf
       /\ unlink st1 [1] = Ok st2
       /\ action_delete NotebookExample.shelf [1] = Ok (action, st2)
       /\ (forall n, In n [1] -> find_notebook st2 n = None)
       /\ (forall n, In n [1] -> entry_ids st2 n = []).
Proof.
  apply (notebook_with_entries_is_deleted_by_action NotebookExample.shelf [1] 1).
  - simpl. left. reflexivity.
  - vm_compute. discriminate.
Defined.

(** What is left of the shelf: the notebook 2 and its entry. *)
Example action_delete_on_the_shelf :
  option_map
    (fun r => (map Entry.id (entries (snd r)), map Version.id (versions (snd r)),
               map Notebook.id (notebooks (snd r))))
    (match action_delete NotebookExample.shelf [1] with
     | Ok r => Some r
     | Raise _ => None
     end)
  = Some ([11], [], [2]).
Proof. reflexivity. Qed.

End NotebookFacts.

(** ** The exports *)

Module ExportFacts.
Import JournalEntry.

Lemma append_assoc (a b c : string) : (a ++ b) ++ c = a ++ b ++ c.
Proof. induction a as [| x a IH]; simpl; [reflexivity | now rewrite IH]. Qed.

Lemma regroup_after_5 (a v h c f : string) :
  (((a ++ v) ++ h) ++ c) ++ f = a ++ v ++ h ++ c ++ f.
Proof. now rewrite !append_assoc. Qed.

Lemma regroup_before_13 (h x1 x2 x3 x4 x5 x6 x7 x8 x9 x10 x11 x12 r : string) :
  h ++ x1 ++ x2 ++ x3 ++ x4 ++ x5 ++ x6 ++ x7 ++ x8 ++ x9 ++ x10 ++ x11 ++ x12 ++ r
  = (h ++ x1 ++ x2 ++ x3 ++ x4 ++ x5 ++ x6 ++ x7 ++ x8 ++ x9 ++ x10 ++ x11 ++ x12)
    ++ r.
Proof. now rewrite !append_assoc. Qed.

(** C10. The Markdown export has, as the last line of the metadata and
    before the heading of the content, the line of the version: its label,
    then the decimal writing of the counter minus one.  The page for the
    PDF has, as the last row of the metadata block and before the content
    block, the row of the version, whose value is the decimal writing of
    the counter minus one.  For an entry whose counter is 1, as [create]
    leaves it ([create_leaves_counter_at_one]), the line reads Version: 0
    and the value of the row is 0. *)
Theorem exports_show_counter_minus_one `{Runtime} (env : Env) (st : Store)
    (entry : Entry.t) :
  (exists before after,
      _generate_markdown_content env st entry
      = before
        ++ "- **Version:** "
        ++ NilZero.string_of_int (Z.to_int (Entry.current_version entry - 1))
        ++ "

## Content

"
        ++ after)
  /\ (exists before after,
         _generate_pdf_html_content env st entry
         = before
           ++ Py.q "        <div class=`metadata-row`>
            <span class=`metadata-label`>Version:</span>
            <span class=`metadata-value`>"
           ++ NilZero.string_of_int (Z.to_int (Entry.current_version entry - 1))
           ++ Py.q "</span>
        </div>
    </div>

    <div class=`content`>
        "
           ++ after)
  /\ (Entry.current_version entry = 1 ->
      (exists before after,
          _generate_markdown_content env st entry
          = before ++ "- **Version:** 0

## Content

" ++ after)
      /\ (exists before after,
             _generate_pdf_html_content env st entry
             = before
               ++ Py.q "        <div class=`metadata-row`>
            <span class=`metadata-label`>Version:</span>
            <span class=`metadata-value`>0</span>
        </div>
    </div>

    <div class=`content`>
        "
               ++ after)).
Proof.
  assert (Hmd : exists before after,
             _generate_markdown_content env st entry
             = before
               ++ "- **Version:** "
               ++ NilZero.string_of_int (Z.to_int (Entry.current_version entry - 1))
               ++ "

## Content

"
               ++ after).
  { unfold _generate_markdown_content. cbv zeta. unfold Py.str_int.
    eexists. eexists. etransitivity; [apply regroup_after_5 |].
    apply (f_equal (append _)).
    etransitivity; [apply append_assoc |]. apply (f_equal (append _)).
    etransitivity; [apply append_assoc |]. apply (f_equal (append _)).
    reflexivity. }
  assert (Hpdf : exists before after,
             _generate_pdf_html_content env st entry
             = before
               ++ Py.q "        <div class=`metadata-row`>
            <span class=`metadata-label`>Version:</span>
            <span class=`metadata-value`>"
               ++ NilZero.string_of_int (Z.to_int (Entry.current_version entry - 1))
               ++ Py.q "</span>
        </div>
    </div>

    <div class=`content`>
        "
               ++ after).
  { unfold _generate_pdf_html_content. cbv zeta. unfold Py.str_int.
    eexists. eexists. etransitivity; [apply regroup_before_13 |].
    apply (f_equal (append _)). apply (f_equal (append _)).
    apply (f_equal (append _)). reflexivity. }
  split; [exact Hmd |]. split; [exact Hpdf |].
  intros Hone. rewrite Hone in Hmd, Hpdf. split.
  - destruct Hmd as (before & after & Hmd). now exists before, after.
  - destruct Hpdf as (before & after & Hpdf). now exists before, after.
Qed.

(** The exports of the entry 10 as [create] leaves it. *)
Lemma exports_show_counter_minus_one_witness :
  Entry.current_version Example.entry1 = 1
  /\ (exists before after,
         _generate_markdown_content (H := one_word_runtime) Example.env
           Example.st1 Example.entry1
         = before ++ "- **Version:** 0

## Content

" ++ after).
Proof.
  split; [reflexivity |].
  apply (exports_show_counter_minus_one (H := one_word_runtime) Example.env
           Example.st1 Example.entry1).
  reflexivity.
Defined.

(** [create] leaves the counter at 1 and makes no version. *)
Lemma create_leaves_counter_at_one `{Runtime} (env : Env) (st0 st1 : Store)
    (vals : Vals.t) (i : Z) :
  VersionSpec.ids_below_counter st0 = true ->
  create env st0 vals = Ok (i, st1) ->
  Vals.current_version vals = None ->
  VersionSpec.entry_field Entry.current_version st1 i = Some 1
  /\ version_ids st1 i = [].
Proof.
  intros Hids Hcreate Hv. unfold create in Hcreate.
  destruct (Vals.name vals) as [name |]; [| discriminate].
  destruct (Vals.notebook_id vals) as [nb |]; [| discriminate].
  destruct (find_notebook st0 nb); [| discriminate].
  destruct (_check_entry_date _ _); [| discriminate].
  destruct (_check_name_length _); [| discriminate].
  simpl in Hcreate. injection Hcreate as Hi Hst. subst i st1.
  apply andb_true_iff in Hids. destruct Hids as [He Hvs].
  rewrite forallb_forall in He, Hvs. split.
  - unfold VersionSpec.entry_field, find_entry. simpl.
    rewrite VersionFacts.find_in_app.
    destruct (find _ (entries st0)) as [e |] eqn:Hfind.
    + apply find_some in Hfind. destruct Hfind as [Hin Hid].
      apply He in Hin. apply Z.eqb_eq in Hid. lia.
    + simpl. rewrite Z.eqb_refl. simpl. now rewrite Hv.
  - unfold version_ids. simpl.
    induction (versions st0) as [| v l IH]; [reflexivity |]. simpl.
    destruct (Version.entry_id v =? next_id st0) eqn:Hid.
    + assert (Hlt : (Version.entry_id v <? next_id st0) = true)
        by (apply Hvs; now left).
      apply Z.eqb_eq in Hid. lia.
    + apply IH. intros x Hx. apply Hvs. now right.
Qed.

(** The Markdown export of the entry 10 as [create] leaves it. *)
Example markdown_of_a_new_entry :
  find_entry Example.st1 10 = Some Example.entry1
  /\ version_ids Example.st1 10 = []
  /\ _generate_markdown_content (H := one_word_runtime) Example.env Example.st1
       Example.entry1
     = "# Monday

## Metadata

- **Date:** 100
- **Notebook:** Diary
- **Status:** Draft
- **Words:** 1
- **Characters:** 5
- **Version:** 0

## Content

hello

---
*Exported from Journal on 5000*".
Proof. repeat split. Qed.

End ExportFacts.

(** ** difflib: the loop of the matching blocks ends *)

Module DiffFacts.
Import Difflib DiffSpec.
Local Open Scope list_scope.
Local Open Scope nat_scope.

Section Ranges.
Variables a b : list string.
Variable b2j : Dict.t string (list nat).
Variables alo ahi blo bhi : nat.

Lemma scan_row_range (i : nat) (js : list nat) :
  alo <= i -> i < ahi ->
  forall j2len newj2len best,
    (forall j, Dict.get Nat.eqb j2len j 0 <= i - alo) ->
    (forall j, Dict.get Nat.eqb newj2len j 0 <= i + 1 - alo) ->
    in_range alo ahi best ->
    (forall j, Dict.get Nat.eqb (fst (scan_row j2len blo bhi i js newj2len best)) j 0
               <= i + 1 - alo)
    /\ in_range alo ahi (snd (scan_row j2len blo bhi i js newj2len best)).
Proof.
  intros Hlo Hhi. induction js as [| j js IH]; intros j2len newj2len best Hold Hnew Hbest.
  - simpl. now split.
  - simpl. destruct (j <? blo); [now apply IH |].
    destruct (bhi <=? j); [simpl; now split |].
    assert (Hk : j2len_before j2len j + 1 <= i + 1 - alo).
    { unfold j2len_before. destruct j as [| j']; [lia |].
      specialize (Hold j'). lia. }
    apply IH.
    + exact Hold.
    + intros j0. destruct (Nat.eq_dec j j0) as [He | Hne].
      * subst. now rewrite (DictFacts.get_set_same nat nat Nat.eqb Nat.eqb_eq).
      * rewrite (DictFacts.get_set_other nat nat Nat.eqb Nat.eqb_eq) by exact Hne.
        apply Hnew.
    + destruct best as [[besti bestj] bestsize].
      destruct (bestsize <? j2len_before j2len j + 1); [| exact Hbest].
      unfold in_range. lia.
Qed.

Lemma scan_rows_range (n : nat) :
  forall i j2len best,
    alo <= i -> i + n <= ahi ->
    (forall j, Dict.get Nat.eqb j2len j 0 <= i - alo) ->
    in_range alo ahi best ->
    in_range alo ahi (scan_rows a b2j blo bhi (seq i n) j2len best).
Proof.
  induction n as [| n IH]; intros i j2len best Hlo Hhi Hold Hbest; simpl.
  - exact Hbest.
  - destruct (scan_row j2len blo bhi i (Dict.get String.eqb b2j (item a i) []) [] best)
      as [newj2len best'] eqn:Hrow.
    assert (Hi : i < ahi) by lia.
    destruct (scan_row_range i (Dict.get String.eqb b2j (item a i) []) Hlo Hi
                j2len [] best Hold (fun _ => Nat.le_0_l _) Hbest) as [Hnew Hbest'].
    rewrite Hrow in Hnew, Hbest'. simpl in Hnew, Hbest'.
    apply IH; try lia; [| exact Hbest'].
    intros j. specialize (Hnew j). lia.
Qed.

Lemma extend_before_range (fuel : nat) :
  forall best, in_range alo ahi best -> in_range alo ahi (extend_before a b alo blo fuel best).
Proof.
  induction fuel as [| fuel IH]; intros [[besti bestj] bestsize] Hbest; simpl.
  - exact Hbest.
  - destruct (alo <? besti) eqn:Hlt; simpl; [| exact Hbest].
    destruct ((blo <? bestj) && (item a (besti - 1) =? item b (bestj - 1))%string);
      [| exact Hbest].
    apply IH. apply Nat.ltb_lt in Hlt. unfold in_range in *. lia.
Qed.

Lemma extend_after_range (fuel : nat) :
  forall best, in_range alo ahi best -> in_range alo ahi (extend_after a b ahi bhi fuel best).
Proof.
  induction fuel as [| fuel IH]; intros [[besti bestj] bestsize] Hbest; simpl.
  - exact Hbest.
  - destruct (besti + bestsize <? ahi) eqn:Hlt; simpl; [| exact Hbest].
    destruct ((bestj + bestsize <? bhi)
              && (item a (besti + bestsize) =? item b (bestj + bestsize))%string);
      [| exact Hbest].
    apply IH. apply Nat.ltb_lt in Hlt. unfold in_range in *. lia.
Qed.

(** The fuel of the two loops is enough: where they stop, their test
    fails. *)
Lemma extend_before_done (fuel : nat) :
  forall besti bestj bestsize,
    besti <= fuel ->
    let '(i, j, _) := extend_before a b alo blo fuel (besti, bestj, bestsize) in
    (alo <? i) && (blo <? j) && String.eqb (item a (i - 1)) (item b (j - 1))
    = false.
Proof.
  induction fuel as [| fuel IH]; intros besti bestj bestsize Hf; simpl.
  - replace besti with 0 by lia. now destruct alo.
  - destruct ((alo <? besti) && (blo <? bestj)
              && String.eqb (item a (besti - 1)) (item b (bestj - 1))) eqn:Hc.
    + apply IH. apply andb_true_iff in Hc. destruct Hc as [Hc _].
      apply andb_true_iff in Hc. destruct Hc as [Hc _]. apply Nat.ltb_lt in Hc. lia.
    + exact Hc.
Qed.

Lemma extend_after_done (fuel : nat) :
  forall besti bestj bestsize,
    ahi - (besti + bestsize) <= fuel ->
    let '(i, j, k) := extend_after a b ahi bhi fuel (besti, bestj, bestsize) in
    (i + k <? ahi) && (j + k <? bhi) && String.eqb (item a (i + k)) (item b (j + k))
    = false.
Proof.
  induction fuel as [| fuel IH]; intros besti bestj bestsize Hf; simpl.
  - replace (besti + bestsize <? ahi) with false
      by (symmetry; apply Nat.ltb_ge; lia).
    reflexivity.
  - destruct ((besti + bestsize <? ahi) && (bestj + bestsize <? bhi)
              && String.eqb (item a (besti + bestsize)) (item b (bestj + bestsize)))
      eqn:Hc.
    + apply IH. apply andb_true_iff in Hc. destruct Hc as [Hc _].
      apply andb_true_iff in Hc. destruct Hc as [Hc _]. apply Nat.ltb_lt in Hc. lia.
    + exact Hc.
Qed.

(** In [find_longest_match] the two loops get the fuel that they need. *)
Lemma find_longest_match_fuel :
  let best0 := scan_rows a b2j blo bhi (seq alo (ahi - alo)) [] (alo, blo, 0) in
  let best1 := extend_before a b alo blo (fst (fst best0)) best0 in
  (let '(i, j, _) := best1 in
   (alo <? i) && (blo <? j) && String.eqb (item a (i - 1)) (item b (j - 1))
   = false)
  /\ (let '(i, j, k) := extend_after a b ahi bhi ahi best1 in
      (i + k <? ahi) && (j + k <? bhi)
      && String.eqb (item a (i + k)) (item b (j + k))
      = false).
Proof.
  intros best0 best1. split.
  - unfold best1. destruct best0 as [[besti bestj] bestsize]. simpl fst.
    apply extend_before_done. apply Nat.le_refl.
  - destruct best1 as [[besti bestj] bestsize].
    apply extend_after_done. lia.
Qed.

Lemma find_longest_match_range :
  in_range alo ahi (find_longest_match a b b2j alo ahi blo bhi).
Proof.
  unfold find_longest_match.
  apply extend_after_range, extend_before_range.
  destruct (Nat.le_gt_cases alo ahi) as [Hle | Hgt].
  - apply scan_rows_range; try lia.
    + intros j. simpl. lia.
    + unfold in_range. lia.
  - replace (ahi - alo) with 0 by lia. simpl. unfold in_range. lia.
Qed.

End Ranges.

Lemma matching_loop_fuel (a b : list string) (b2j : Dict.t string (list nat))
    (fuel : nat) :
  forall queue matching_blocks,
    weight queue <= fuel ->
    matching_loop a b b2j fuel queue matching_blocks <> None.
Proof.
  induction fuel as [| fuel IH]; intros queue blocks Hw.
  - destruct queue as [| [[[alo ahi] blo] bhi] queue]; simpl; [discriminate |].
    simpl in Hw. lia.
  - destruct queue as [| [[[alo ahi] blo] bhi] queue]; simpl; [discriminate |].
    simpl in Hw.
    pose proof (find_longest_match_range a b b2j alo ahi blo bhi) as Hr.
    destruct (find_longest_match a b b2j alo ahi blo bhi) as [[i j] k].
    unfold in_range in Hr. destruct k as [| k].
    + apply IH. lia.
    + apply IH.
      destruct ((alo <? i) && (blo <? j)), ((i + S k <? ahi) && (j + S k <? bhi));
        simpl; lia.
Qed.

(** The turns that [get_matching_blocks] allows are enough. *)
Lemma matching_loop_ends (a b : list string) :
  matching_loop a b (chain_b b) (2 * List.length a + 1)
    [(0, List.length a, 0, List.length b)] []
  <> None.
Proof. apply matching_loop_fuel. simpl. lia. Qed.

End DiffFacts.

(** ** difflib: a sequence against itself *)

Module SameFacts.
Import Difflib DiffSpec.
Local Open Scope list_scope.
Local Open Scope nat_scope.

Lemma sorted_seq (n s : nat) : StronglySorted lt (seq s n).
Proof.
  revert s. induction n as [| n IH]; intros s; simpl; constructor.
  - apply IH.
  - apply Forall_forall. intros x Hx. apply in_seq in Hx. lia.
Qed.

Lemma sorted_filter (f : nat -> bool) (l : list nat) :
  StronglySorted lt l -> StronglySorted lt (filter f l).
Proof.
  induction 1 as [| x l Hs IH Hall]; simpl; [constructor |].
  destruct (f x); [| exact IH]. constructor; [exact IH |].
  rewrite Forall_forall in *. intros y Hy. apply filter_In in Hy. now apply Hall.
Qed.

Section Same.
Variable l : list string.

Lemma in_positions (x : string) (j : nat) :
  In j (positions l x) <-> j < List.length l /\ item l j = x.
Proof.
  unfold positions, positions_upto. rewrite filter_In, in_seq, String.eqb_eq.
  simpl. intuition lia.
Qed.

Lemma chain_fold (t : list string) :
  forall (pre : list string) (d : Dict.t string (list nat)),
    l = pre ++ t ->
    (forall x, Dict.get String.eqb d x [] = positions_upto l (List.length pre) x) ->
    NoDup (Dict.keys d) ->
    (forall x,
        Dict.get String.eqb
          (fold_left chain_step (combine (seq (List.length pre) (List.length t)) t) d)
          x []
        = positions l x)
    /\ NoDup (Dict.keys
                (fold_left chain_step
                   (combine (seq (List.length pre) (List.length t)) t) d)).
Proof.
  induction t as [| y t IH]; intros pre d Hl Hget Hnd.
  - simpl. rewrite app_nil_r in Hl. subst pre. now split.
  - simpl.
    assert (Hitem : item l (List.length pre) = y).
    { unfold item. rewrite Hl. now rewrite nth_middle. }
    specialize (IH (pre ++ [y])
                  (chain_step d (List.length pre, y))).
    rewrite length_app in IH. simpl in IH. rewrite Nat.add_1_r in IH.
    apply IH.
    + now rewrite <- app_assoc.
    + intros x. unfold chain_step, positions_upto. cbn [fst snd].
      rewrite seq_S, filter_app. cbn [filter]. rewrite Nat.add_0_l, Hitem.
      destruct (String.eqb y x) eqn:Hyx.
      * apply String.eqb_eq in Hyx. subst x.
        rewrite (DictFacts.get_set_same string (list nat) String.eqb String.eqb_eq).
        now rewrite Hget.
      * assert (Hne : y <> x) by (intros He; apply String.eqb_eq in He; congruence).
        rewrite (DictFacts.get_set_other string (list nat) String.eqb String.eqb_eq)
          by exact Hne.
        rewrite Hget. now rewrite app_nil_r.
    + now apply (DictFacts.NoDup_keys_set string (list nat) String.eqb String.eqb_eq).
Qed.

(** The indices that [chain_b] keeps for an element: all of them, or none. *)
Lemma chain_b_get (x : string) :
  Dict.get String.eqb (chain_b l) x [] = positions l x
  \/ Dict.get String.eqb (chain_b l) x [] = [].
Proof.
  destruct (chain_fold l [] [] eq_refl) as [Hget Hnd].
  - intros y. reflexivity.
  - constructor.
  - simpl in Hget, Hnd. unfold chain_b, enumerate.
    destruct (200 <=? List.length l).
    + destruct (DictFacts.get_filter string (list nat) String.eqb String.eqb_eq
                  (fold_left chain_step (combine (seq 0 (List.length l)) l) [])
                  (fun kv => negb (List.length l / 100 + 1 <? List.length (snd kv)))
                  x [] Hnd) as [Hsame | Hnone].
      * left. rewrite Hsame. apply Hget.
      * now right.
    + left. apply Hget.
Qed.

Lemma run_upto_le (i : nat) : run_upto l i <= i.
Proof.
  induction i as [| i IH]; simpl; [lia |].
  destruct (Dict.get String.eqb (chain_b l) (item l i) []); lia.
Qed.

Lemma run_upto_kept (j : nat) :
  Dict.get String.eqb (chain_b l) (item l j) [] <> [] ->
  run_upto l (S j) = S (run_upto l j).
Proof.
  intros Hk. simpl. destruct (Dict.get String.eqb (chain_b l) (item l j) []);
    [congruence | reflexivity].
Qed.

Lemma get_nat_set (d : Dict.t nat nat) (j k j0 : nat) :
  Dict.get Nat.eqb (Dict.set Nat.eqb d j k) j0 0
  = if Nat.eqb j j0 then k else Dict.get Nat.eqb d j0 0.
Proof.
  destruct (Nat.eqb j j0) eqn:He.
  - apply Nat.eqb_eq in He. subst.
    apply (DictFacts.get_set_same nat nat Nat.eqb Nat.eqb_eq).
  - apply Nat.eqb_neq in He.
    now apply (DictFacts.get_set_other nat nat Nat.eqb Nat.eqb_eq).
Qed.

(** A row whose element is kept: the match stays on the diagonal. *)
Lemma scan_row_same (i : nat) :
  i < List.length l ->
  Dict.get String.eqb (chain_b l) (item l i) [] <> [] ->
  forall (rest : list nat) (j2len newj2len : Dict.t nat nat) (bi bs : nat),
    StronglySorted lt rest ->
    (forall j, In j rest -> j < List.length l /\ item l j = item l i) ->
    (forall j, Dict.get Nat.eqb j2len j 0 <= run_upto l i
               /\ Dict.get Nat.eqb j2len j 0 <= run_upto l (S j)) ->
    j2len_before j2len i = run_upto l i ->
    (forall j, Dict.get Nat.eqb newj2len j 0 <= run_upto l (S i)
               /\ Dict.get Nat.eqb newj2len j 0 <= run_upto l (S j)) ->
    bi + bs <= S i ->
    (forall i', i' <= i -> run_upto l i' <= bs) ->
    (In i rest
     \/ (Dict.get Nat.eqb newj2len i 0 = run_upto l (S i) /\ run_upto l (S i) <= bs)) ->
    exists new' bi' bs',
      scan_row j2len 0 (List.length l) i rest newj2len (bi, bi, bs)
      = (new', (bi', bi', bs'))
      /\ bi' + bs' <= S i
      /\ (forall i', i' <= S i -> run_upto l i' <= bs')
      /\ (forall j, Dict.get Nat.eqb new' j 0 <= run_upto l (S i)
                    /\ Dict.get Nat.eqb new' j 0 <= run_upto l (S j))
      /\ Dict.get Nat.eqb new' i 0 = run_upto l (S i).
Proof.
  intros Hi Hkept. pose proof (run_upto_kept i Hkept) as Hrun.
  induction rest as [| j rest IH];
    intros j2len newj2len bi bs Hsorted Hrest Hold Hdiag Hnew Hb1 Hb2 Hdone.
  - destruct Hdone as [[] | [Hget Hle]].
    exists newj2len, bi, bs. simpl. repeat split; try assumption; try apply Hnew.
    intros i' Hi'. destruct (Nat.eq_dec i' (S i)) as [-> | Hne]; [exact Hle |].
    apply Hb2. lia.
  - simpl.
    destruct (Hrest j (or_introl eq_refl)) as [Hj Hitem].
    replace (List.length l <=? j) with false by (symmetry; apply Nat.leb_gt; lia).
    assert (Hkeptj : Dict.get String.eqb (chain_b l) (item l j) [] <> [])
      by now rewrite Hitem.
    pose proof (run_upto_kept j Hkeptj) as Hrunj.
    set (k := j2len_before j2len j + 1).
    assert (Hk1 : k <= run_upto l (S i)).
    { unfold k, j2len_before. destruct j as [| j']; [lia |].
      destruct (Hold j') as [H1 _]. lia. }
    assert (Hk2 : k <= run_upto l (S j)).
    { unfold k, j2len_before. destruct j as [| j']; [lia |].
      destruct (Hold j') as [_ H2]. lia. }
    inversion Hsorted as [| x xs Hsorted' Hall]. subst.
    assert (Hnew' : forall j0,
               Dict.get Nat.eqb (Dict.set Nat.eqb newj2len j k) j0 0 <= run_upto l (S i)
               /\ Dict.get Nat.eqb (Dict.set Nat.eqb newj2len j k) j0 0
                  <= run_upto l (S j0)).
    { intros j0. rewrite get_nat_set. destruct (Nat.eqb j j0) eqn:He.
      - apply Nat.eqb_eq in He. subst. now split.
      - apply Hnew. }
    assert (Hrest' : forall j0, In j0 rest -> j0 < List.length l /\ item l j0 = item l i)
      by (intros j0 Hj0; apply Hrest; now right).
    destruct (Nat.lt_trichotomy j i) as [Hlt | [Heq | Hgt]].
    + (* before the diagonal *)
      assert (Hle : k <= bs) by (specialize (Hb2 (S j)); lia).
      replace (bs <? k) with false by (symmetry; apply Nat.ltb_ge; exact Hle).
      apply IH; try assumption.
      destruct Hdone as [[He | Hin] | [Hget Hle']]; [lia | now left |].
      right. rewrite get_nat_set.
      replace (Nat.eqb j i) with false by (symmetry; apply Nat.eqb_neq; lia).
      now split.
    + (* on the diagonal *)
      subst j. assert (Hk : k = run_upto l (S i)) by (unfold k; lia).
      pose proof (run_upto_le (S i)) as Hrle.
      destruct (bs <? k) eqn:Hupd.
      * apply Nat.ltb_lt in Hupd.
        apply IH; try assumption; try lia.
        -- intros i' Hi'. specialize (Hb2 i' Hi'). lia.
        -- right. rewrite get_nat_set, Nat.eqb_refl. split; [exact Hk | lia].
      * apply Nat.ltb_ge in Hupd.
        apply IH; try assumption.
        right. rewrite get_nat_set, Nat.eqb_refl. split; [exact Hk | lia].
    + (* after the diagonal *)
      rewrite Forall_forall in Hall.
      destruct Hdone as [[He | Hin] | [Hget Hle']];
        [lia | specialize (Hall i Hin); lia |].
      replace (bs <? k) with false by (symmetry; apply Nat.ltb_ge; lia).
      apply IH; try assumption.
      right. rewrite get_nat_set.
      replace (Nat.eqb j i) with false by (symmetry; apply Nat.eqb_neq; lia).
      now split.
Qed.

Lemma scan_rows_same (m : nat) :
  forall (i : nat) (j2len : Dict.t nat nat) (bi bs : nat),
    i + m = List.length l ->
    (forall j, Dict.get Nat.eqb j2len j 0 <= run_upto l i
               /\ Dict.get Nat.eqb j2len j 0 <= run_upto l (S j)) ->
    j2len_before j2len i = run_upto l i ->
    bi + bs <= i ->
    (forall i', i' <= i -> run_upto l i' <= bs) ->
    exists bi' bs',
      scan_rows l (chain_b l) 0 (List.length l) (seq i m) j2len (bi, bi, bs)
      = (bi', bi', bs')
      /\ bi' + bs' <= List.length l.
Proof.
  induction m as [| m IH]; intros i j2len bi bs Him Hold Hdiag Hb1 Hb2.
  - exists bi, bs. simpl. split; [reflexivity | lia].
  - simpl.
    destruct (Dict.get String.eqb (chain_b l) (item l i) []) as [| j0 js] eqn:Hjs.
    + (* the element of the row is not kept *)
      simpl.
      assert (Hrun : run_upto l (S i) = 0) by (simpl; now rewrite Hjs).
      apply IH; try lia.
      * intros j. split; apply Nat.le_0_l.
      * rewrite Hrun. reflexivity.
      * intros i' Hi'. destruct (Nat.eq_dec i' (S i)) as [-> | Hne]; [lia |].
        apply Hb2. lia.
    + assert (Hkept : Dict.get String.eqb (chain_b l) (item l i) [] <> [])
        by (rewrite Hjs; discriminate).
      assert (Hpos : j0 :: js = positions l (item l i)).
      { destruct (chain_b_get (item l i)) as [Hp | Hn]; congruence. }
      destruct (scan_row_same i ltac:(lia) Hkept (j0 :: js) j2len [] bi bs)
        as [new' [bi' [bs' [Hrow [Hb1' [Hb2' [Hnew' Hdiag']]]]]]]; try assumption.
      * rewrite Hpos. apply sorted_filter, sorted_seq.
      * intros j Hj. rewrite Hpos in Hj. now apply in_positions.
      * intros j. split; apply Nat.le_0_l.
      * lia.
      * left. rewrite Hpos. apply in_positions. split; [lia | reflexivity].
      * rewrite Hrow. apply IH; try assumption; lia.
Qed.

Lemma extend_before_same (bi : nat) :
  forall bs, extend_before l l 0 0 bi (bi, bi, bs) = (0, 0, bs + bi).
Proof.
  induction bi as [| bi IH]; intros bs; simpl.
  - now rewrite Nat.add_0_r.
  - rewrite Nat.sub_0_r, String.eqb_refl. simpl. rewrite IH. f_equal. lia.
Qed.

Lemma extend_after_same (fuel : nat) :
  forall s,
    s <= List.length l -> List.length l - s <= fuel ->
    extend_after l l (List.length l) (List.length l) fuel (0, 0, s)
    = (0, 0, List.length l).
Proof.
  induction fuel as [| fuel IH]; intros s Hs Hf; simpl.
  - f_equal. lia.
  - destruct (s <? List.length l) eqn:Hlt; simpl.
    + rewrite String.eqb_refl. apply Nat.ltb_lt in Hlt. apply IH; lia.
    + apply Nat.ltb_ge in Hlt. f_equal. lia.
Qed.

(** The longest match of a sequence with itself is all of it. *)
Lemma find_longest_match_same :
  find_longest_match l l (chain_b l) 0 (List.length l) 0 (List.length l)
  = (0, 0, List.length l).
Proof.
  unfold find_longest_match. rewrite Nat.sub_0_r.
  assert (Hold : forall j, Dict.get Nat.eqb [] j 0 <= run_upto l 0
                           /\ Dict.get Nat.eqb [] j 0 <= run_upto l (S j))
    by (intros j; split; apply Nat.le_0_l).
  assert (Hb2 : forall i', i' <= 0 -> run_upto l i' <= 0)
    by (intros i' Hi'; replace i' with 0 by lia; apply Nat.le_refl).
  destruct (scan_rows_same (List.length l) 0 [] 0 0 eq_refl Hold eq_refl
              (Nat.le_refl _) Hb2) as [bi [bs [Hscan Hle]]].
  rewrite Hscan. simpl. rewrite extend_before_same.
  apply extend_after_same; lia.
Qed.

Lemma get_matching_blocks_same :
  get_matching_blocks l l
  = match List.length l with
    | O => [(0, 0, 0)]
    | S n => [(0, 0, S n); (S n, S n, 0)]
    end.
Proof.
  unfold get_matching_blocks.
  replace (2 * List.length l + 1) with (S (2 * List.length l)) by lia.
  cbn [matching_loop]. rewrite find_longest_match_same.
  destruct (List.length l) as [| n] eqn:Hn.
  - reflexivity.
  - rewrite Nat.add_0_l, Nat.ltb_irrefl. cbn [andb app].
    destruct (2 * S n); reflexivity.
Qed.

(** The diff of a sequence with itself has no line. *)
Lemma unified_diff_same (fromfile tofile : string) :
  unified_diff l l fromfile tofile 3 = [].
Proof.
  unfold unified_diff, get_grouped_opcodes, get_opcodes.
  rewrite get_matching_blocks_same.
  destruct (List.length l) as [| [| [| [| n]]]]; try reflexivity.
  cbn -[Nat.min Nat.max Nat.sub Nat.ltb Nat.add].
  rewrite !Nat.ltb_irrefl. cbn -[Nat.min Nat.max Nat.sub Nat.ltb Nat.add].
  match goal with
  | |- context [if ?c then _ else _] =>
      replace c with false by (symmetry; apply Nat.ltb_ge; lia)
  end.
  reflexivity.
Qed.

End Same.
End SameFacts.

(** ** The routes *)

Module ControllerFacts.
Import JournalExportController NotebookExample.
Local Open Scope list_scope.

(** The two exports answer not found to whoever does not own the entry. *)
Lemma exports_hide_entries_of_others `{Runtime} (env : Env) (st : Store)
    (entry_id : Z) (entry : Entry.t) :
  find_entry st entry_id = Some entry ->
  Entry.user_id entry <> env_user env ->
  export_pdf env st entry_id = not_found
  /\ export_markdown env st entry_id = not_found.
Proof.
  intros Hf Hu. unfold export_pdf, export_markdown. rewrite Hf.
  apply Z.eqb_neq in Hu. rewrite Hu. now split.
Qed.

(** The two comparisons look at no owner: the entry and the versions
    being there, they answer with the page. *)
Lemma comparisons_ignore_the_owner `{Runtime} (env : Env) (st : Store)
    (entry_id version1_id version2_id : Z) (entry : Entry.t)
    (version1 version2 : Version.t) :
  find_entry st entry_id = Some entry ->
  find_version st version1_id = Some version1 ->
  find_version st version2_id = Some version2 ->
  compare_versions env st entry_id version1_id version2_id <> not_found
  /\ compare_with_current env st entry_id version1_id <> not_found.
Proof.
  intros He H1 H2. unfold compare_versions, compare_with_current.
  rewrite He, H1, H2. split; discriminate.
Qed.

(** C2 at the shelf, whose entry 10 (content there, version 13 with the
    content hello) is of the user 7, for a request of the user 8: the two
    exports answer not found, the two comparisons answer with pages that
    hold the contents. *)
Theorem comparisons_show_entries_of_others :
  option_map Entry.user_id (find_entry shelf 10) = Some 7
  /\ env_user stranger = 8
  /\ export_pdf (H := one_word_runtime) stranger shelf 10
     = not_found
  /\ export_markdown (H := one_word_runtime) stranger shelf 10
     = not_found
  /\ (exists body headers,
         compare_versions (H := one_word_runtime) stranger shelf
           10 13 13
         = make_response body headers
         /\ Py.contains body
              (Py.q "<div class=`version-content`>
                            hello
                        </div>") = true)
  /\ (exists body headers,
         compare_with_current (H := one_word_runtime) stranger
           shelf 10 13
         = make_response body headers
         /\ Py.contains body
              (Py.q "<div class=`version-content`>
                            there
                        </div>") = true).
Proof.
  repeat split.
  - eexists. eexists. split; [reflexivity |]. vm_compute. reflexivity.
  - eexists. eexists. split; [reflexivity |]. vm_compute. reflexivity.
Qed.

(** ** The diff *)

(** The first half of C5: two contents with the same plain text give the
    block that says that nothing changed. *)
Lemma same_text_shows_no_changes `{Runtime} (fromfile tofile : string)
    (old_html new_html : string) :
  html_to_text old_html = html_to_text new_html ->
  html_diff_with_highlighting fromfile tofile old_html new_html = no_changes.
Proof.
  intros Hsame. unfold html_diff_with_highlighting.
  rewrite Hsame, SameFacts.unified_diff_same. reflexivity.
Qed.

(** C5 at the texts a, b and a, c: the lines of the diff, and their
    blocks.  The two lines that name the files begin with the signs of a
    removal and of an addition and are rendered as such: the diff has two
    removed blocks and two added blocks, not one of each. *)
Theorem diff_renders_file_names_as_changes `{Runtime} :
  Difflib.unified_diff (Py.splitlines ("a" ++ Py.nl ++ "b"))
    (Py.splitlines ("a" ++ Py.nl ++ "c")) "Version 1" "Version 2" 3
  = [("--- Version 1" ++ Py.nl)%string; ("+++ Version 2" ++ Py.nl)%string;
     ("@@ -1,2 +1,2 @@" ++ Py.nl)%string; (" a" ++ Py.nl)%string; "-b"%string;
     "+c"%string]
  /\ html_diff_with_highlighting "Version 1" "Version 2"
       ("a" ++ Py.nl ++ "b") ("a" ++ Py.nl ++ "c")
     = Py.concat_all
         [(Py.q "<div class=`diff-removed`>- -- Version 1" ++ Py.nl ++ "</div>")%string;
          (Py.q "<div class=`diff-added`>+ ++ Version 2" ++ Py.nl ++ "</div>")%string;
          (Py.q "<div class=`diff-header`>@@ -1,2 +1,2 @@" ++ Py.nl ++ "</div>")%string;
          (Py.q "<div class=`diff-context`> a" ++ Py.nl ++ "</div>")%string;
          Py.q "<div class=`diff-removed`>- b</div>";
          Py.q "<div class=`diff-added`>+ c</div>"].
Proof. split; reflexivity. Qed.

End ControllerFacts.

(* ===================================================================== *)
(** * Further properties *)
(* ===================================================================== *)

(** ** The history of an entry: numbering, restores, actions *)

Module HistoryFacts.
Import JournalEntry JournalEntryActions JournalEntryVersion.
Import VersionSpec HistorySpec.
Local Open Scope list_scope.

Lemma numbered_free (st : Store) (e : Entry.t) :
  numbered st e ->
  number_taken st (Entry.id e) (Entry.current_version e) = false.
Proof.
  intros [k [Hcv Hnum]]. apply not_true_is_false. intros Ht.
  apply VersionFacts.number_taken_iff in Ht.
  rewrite Hnum, Hcv in Ht. apply in_map_iff in Ht. destruct Ht as [n [Hn Hin]].
  apply in_seq in Hin. lia.
Qed.

Lemma numbered_count (st : Store) (e : Entry.t) :
  numbered st e ->
  _compute_versions_count st (Entry.id e) = Entry.current_version e - 1.
Proof.
  intros [k [Hcv Hnum]]. unfold _compute_versions_count.
  rewrite <- (length_map Version.version_number), Hnum, length_map, length_seq.
  lia.
Qed.

Lemma find_entry_In (st : Store) (i : Z) (e : Entry.t) :
  find_entry st i = Some e -> In e (entries st).
Proof. intros Hf. now apply find_some in Hf. Qed.

Section Numbering.
Context `{RT : Runtime}.
Variable env : Env.

(** An assignment that leaves the counter keeps the numbering. *)
Lemma well_numbered_update (st : Store) (i : Z) (vals : Vals.t) :
  Vals.current_version vals = None ->
  well_numbered st ->
  well_numbered (update_entry st i (assign env vals)).
Proof.
  intros Hv Hall. unfold well_numbered in *. rewrite Forall_forall in *.
  intros x Hx. unfold update_entry, set_entries in Hx. simpl in Hx.
  apply in_map_iff in Hx. destruct Hx as [e [Hx Hin]].
  specialize (Hall e Hin). destruct Hall as [k [Hcv Hnum]].
  exists k. subst x.
  destruct (Entry.id e =? i).
  - split.
    + simpl. rewrite Hv. exact Hcv.
    + exact Hnum.
  - split; assumption.
Qed.

Lemma well_numbered_snapshotted (st : Store) (e : Entry.t) :
  In e (entries st) ->
  well_numbered st ->
  well_numbered (snapshotted env st e).
Proof.
  intros He Hall. unfold well_numbered in *. rewrite Forall_forall in *.
  destruct (Hall e He) as [k [Hcv Hnum]].
  intros x Hx. unfold snapshotted, update_entry, set_entries in Hx. simpl in Hx.
  apply in_map_iff in Hx. destruct Hx as [y [Hx Hin]].
  destruct (Hall y Hin) as [ky [Hcvy Hnumy]].
  unfold numbered, version_ids, snapshotted, update_entry, set_entries. simpl.
  rewrite filter_app. simpl.
  destruct (Entry.id y =? Entry.id e) eqn:Hye; subst x.
  - apply Z.eqb_eq in Hye. exists (S k). simpl Entry.current_version.
    simpl Entry.id. rewrite Hye, Z.eqb_refl. split; [lia |].
    rewrite map_app. fold (version_ids st (Entry.id e)). rewrite Hnum.
    rewrite seq_S, map_app. cbn [map Version.version_number snapshot].
    f_equal. f_equal. lia.
  - exists ky. split; [exact Hcvy |].
    rewrite Z.eqb_sym, Hye, app_nil_r. exact Hnumy.
Qed.

Lemma well_numbered_written (st : Store) (i : Z) (e : Entry.t) (vals : Vals.t) :
  find_entry st i = Some e ->
  Vals.current_version vals = None ->
  well_numbered st ->
  well_numbered (written env st e vals).
Proof.
  intros Hf Hv Hall. unfold written.
  apply well_numbered_update; [exact Hv |].
  destruct (Vals.has_content vals && Py.truthy (Entry.content e)).
  - apply well_numbered_snapshotted; [now apply find_entry_In with i | exact Hall].
  - exact Hall.
Qed.

Lemma write_numbered (st : Store) (i : Z) (e : Entry.t) (vals : Vals.t) :
  well_numbered st ->
  find_entry st i = Some e ->
  accepted env vals = true ->
  write env st [i] vals = Ok (written env st e vals).
Proof.
  intros Hall Hf Hacc. apply VersionFacts.write_one; [exact Hf | exact Hacc |].
  rewrite <- (find_entry_id st i e Hf). apply numbered_free.
  unfold well_numbered in Hall. rewrite Forall_forall in Hall.
  apply Hall. now apply find_entry_In with i.
Qed.

End Numbering.

(** X1.  In a store where the counter of every entry is one more than the
    number of its versions, numbered from 1, a write that the constraints
    accept and that leaves the counter to [_create_version] returns: the
    constraint of uniqueness does not fire.  The store that it gives is
    numbered in the same way, so that the number of versions of the entry
    is its counter minus one. *)
Theorem write_keeps_the_numbering `{Runtime} (env : Env) (st : Store) (i : Z)
    (e : Entry.t) (vals : Vals.t) :
  well_numbered st ->
  find_entry st i = Some e ->
  accepted env vals = true ->
  Vals.current_version vals = None ->
  exists st' e',
    write env st [i] vals = Ok st'
    /\ well_numbered st'
    /\ find_entry st' i = Some e'
    /\ _compute_versions_count st' i = Entry.current_version e' - 1.
Proof.
  intros Hall Hf Hacc Hv.
  pose proof (well_numbered_written env st i e vals Hf Hv Hall) as Hall'.
  pose proof (VersionFacts.find_entry_written env st i e vals Hf) as Hf'.
  exists (written env st e vals). eexists.
  split; [apply write_numbered; assumption |].
  split; [exact Hall' |]. split; [exact Hf' |].
  rewrite <- (find_entry_id _ _ _ Hf') at 1. apply numbered_count.
  unfold well_numbered in Hall'. rewrite Forall_forall in Hall'.
  apply Hall'. eapply find_entry_In. exact Hf'.
Qed.

Lemma write_keeps_the_numbering_witness :
  exists st' e',
    write (H := one_word_runtime) Example.env Example.st2 [10]
      (Vals.of_content "again") = Ok st'
    /\ well_numbered st'
    /\ find_entry st' 10 = Some e'
    /\ _compute_versions_count st' 10 = Entry.current_version e' - 1.
Proof.
  apply (write_keeps_the_numbering (H := one_word_runtime) Example.env
           Example.st2 10 Example.entry2 (Vals.of_content "again")).
  - repeat constructor. exists 1%nat. split; reflexivity.
  - reflexivity.
  - reflexivity.
  - reflexivity.
Defined.

(** *** Restoring a version *)

(** What [action_restore_version] does on a numbered store: a snapshot
    when the content is not empty, then the write of the values of the
    version. *)
Lemma restore_numbered `{Runtime} (env : Env) (st : Store) (i vid : Z)
    (e : Entry.t) (k : Version.t) :
  well_numbered st ->
  find_entry st i = Some e ->
  find_version st vid = Some k ->
  Version.entry_id k = i ->
  let st1 := if Py.truthy (Entry.content e) then snapshotted env st e else st in
  let e1 :=
    if Py.truthy (Entry.content e)
    then assign env (Vals.of_current_version (Entry.current_version e + 1)) e
    else e in
  let vals :=
    Vals.of_snapshot (Version.content k) (Version.word_count k)
      (Version.char_count k) in
  action_restore_version env st [i] vid = Ok (written env st1 e1 vals)
  /\ find_entry st1 i = Some e1
  /\ well_numbered (written env st1 e1 vals).
Proof.
  intros Hall Hf Hk Hki st1 e1 vals.
  assert (Hfree : number_taken st i (Entry.current_version e) = false).
  { rewrite <- (find_entry_id st i e Hf). apply numbered_free.
    unfold well_numbered in Hall. rewrite Forall_forall in Hall.
    apply Hall. now apply find_entry_In with i. }
  assert (Hf1 : find_entry st1 i = Some e1).
  { unfold st1, e1. destruct (Py.truthy (Entry.content e)); [| exact Hf].
    now apply VersionFacts.find_entry_snapshotted. }
  assert (Hall1 : well_numbered st1).
  { unfold st1. destruct (Py.truthy (Entry.content e)); [| exact Hall].
    apply well_numbered_snapshotted; [now apply find_entry_In with i | exact Hall]. }
  split; [| split].
  - unfold action_restore_version. simpl. unfold read_version. rewrite Hk. simpl.
    apply Z.eqb_eq in Hki. rewrite Hki.
    rewrite (VersionFacts.create_version_one env st i e Hf Hfree). simpl.
    fold st1. now apply write_numbered.
  - exact Hf1.
  - now apply well_numbered_written with i.
Qed.

Lemma find_version_kept (st st' : Store) (new : list Version.t) (vid : Z)
    (k : Version.t) :
  versions st' = versions st ++ new ->
  find_version st vid = Some k ->
  find_version st' vid = Some k.
Proof.
  intros Hv Hk. unfold find_version in *.
  rewrite Hv, VersionFacts.find_in_app, Hk. reflexivity.
Qed.

Lemma find_version_fresh (st : Store) :
  version_ids_below_counter st = true ->
  find_version st (next_id st) = None.
Proof.
  unfold version_ids_below_counter, find_version. intros Hall.
  rewrite forallb_forall in Hall.
  destruct (find _ (versions st)) as [v |] eqn:Hfind; [| reflexivity].
  apply find_some in Hfind. destruct Hfind as [Hin Hid].
  apply Hall in Hin. apply Z.eqb_eq in Hid. apply Z.ltb_lt in Hin. lia.
Qed.

(** X2.  On a numbered store the restore of a version of the entry
    returns.  The entry takes the content and the counts of the version,
    its counter goes up by two when its content was not empty and stays
    when it was, the restored version is still in the table as it was, and
    the store is numbered as before. *)
Theorem restore_keeps_the_numbering `{Runtime} (env : Env) (st : Store)
    (i vid : Z) (e : Entry.t) (k : Version.t) :
  well_numbered st ->
  find_entry st i = Some e ->
  find_version st vid = Some k ->
  Version.entry_id k = i ->
  exists st' e',
    action_restore_version env st [i] vid = Ok st'
    /\ well_numbered st'
    /\ find_version st' vid = Some k
    /\ find_entry st' i = Some e'
    /\ (Entry.content e', Entry.word_count e', Entry.char_count e')
       = (Version.content k, Version.word_count k, Version.char_count k)
    /\ Entry.current_version e'
       = Entry.current_version e + (if Py.truthy (Entry.content e) then 2 else 0)
    /\ _compute_versions_count st' i = Entry.current_version e' - 1.
Proof.
  intros Hall Hf Hk Hki.
  destruct (restore_numbered env st i vid e k Hall Hf Hk Hki)
    as [Hrun [Hf1 Hall']].
  pose proof (VersionFacts.find_entry_written env _ i _
                (Vals.of_snapshot (Version.content k) (Version.word_count k)
                   (Version.char_count k)) Hf1) as Hf'.
  eexists. eexists. split; [exact Hrun |].
  split; [exact Hall' |]. split; [| split; [exact Hf' |]].
  - destruct (Py.truthy (Entry.content e)).
    + eapply find_version_kept; [| exact Hk].
      rewrite VersionFacts.versions_written.
      unfold snapshotted at 1. simpl versions. rewrite <- app_assoc. reflexivity.
    + eapply find_version_kept; [| exact Hk].
      rewrite VersionFacts.versions_written. reflexivity.
  - split; [| split].
    + reflexivity.
    + destruct (Py.truthy (Entry.content e)) eqn:Htr; simpl.
      * rewrite Htr. simpl. lia.
      * rewrite Htr. simpl. lia.
    + rewrite <- (find_entry_id _ _ _ Hf') at 1. apply numbered_count.
      unfold well_numbered in Hall'. rewrite Forall_forall in Hall'.
      apply Hall'. eapply find_entry_In. exact Hf'.
Qed.

Lemma restore_keeps_the_numbering_witness :
  exists st' e',
    action_restore_version (H := one_word_runtime) Example.env Example.st2
      [10] 11 = Ok st'
    /\ well_numbered st'
    /\ find_version st' 11 = Some (Version.mk 11 10 1 "hello" 1 5 7 5000)
    /\ find_entry st' 10 = Some e'
    /\ (Entry.content e', Entry.word_count e', Entry.char_count e')
       = ("hello", 1, 5)
    /\ Entry.current_version e' = 2 + 2
    /\ _compute_versions_count st' 10 = Entry.current_version e' - 1.
Proof.
  apply (restore_keeps_the_numbering (H := one_word_runtime) Example.env
           Example.st2 10 11 Example.entry2
           (Version.mk 11 10 1 "hello" 1 5 7 5000)).
  - repeat constructor. exists 1%nat. split; reflexivity.
  - reflexivity.
  - reflexivity.
  - reflexivity.
Defined.

(** The button of a version restores it on its entry. *)
Lemma action_restore_eq `{Runtime} (env : Env) (st : Store) (vid : Z)
    (k : Version.t) :
  find_version st vid = Some k ->
  action_restore env st [vid]
  = action_restore_version env st [Version.entry_id k] vid.
Proof.
  intros Hk. unfold action_restore. simpl. unfold read_version.
  rewrite Hk. reflexivity.
Qed.

(** X3.  A restore can be undone.  The first of the versions that a
    restore makes takes the next id of the store and keeps the content and
    the counts that the entry had; restoring that version gives them back
    to the entry. *)
Theorem restore_is_undone_by_restoring_its_snapshot `{Runtime} (env : Env)
    (st : Store) (i vid : Z) (e : Entry.t) (k : Version.t) :
  well_numbered st ->
  version_ids_below_counter st = true ->
  find_entry st i = Some e ->
  find_version st vid = Some k ->
  Version.entry_id k = i ->
  Entry.content e <> "" ->
  exists st1 st2,
    action_restore env st [vid] = Ok st1
    /\ entry_field Entry.content st1 i = Some (Version.content k)
    /\ action_restore env st1 [next_id st] = Ok st2
    /\ entry_field Entry.content st2 i = Some (Entry.content e)
    /\ entry_field Entry.word_count st2 i = Some (Entry.word_count e)
    /\ entry_field Entry.char_count st2 i = Some (Entry.char_count e).
Proof.
  intros Hall Hids Hf Hk Hki Hne.
  assert (Htr : Py.truthy (Entry.content e) = true)
    by (destruct (Entry.content e); [congruence | reflexivity]).
  destruct (restore_numbered env st i vid e k Hall Hf Hk Hki)
    as [Hrun [Hf1 Hall1]].
  rewrite Htr in Hrun, Hf1, Hall1.
  set (vals := Vals.of_snapshot (Version.content k) (Version.word_count k)
                 (Version.char_count k)) in *.
  set (e1 := assign env (Vals.of_current_version (Entry.current_version e + 1)) e)
    in *.
  set (st1 := written env (snapshotted env st e) e1 vals) in *.
  pose proof (VersionFacts.find_entry_written env _ i _ vals Hf1) as Hf1'.
  fold st1 in Hf1'.
  assert (Hsnap : find_version st1 (next_id st) = Some (snapshot env st e)).
  { unfold find_version, st1. rewrite VersionFacts.versions_written.
    unfold snapshotted at 1. simpl versions.
    rewrite !VersionFacts.find_in_app.
    fold (find_version st (next_id st)). rewrite (find_version_fresh st Hids).
    simpl. now rewrite Z.eqb_refl. }
  destruct (restore_numbered env st1 i (next_id st) _ (snapshot env st e)
              Hall1 Hf1' Hsnap (find_entry_id _ _ _ Hf))
    as [Hrun2 [Hf2 _]].
  eexists. eexists.
  split; [rewrite (action_restore_eq env st vid k Hk), Hki; exact Hrun |].
  split; [unfold entry_field; rewrite Hf1'; reflexivity |].
  split.
  { rewrite (action_restore_eq env st1 _ _ Hsnap).
    change (Version.entry_id (snapshot env st e)) with (Entry.id e).
    rewrite (find_entry_id _ _ _ Hf). exact Hrun2. }
  unfold entry_field.
  rewrite (VersionFacts.find_entry_written env _ i _ _ Hf2).
  repeat split.
Qed.

Lemma restore_is_undone_by_restoring_its_snapshot_witness :
  exists st1 st2,
    action_restore (H := one_word_runtime) Example.env Example.st2 [11] = Ok st1
    /\ entry_field Entry.content st1 10 = Some "hello"
    /\ action_restore (H := one_word_runtime) Example.env st1 [12] = Ok st2
    /\ entry_field Entry.content st2 10 = Some "there"
    /\ entry_field Entry.word_count st2 10 = Some 1
    /\ entry_field Entry.char_count st2 10 = Some 5.
Proof.
  apply (restore_is_undone_by_restoring_its_snapshot (H := one_word_runtime)
           Example.env Example.st2 10 11 Example.entry2
           (Version.mk 11 10 1 "hello" 1 5 7 5000)).
  - repeat constructor. exists 1%nat. split; reflexivity.
  - reflexivity.
  - reflexivity.
  - reflexivity.
  - reflexivity.
  - discriminate.
Defined.

(** *** What a write leaves alone *)

Lemma extends_refl (self : list Z) (st : Store) : extends self st st.
Proof.
  unfold extends. repeat split; try reflexivity.
  exists []. split; [now rewrite app_nil_r | constructor].
Qed.

Lemma extends_trans (self : list Z) (st1 st2 st3 : Store) :
  extends self st1 st2 -> extends self st2 st3 -> extends self st1 st3.
Proof.
  intros [[n1 [Hv1 Hn1]] [Hf1 [Hi1 [Hb1 Ht1]]]] [[n2 [Hv2 Hn2]] [Hf2 [Hi2 [Hb2 Ht2]]]].
  unfold extends. repeat split.
  - exists (n1 ++ n2). split.
    + rewrite Hv2, Hv1, app_assoc. reflexivity.
    + apply Forall_app. now split.
  - intros j Hj. rewrite (Hf2 j Hj). now apply Hf1.
  - congruence.
  - congruence.
  - congruence.
Qed.

Lemma extends_incl (self self' : list Z) (st st' : Store) :
  incl self self' -> extends self st st' -> extends self' st st'.
Proof.
  intros Hincl [[n [Hv Hn]] [Hf [Hi [Hb Ht]]]]. unfold extends. repeat split.
  - exists n. split; [exact Hv |].
    rewrite Forall_forall in *. intros v Hin. apply Hincl. now apply Hn.
  - intros j Hj. apply Hf. intros Hin. apply Hj. now apply Hincl.
  - exact Hi.
  - exact Hb.
  - exact Ht.
Qed.

(** A loop over the records of [ids], each turn of which extends the store
    on its record, extends it on [ids]. *)
Lemma for_each_extends (ids : list Z) (body : Store -> Z -> result Store) :
  (forall st i st', body st i = Ok st' -> extends [i] st st') ->
  forall st st', for_each ids body st = Ok st' -> extends ids st st'.
Proof.
  intros Hbody. induction ids as [| i rest IH]; intros st st' Hrun.
  - simpl in Hrun. injection Hrun as <-. apply extends_refl.
  - simpl in Hrun. destruct (body st i) as [st1 |] eqn:Hstep; [| discriminate].
    simpl in Hrun. apply extends_trans with st1.
    + apply extends_incl with [i]; [| now apply Hbody].
      intros j [<- | []]. now left.
    + apply extends_incl with rest; [| now apply IH].
      intros j Hj. now right.
Qed.

Section Frame.
Context `{RT : Runtime}.
Variable env : Env.

Lemma update_entry_extends (st : Store) (i : Z) (vals : Vals.t) :
  extends [i] st (update_entry st i (assign env vals)).
Proof.
  unfold extends. repeat split.
  - exists []. split; [simpl; now rewrite app_nil_r | constructor].
  - intros j Hj. rewrite find_entry_update by apply VersionFacts.assign_id.
    destruct (find_entry st j) as [e |] eqn:Hf; [| reflexivity].
    simpl. rewrite (find_entry_id st j e Hf).
    destruct (j =? i) eqn:Hji; [| reflexivity].
    apply Z.eqb_eq in Hji. exfalso. apply Hj. now left.
  - unfold update_entry, set_entries. simpl. rewrite map_map.
    apply map_ext. intros e. now destruct (Entry.id e =? i).
Qed.

Lemma validate_same (vals : Vals.t) (st st' : Store) (i : Z) :
  validate env vals st i = Ok st' -> st' = st.
Proof.
  unfold validate. destruct (read_entry st i); simpl; [| discriminate].
  destruct (match Vals.entry_date vals with
            | Some _ => _check_entry_date env a
            | None => Ok tt
            end); simpl; [| discriminate].
  destruct (match Vals.name vals with
            | Some _ => _check_name_length a
            | None => Ok tt
            end); simpl; [| discriminate].
  congruence.
Qed.

Lemma super_write_extends (st st' : Store) (self : list Z) (vals : Vals.t) :
  super_write env st self vals = Ok st' -> extends self st st'.
Proof.
  unfold super_write. intros Hrun.
  destruct (for_each self _ st) as [st1 |] eqn:Hassign; [| discriminate].
  simpl in Hrun. apply extends_trans with st1.
  - revert Hassign. apply for_each_extends. intros s i s' Hstep.
    destruct (read_entry s i); simpl in Hstep; [| discriminate].
    injection Hstep as <-. apply update_entry_extends.
  - revert Hrun. apply for_each_extends. intros s i s' Hstep.
    apply validate_same in Hstep. subst s'. apply extends_refl.
Qed.

Lemma create_version_extends (st st' : Store) (self : list Z) :
  _create_version env st self = Ok st' -> extends self st st'.
Proof.
  unfold _create_version. apply for_each_extends. intros s i s' Hstep.
  unfold read_entry in Hstep.
  destruct (find_entry s i) as [record |] eqn:Hf; simpl in Hstep; [| discriminate].
  destruct (Py.truthy (Entry.content record)).
  - unfold version_create in Hstep.
    destruct (existsb _ (versions s)); simpl in Hstep; [discriminate |].
    eapply extends_trans; [| eapply super_write_extends; exact Hstep].
    unfold extends. repeat split.
    eexists. split; [reflexivity |].
    constructor; [| constructor]. simpl. left.
    symmetry. now apply find_entry_id with s.
  - injection Hstep as <-. apply extends_refl.
Qed.

Lemma write_extends (st st' : Store) (self : list Z) (vals : Vals.t) :
  write env st self vals = Ok st' -> extends self st st'.
Proof.
  unfold write. intros Hrun.
  destruct (Vals.has_content vals).
  - destruct (_create_version env st self) as [st1 |] eqn:Hsnap; [| discriminate].
    simpl in Hrun. apply extends_trans with st1.
    + now apply create_version_extends.
    + now apply super_write_extends with vals.
  - simpl in Hrun. now apply super_write_extends with vals.
Qed.

End Frame.

(** X4.  The history only grows.  Whatever the records and the values, a
    write that returns has deleted and changed no version: the table of
    the versions is the one before, followed by versions of records of
    [self].  The entries outside [self], the notebooks and the tags are as
    they were, and no entry has come or gone. *)
Theorem write_only_appends_versions `{Runtime} (env : Env) (st st' : Store)
    (self : list Z) (vals : Vals.t) :
  write env st self vals = Ok st' ->
  (exists new,
      versions st' = versions st ++ new
      /\ Forall (fun v => In (Version.entry_id v) self) new)
  /\ (forall j, ~ In j self -> find_entry st' j = find_entry st j)
  /\ map Entry.id (entries st') = map Entry.id (entries st)
  /\ notebooks st' = notebooks st
  /\ tags st' = tags st.
Proof. apply write_extends. Qed.

Lemma write_only_appends_versions_witness :
  (exists new,
      versions Example.st2 = versions Example.st1 ++ new
      /\ Forall (fun v => In (Version.entry_id v) [10]) new)
  /\ (forall j, ~ In j [10] -> find_entry Example.st2 j = find_entry Example.st1 j)
  /\ map Entry.id (entries Example.st2) = map Entry.id (entries Example.st1)
  /\ notebooks Example.st2 = notebooks Example.st1
  /\ tags Example.st2 = tags Example.st1.
Proof.
  apply (write_only_appends_versions (H := one_word_runtime) Example.env
           Example.st1 Example.st2 [10] (Vals.of_content "there")).
  reflexivity.
Defined.

(** *** The buttons of the life cycle *)

Lemma write_field `{Runtime} (env : Env) (st : Store) (i : Z) (e : Entry.t)
    (vals : Vals.t) :
  find_entry st i = Some e ->
  Vals.has_content vals = false ->
  accepted env vals = true ->
  write env st [i] vals = Ok (update_entry st i (assign env vals))
  /\ find_entry (update_entry st i (assign env vals)) i = Some (assign env vals e).
Proof.
  intros Hf Hc Hacc. split.
  - rewrite VersionFacts.write_without_content by exact Hc.
    now apply VersionFacts.super_write_one with e.
  - apply find_entry_update_same; [apply VersionFacts.assign_id | exact Hf].
Qed.

Lemma run_action_one `{Runtime} (env : Env) (st : Store) (i : Z) (e : Entry.t)
    (a : Action) :
  find_entry st i = Some e ->
  exists st' e',
    run_action env st [i] a = Ok st'
    /\ find_entry st' i = Some e'
    /\ Entry.state e' = next_state (Entry.state e) a
    /\ Entry.is_favorite e' = next_favorite (Entry.is_favorite e) a
    /\ text_of e' = text_of e
    /\ versions st' = versions st.
Proof.
  intros Hf.
  assert (Hstay : forall s,
             Entry.state e = s -> forall b, Entry.is_favorite e = b ->
             exists st' e',
               Ok st = Ok st' /\ find_entry st' i = Some e'
               /\ Entry.state e' = s /\ Entry.is_favorite e' = b
               /\ text_of e' = text_of e /\ versions st' = versions st).
  { intros s Hs b Hb. exists st, e. repeat split; assumption. }
  assert (Hmove : forall vals,
             Vals.has_content vals = false -> accepted env vals = true ->
             exists st' e',
               write env st [i] vals = Ok st' /\ find_entry st' i = Some e'
               /\ e' = assign env vals e /\ versions st' = versions st).
  { intros vals Hc Hacc.
    destruct (write_field env st i e vals Hf Hc Hacc) as [Hw Hf'].
    eexists. eexists. split; [exact Hw |]. split; [exact Hf' |].
    split; reflexivity. }
  destruct a; simpl; unfold action_publish, action_draft, action_archive,
    action_toggle_favorite; simpl; unfold read_entry; rewrite Hf; simpl.
  - destruct (Entry.state e) eqn:Hs.
    + destruct (Hmove (of_state published) eq_refl eq_refl)
        as [st' [e' [Hw [Hf' [-> Hv]]]]].
      exists st', (assign env (of_state published) e). rewrite Hw.
      repeat split; assumption.
    + now apply Hstay.
    + now apply Hstay.
  - destruct (Entry.state e) eqn:Hs.
    + now apply Hstay.
    + destruct (Hmove (of_state draft) eq_refl eq_refl)
        as [st' [e' [Hw [Hf' [-> Hv]]]]].
      exists st', (assign env (of_state draft) e). rewrite Hw.
      repeat split; assumption.
    + destruct (Hmove (of_state draft) eq_refl eq_refl)
        as [st' [e' [Hw [Hf' [-> Hv]]]]].
      exists st', (assign env (of_state draft) e). rewrite Hw.
      repeat split; assumption.
  - destruct (Entry.state e) eqn:Hs.
    + now apply Hstay.
    + destruct (Hmove (of_state archived) eq_refl eq_refl)
        as [st' [e' [Hw [Hf' [-> Hv]]]]].
      exists st', (assign env (of_state archived) e). rewrite Hw.
      repeat split; assumption.
    + now apply Hstay.
  - destruct (Hmove (of_is_favorite (negb (Entry.is_favorite e))) eq_refl eq_refl)
      as [st' [e' [Hw [Hf' [-> Hv]]]]].
    exists st', (assign env (of_is_favorite (negb (Entry.is_favorite e))) e).
    rewrite Hw. repeat split; assumption.
Qed.

(** X5.  On an entry that is there, every sequence of the buttons
    publish, draft, archive and favorite returns.  The state follows the
    life cycle (publish moves a draft only, archive a published entry
    only, draft brings both back), the favorite flag is negated by each
    toggle, and neither the text, the counts and the counter of the entry
    nor the table of the versions change. *)
Theorem actions_follow_the_life_cycle `{Runtime} (env : Env) (st : Store)
    (i : Z) (e : Entry.t) (l : list Action) :
  find_entry st i = Some e ->
  exists st' e',
    run_actions env st [i] l = Ok st'
    /\ find_entry st' i = Some e'
    /\ Entry.state e' = fold_left next_state l (Entry.state e)
    /\ Entry.is_favorite e' = fold_left next_favorite l (Entry.is_favorite e)
    /\ text_of e' = text_of e
    /\ versions st' = versions st.
Proof.
  revert st e. induction l as [| a l IH]; intros st e Hf.
  - exists st, e. repeat split. exact Hf.
  - destruct (run_action_one env st i e a Hf)
      as [st1 [e1 [Hrun [Hf1 [Hs1 [Hb1 [Ht1 Hv1]]]]]]].
    destruct (IH st1 e1 Hf1) as [st' [e' [Hrun' [Hf' [Hs' [Hb' [Ht' Hv']]]]]]].
    exists st', e'. simpl. rewrite Hrun. simpl.
    split; [exact Hrun' |]. split; [exact Hf' |].
    rewrite <- Hs1, <- Hb1. repeat split; congruence.
Qed.

Lemma actions_follow_the_life_cycle_witness :
  exists st' e',
    run_actions (H := one_word_runtime) Example.env Example.st2 [10]
      [Archive; Publish; ToggleFavorite; Archive; Publish; Draft] = Ok st'
    /\ find_entry st' 10 = Some e'
    /\ Entry.state e' = draft
    /\ Entry.is_favorite e' = true
    /\ text_of e' = text_of Example.entry2
    /\ versions st' = versions Example.st2.
Proof.
  apply (actions_follow_the_life_cycle (H := one_word_runtime) Example.env
           Example.st2 10 Example.entry2
           [Archive; Publish; ToggleFavorite; Archive; Publish; Draft]).
  reflexivity.
Defined.

(** *** The copy of an entry *)

Lemma find_entry_fresh (st : Store) :
  ids_below_counter st = true -> find_entry st (next_id st) = None.
Proof.
  unfold ids_below_counter, find_entry. intros Hall.
  apply andb_true_iff in Hall. destruct Hall as [Hall _].
  rewrite forallb_forall in Hall.
  destruct (find _ (entries st)) as [x |] eqn:Hfind; [| reflexivity].
  apply find_some in Hfind. destruct Hfind as [Hin Hid].
  apply Hall in Hin. apply Z.eqb_eq in Hid. apply Z.ltb_lt in Hin. lia.
Qed.

Lemma version_ids_fresh (st : Store) :
  ids_below_counter st = true -> version_ids st (next_id st) = [].
Proof.
  unfold ids_below_counter, version_ids. intros Hall.
  apply andb_true_iff in Hall. destruct Hall as [_ Hall].
  rewrite forallb_forall in Hall.
  induction (versions st) as [| v l IH]; [reflexivity |].
  simpl. replace (Version.entry_id v =? next_id st) with false.
  - apply IH. intros x Hx. apply Hall. now right.
  - symmetry. apply Z.eqb_neq.
    assert (Hv : (Version.entry_id v <? next_id st) = true)
      by (apply Hall; now left).
    apply Z.ltb_lt in Hv. lia.
Qed.

(** X6.  The copy of an entry starts a history of its own.  When the
    notebook of the entry is there, its date is not in the future and the
    title with [" (Copy)"] is long enough, [action_duplicate] returns the
    next id of the store; the new entry has that title, the content, the
    notebook, the tags, the author, the date, the state and the mood of
    the original, is not a favorite, has the counter 1 and no version.
    The original and the table of the versions are as they were. *)
Theorem duplicate_starts_a_new_history `{Runtime} (env : Env) (st : Store)
    (i : Z) (e : Entry.t) (n : Notebook.t) :
  ids_below_counter st = true ->
  find_entry st i = Some e ->
  find_notebook st (Entry.notebook_id e) = Some n ->
  Entry.entry_date e <= today env ->
  2 <= Py.len (str_strip (Entry.name e ++ " (Copy)")%string) ->
  exists st' c,
    action_duplicate env st [i] = Ok (next_id st, st')
    /\ find_entry st' (next_id st) = Some c
    /\ (Entry.name c, Entry.is_favorite c, Entry.current_version c)
       = ((Entry.name e ++ " (Copy)")%string, false, 1)
    /\ (Entry.content c, Entry.notebook_id c, Entry.tag_ids c, Entry.user_id c,
        Entry.entry_date c, Entry.state c, Entry.mood c)
       = (Entry.content e, Entry.notebook_id e, Entry.tag_ids e, Entry.user_id e,
          Entry.entry_date e, Entry.state e, Entry.mood e)
    /\ version_ids st' (next_id st) = []
    /\ versions st' = versions st
    /\ find_entry st' i = Some e.
Proof.
  intros Hids Hf Hn Hdate Hname.
  unfold action_duplicate. simpl. unfold read_entry. rewrite Hf. simpl.
  unfold create. simpl. rewrite Hn.
  unfold _check_entry_date, _check_name_length. simpl.
  replace (today env <? Entry.entry_date e) with false
    by (symmetry; apply Z.ltb_ge; lia).
  simpl.
  replace (Py.len (str_strip (Entry.name e ++ " (Copy)")%string) <? 2) with false
    by (symmetry; apply Z.ltb_ge; lia).
  simpl. eexists. eexists. split; [reflexivity |].
  split.
  { unfold find_entry. simpl. rewrite VersionFacts.find_in_app.
    fold (find_entry st (next_id st)). rewrite (find_entry_fresh st Hids).
    simpl. rewrite Z.eqb_refl. reflexivity. }
  split; [reflexivity |]. split; [reflexivity |].
  split; [exact (version_ids_fresh st Hids) |].
  split; [reflexivity |].
  unfold find_entry. simpl. rewrite VersionFacts.find_in_app.
  fold (find_entry st i). now rewrite Hf.
Qed.

Lemma duplicate_starts_a_new_history_witness :
  exists st' c,
    action_duplicate (H := one_word_runtime) Example.env Example.st2 [10]
    = Ok (12, st')
    /\ find_entry st' 12 = Some c
    /\ (Entry.name c, Entry.is_favorite c, Entry.current_version c)
       = ("Monday (Copy)", false, 1)
    /\ (Entry.content c, Entry.notebook_id c, Entry.tag_ids c, Entry.user_id c,
        Entry.entry_date c, Entry.state c, Entry.mood c)
       = ("there", 1, [], 7, 100, draft, None)
    /\ version_ids st' 12 = []
    /\ versions st' = versions Example.st2
    /\ find_entry st' 10 = Some Example.entry2.
Proof.
  apply (duplicate_starts_a_new_history (H := one_word_runtime) Example.env
           Example.st2 10 Example.entry2 (Notebook.mk 1 "Diary" "" "0" 7 true)).
  - reflexivity.
  - reflexivity.
  - reflexivity.
  - simpl. lia.
  - vm_compute. discriminate.
Defined.

(** *** Deleting entries *)

Lemma find_after_filter {A : Type} (key : A -> Z) (self : list Z) (j : Z)
    (l : list A) :
  find (fun x => key x =? j)
    (filter (fun x => negb (JournalNotebook.mem (key x) self)) l)
  = if JournalNotebook.mem j self then None else find (fun x => key x =? j) l.
Proof.
  destruct (JournalNotebook.mem j self) eqn:Hm;
    induction l as [| a l IH]; try reflexivity; cbn [filter find];
    destruct (key a =? j) eqn:Haj.
  - apply Z.eqb_eq in Haj. rewrite Haj, Hm. exact IH.
  - destruct (JournalNotebook.mem (key a) self); cbn [negb find];
      [| rewrite Haj]; exact IH.
  - pose proof Haj as Hkey. apply Z.eqb_eq in Hkey. rewrite Hkey, Hm.
    cbn [negb find]. rewrite Haj. reflexivity.
  - destruct (JournalNotebook.mem (key a) self); cbn [negb find];
      [| rewrite Haj]; exact IH.
Qed.

Lemma filter_after_filter {A : Type} (key : A -> Z) (self : list Z) (j : Z)
    (l : list A) :
  filter (fun x => key x =? j)
    (filter (fun x => negb (JournalNotebook.mem (key x) self)) l)
  = if JournalNotebook.mem j self then [] else filter (fun x => key x =? j) l.
Proof.
  destruct (JournalNotebook.mem j self) eqn:Hm;
    induction l as [| a l IH]; try reflexivity; cbn [filter];
    destruct (key a =? j) eqn:Haj.
  - apply Z.eqb_eq in Haj. rewrite Haj, Hm. exact IH.
  - destruct (JournalNotebook.mem (key a) self); cbn [negb filter];
      [| rewrite Haj]; exact IH.
  - pose proof Haj as Hkey. apply Z.eqb_eq in Hkey. rewrite Hkey, Hm.
    cbn [negb filter]. rewrite Haj, IH. reflexivity.
  - destruct (JournalNotebook.mem (key a) self); cbn [negb filter];
      [| rewrite Haj]; exact IH.
Qed.

(** X7.  Deleting entries deletes their versions with them, and nothing
    else.  After [action_delete] the entries of [self] are gone and have
    no version left; every other entry is as it was, with its versions;
    the notebooks and the tags are as they were, and a store that was
    numbered still is. *)
Theorem deleting_entries_deletes_their_versions (st : Store) (self : list Z) :
  well_numbered st ->
  let st' := snd (action_delete st self) in
  fst (action_delete st self) = "journal.action_journal_entries"%string
  /\ (forall j, In j self -> find_entry st' j = None /\ version_ids st' j = [])
  /\ (forall j, ~ In j self ->
                find_entry st' j = find_entry st j
                /\ version_ids st' j = version_ids st j)
  /\ notebooks st' = notebooks st
  /\ tags st' = tags st
  /\ well_numbered st'.
Proof.
  intros Hall st'. unfold st', action_delete. cbn [fst snd].
  assert (Hf : forall j,
             find_entry (JournalNotebook.unlink_entries st self) j
             = if JournalNotebook.mem j self then None else find_entry st j).
  { intros j. unfold find_entry, JournalNotebook.unlink_entries. cbn [entries].
    apply (find_after_filter Entry.id). }
  assert (Hv : forall j,
             version_ids (JournalNotebook.unlink_entries st self) j
             = if JournalNotebook.mem j self then [] else version_ids st j).
  { intros j. unfold version_ids, JournalNotebook.unlink_entries. cbn [versions].
    apply (filter_after_filter Version.entry_id). }
  split; [reflexivity |]. split; [| split; [| split; [reflexivity |
    split; [reflexivity |]]]].
  - intros j Hj. apply NotebookFacts.mem_In in Hj.
    rewrite Hf, Hv, Hj. now split.
  - intros j Hj.
    assert (Hm : JournalNotebook.mem j self = false).
    { apply not_true_is_false. intros Hm. apply Hj.
      now apply NotebookFacts.mem_In. }
    rewrite Hf, Hv, Hm. now split.
  - unfold well_numbered in *. rewrite Forall_forall in *.
    intros e He. unfold JournalNotebook.unlink_entries in He. cbn [entries] in He.
    apply filter_In in He. destruct He as [He Hkeep].
    apply negb_true_iff in Hkeep.
    destruct (Hall e He) as [k [Hcv Hnum]]. exists k.
    split; [exact Hcv |]. now rewrite Hv, Hkeep.
Qed.

Lemma deleting_entries_deletes_their_versions_witness :
  let st' := snd (action_delete NotebookExample.shelf [10]) in
  fst (action_delete NotebookExample.shelf [10])
  = "journal.action_journal_entries"%string
  /\ (forall j, In j [10] -> find_entry st' j = None /\ version_ids st' j = [])
  /\ (forall j, ~ In j [10] ->
                find_entry st' j = find_entry NotebookExample.shelf j
                /\ version_ids st' j = version_ids NotebookExample.shelf j)
  /\ notebooks st' = notebooks NotebookExample.shelf
  /\ tags st' = tags NotebookExample.shelf
  /\ well_numbered st'.
Proof.
  apply (deleting_entries_deletes_their_versions NotebookExample.shelf [10]).
  repeat constructor.
  - exists 1%nat. split; reflexivity.
  - exists 0%nat. split; reflexivity.
  - exists 0%nat. split; reflexivity.
Defined.

End HistoryFacts.

(** ** Tags: archiving and deleting *)

Module TagFacts.
Import JournalEntry JournalTag.
Import VersionSpec TagSpec.
Local Open Scope list_scope.

Lemma find_entry_of_id (st : Store) (i : Z) :
  In i (map Entry.id (entries st)) -> exists e, find_entry st i = Some e.
Proof.
  unfold find_entry. induction (entries st) as [| a l IH]; simpl; [intros [] |].
  intros [Ha | Hin].
  - exists a. now rewrite Ha, Z.eqb_refl.
  - destruct (Entry.id a =? i); [now exists a | now apply IH].
Qed.

Lemma find_row (l : list Entry.t) (e : Entry.t) :
  NoDup (map Entry.id l) -> In e l ->
  find (fun x => Entry.id x =? Entry.id e) l = Some e.
Proof.
  induction l as [| a l IH]; simpl; intros Hnd Hin; [contradiction |].
  inversion Hnd as [| x xs Hnotin Hnd']. subst.
  destruct Hin as [-> | Hin].
  - now rewrite Z.eqb_refl.
  - destruct (Entry.id a =? Entry.id e) eqn:Hae.
    + apply Z.eqb_eq in Hae. exfalso. apply Hnotin. rewrite Hae.
      now apply in_map.
    + now apply IH.
Qed.

Lemma mem_remove_link (tag : Z) (l : list Z) :
  JournalNotebook.mem tag (remove_link tag l) = false.
Proof.
  unfold JournalNotebook.mem, remove_link.
  induction l as [| a l IH]; simpl; [reflexivity |].
  destruct (a =? tag) eqn:Hat; simpl; [exact IH |].
  rewrite Z.eqb_sym, Hat. exact IH.
Qed.

Lemma remove_link_absent (tag : Z) (l : list Z) :
  JournalNotebook.mem tag l = false -> remove_link tag l = l.
Proof.
  unfold JournalNotebook.mem, remove_link.
  induction l as [| a l IH]; simpl; [reflexivity |].
  intros Hm. apply orb_false_iff in Hm. destruct Hm as [Ha Hm].
  rewrite Z.eqb_sym, Ha. simpl. now rewrite IH.
Qed.

Lemma remove_link_twice (tag : Z) (l : list Z) :
  remove_link tag (remove_link tag l) = remove_link tag l.
Proof. apply remove_link_absent, mem_remove_link. Qed.

Lemma remove_link_other (tag u : Z) (l : list Z) :
  u <> tag -> (In u (remove_link tag l) <-> In u l).
Proof.
  intros Hne. unfold remove_link. rewrite filter_In. split.
  - now intros [Hin _].
  - intros Hin. split; [exact Hin |].
    apply negb_true_iff. now apply Z.eqb_neq.
Qed.

Lemma filter_none {A : Type} (f : A -> bool) (l : list A) :
  (forall x, In x l -> f x = false) -> filter f l = [].
Proof.
  induction l as [| a l IH]; simpl; intros Hall; [reflexivity |].
  rewrite (Hall a) by now left. apply IH. intros x Hx. apply Hall. now right.
Qed.

Lemma detached_refl (tag : Z) (st : Store) : detached tag st [] st.
Proof.
  unfold detached. repeat split. intros j e Hf. exists e.
  repeat split; [exact Hf | now left | intros []].
Qed.

Lemma detached_incl (tag : Z) (st0 st : Store) (d1 d2 : list Z) :
  incl d2 d1 -> detached tag st0 d1 st -> detached tag st0 d2 st.
Proof.
  intros Hincl [Hv [Hn [Ht [Hi [Hm Hall]]]]]. unfold detached.
  repeat split; try assumption.
  intros j e Hf. destruct (Hall j e Hf) as [e' [Hf' [Hb [Hor Hdone]]]].
  exists e'. repeat split; try assumption.
  intros Hj. apply Hdone. now apply Hincl.
Qed.

Section Detach.
Context `{RT : Runtime}.
Variable env : Env.
Variable tag : Z.

Lemma write_remove_link_detached (st0 : Store) (ids done : list Z) (st : Store) :
  detached tag st0 done st ->
  (forall i, In i ids -> In i (map Entry.id (entries st0))) ->
  exists st',
    write_remove_link env st ids tag = Ok st'
    /\ detached tag st0 (ids ++ done) st'.
Proof.
  revert done st. induction ids as [| i ids IH]; intros done st Hinv Hids.
  - exists st. split; [reflexivity | exact Hinv].
  - destruct (find_entry_of_id st0 i (Hids i (or_introl eq_refl))) as [e0 Hf0].
    destruct Hinv as [Hv [Hn [Ht [Hi [Hm Hall]]]]].
    destruct (Hall i e0 Hf0) as [e1 [Hf1 [Hb1 [Hor1 _]]]].
    set (vals := of_tag_ids (remove_link tag (Entry.tag_ids e1))).
    destruct (HistoryFacts.write_field env st i e1 vals Hf1 eq_refl eq_refl)
      as [Hw _].
    destruct (IH (i :: done) (update_entry st i (assign env vals))) as [st' [Hrun Hinv']].
    + unfold detached. repeat split; try assumption.
      * unfold update_entry, set_entries. simpl. rewrite map_map, <- Hm.
        apply map_ext. intros x. now destruct (Entry.id x =? i).
      * intros j e Hf. destruct (Hall j e Hf) as [e' [Hf' [Hb [Hor Hdone]]]].
        rewrite find_entry_update by apply VersionFacts.assign_id.
        rewrite Hf'. simpl. rewrite (find_entry_id st j e' Hf').
        destruct (j =? i) eqn:Hji.
        -- apply Z.eqb_eq in Hji. subst j.
           assert (e' = e1) by congruence. subst e'.
           assert (e = e0) by congruence. subst e.
           assert (Hnew : Entry.tag_ids (assign env vals e1)
                          = remove_link tag (Entry.tag_ids e0)).
           { simpl. destruct Hor as [-> | ->];
               [reflexivity | apply remove_link_twice]. }
           eexists. split; [reflexivity |].
           split; [exact Hb |]. split; [now right | intros _; exact Hnew].
        -- exists e'. split; [reflexivity |].
           split; [exact Hb |]. split; [exact Hor |].
           intros [Hij | Hj]; [| now apply Hdone].
           apply Z.eqb_neq in Hji. congruence.
    + intros k Hk. apply Hids. now right.
    + exists st'. split.
      * unfold write_remove_link. simpl. unfold read_entry at 1.
        rewrite Hf1. simpl. fold vals. rewrite Hw. simpl. exact Hrun.
      * apply detached_incl with (ids ++ i :: done); [| exact Hinv'].
        intros j Hj. simpl in Hj. apply in_or_app.
        destruct Hj as [<- | Hj]; [right; now left |].
        apply in_app_or in Hj. destruct Hj as [Hj | Hj];
          [now left | right; now right].
Qed.

(** The loop on one tag: every entry has lost the tag, and only it. *)
Lemma remove_from_entries_one (st : Store) :
  exists st',
    remove_from_entries env st [tag] = Ok st'
    /\ versions st' = versions st
    /\ notebooks st' = notebooks st
    /\ tags st' = tags st
    /\ next_id st' = next_id st
    /\ map Entry.id (entries st') = map Entry.id (entries st)
    /\ forall j e,
         find_entry st j = Some e ->
         exists e',
           find_entry st' j = Some e'
           /\ but_tags e' = but_tags e
           /\ Entry.tag_ids e' = remove_link tag (Entry.tag_ids e).
Proof.
  set (ids := map Entry.id (entry_ids st tag)).
  destruct (write_remove_link_detached st ids [] st (detached_refl tag st))
    as [st' [Hrun [Hv [Hn [Ht [Hi [Hm Hall]]]]]]].
  { intros i Hi. unfold ids in Hi. apply in_map_iff in Hi.
    destruct Hi as [e [<- Hin]]. apply in_map.
    unfold entry_ids in Hin. now apply filter_In in Hin. }
  assert (Hspec : forall j e,
             find_entry st j = Some e ->
             exists e',
               find_entry st' j = Some e'
               /\ but_tags e' = but_tags e
               /\ Entry.tag_ids e' = remove_link tag (Entry.tag_ids e)).
  { intros j e Hf. destruct (Hall j e Hf) as [e' [Hf' [Hb [Hor Hdone]]]].
    exists e'. split; [exact Hf' |]. split; [exact Hb |].
    destruct (JournalNotebook.mem tag (Entry.tag_ids e)) eqn:Hmem.
    - apply Hdone. rewrite app_nil_r. unfold ids.
      rewrite <- (find_entry_id st j e Hf). apply in_map.
      unfold entry_ids. apply filter_In. split; [| exact Hmem].
      now apply HistoryFacts.find_entry_In with j.
    - rewrite (remove_link_absent tag _ Hmem).
      destruct Hor as [-> | ->];
        [reflexivity | now apply remove_link_absent]. }
  destruct (entry_ids st tag) as [| x l] eqn:Hnone.
  - exists st. unfold remove_from_entries. simpl. rewrite Hnone.
    repeat split. intros j e Hf.
    destruct (Hspec j e Hf) as [e' [_ [_ _]]].
    exists e. split; [exact Hf |]. split; [reflexivity |].
    symmetry. apply remove_link_absent.
    destruct (JournalNotebook.mem tag (Entry.tag_ids e)) eqn:Hmem; [| reflexivity].
    assert (Hin : In e (entry_ids st tag)).
    { unfold entry_ids. apply filter_In. split; [| exact Hmem].
      now apply HistoryFacts.find_entry_In with j. }
    rewrite Hnone in Hin. contradiction.
  - exists st'. unfold remove_from_entries, for_each. rewrite Hnone.
    unfold ids in Hrun. rewrite Hrun. simpl. repeat split; assumption.
Qed.

(** With ids that are keys, no row keeps the tag. *)
Lemma no_entry_keeps_the_tag (st st' : Store) :
  NoDup (map Entry.id (entries st)) ->
  map Entry.id (entries st') = map Entry.id (entries st) ->
  (forall j e,
      find_entry st j = Some e ->
      exists e',
        find_entry st' j = Some e'
        /\ but_tags e' = but_tags e
        /\ Entry.tag_ids e' = remove_link tag (Entry.tag_ids e)) ->
  entry_ids st' tag = [].
Proof.
  intros Hnd Hm Hall. unfold entry_ids. apply filter_none. intros r Hr.
  assert (Hnd' : NoDup (map Entry.id (entries st'))) by now rewrite Hm.
  pose proof (find_row (entries st') r Hnd' Hr) as Hfr.
  fold (find_entry st' (Entry.id r)) in Hfr.
  assert (Hin : In (Entry.id r) (map Entry.id (entries st)))
    by (rewrite <- Hm; now apply in_map).
  destruct (find_entry_of_id st _ Hin) as [e Hf].
  destruct (Hall _ e Hf) as [e' [Hf' [_ Htags]]].
  assert (e' = r) by congruence. subst e'.
  rewrite Htags. apply mem_remove_link.
Qed.

End Detach.

Lemma mem_one (i j : Z) : JournalNotebook.mem i [j] = (i =? j).
Proof. unfold JournalNotebook.mem. simpl. apply orb_false_r. Qed.

Lemma find_tag_write_active (st : Store) (tag : Z) (tg : Tag.t) (b : bool) :
  find_tag st tag = Some tg ->
  find_tag (write_active st [tag] b) tag = Some (Tag.mk (Tag.id tg) (Tag.name tg) b).
Proof.
  unfold find_tag, write_active. cbn [tags].
  induction (tags st) as [| a l IH]; [discriminate |].
  cbn [find map]. rewrite mem_one.
  destruct (Tag.id a =? tag) eqn:Hat.
  - intros Hf. injection Hf as <-. cbn [Tag.id]. now rewrite Hat.
  - intros Hf. rewrite Hat. now apply IH.
Qed.

Lemma unlink_is_remove_link (tag : Z) (l : list Z) :
  filter (fun t => negb (JournalNotebook.mem t [tag])) l = remove_link tag l.
Proof.
  unfold remove_link. apply filter_ext. intros t. now rewrite mem_one.
Qed.

(** X8.  Archiving a tag takes it off every entry, and unarchiving does
    not put it back.  With ids that are keys, [action_archive] returns on
    a tag that is there: the tag is inactive, no entry has it, every
    entry keeps its other tags in their order and all its other fields,
    and no version is made.  After [action_unarchive] the tag is active
    again and still on no entry. *)
Theorem archive_takes_the_tag_off_for_good `{Runtime} (env : Env) (st : Store)
    (tag : Z) (tg : Tag.t) :
  NoDup (map Entry.id (entries st)) ->
  find_tag st tag = Some tg ->
  exists st',
    action_archive env st [tag] = Ok st'
    /\ find_tag st' tag = Some (Tag.mk (Tag.id tg) (Tag.name tg) false)
    /\ entry_ids st' tag = []
    /\ versions st' = versions st
    /\ (forall j e,
          find_entry st j = Some e ->
          exists e',
            find_entry st' j = Some e'
            /\ but_tags e' = but_tags e
            /\ Entry.tag_ids e' = remove_link tag (Entry.tag_ids e))
    /\ find_tag (action_unarchive st' [tag]) tag
       = Some (Tag.mk (Tag.id tg) (Tag.name tg) true)
    /\ entry_ids (action_unarchive st' [tag]) tag = [].
Proof.
  intros Hnd Htag.
  destruct (remove_from_entries_one env tag st)
    as [st1 [Hrun [Hv [Hn [Ht [Hi [Hm Hall]]]]]]].
  pose proof (no_entry_keeps_the_tag tag st st1 Hnd Hm Hall) as Hnone.
  assert (Htag1 : find_tag st1 tag = Some tg)
    by (unfold find_tag in *; now rewrite Ht).
  exists (write_active st1 [tag] false).
  split; [unfold action_archive; now rewrite Hrun |].
  split; [now apply find_tag_write_active |].
  split; [exact Hnone |]. split; [exact Hv |]. split; [exact Hall |].
  split; [| exact Hnone].
  unfold action_unarchive.
  apply (find_tag_write_active (write_active st1 [tag] false) tag
           (Tag.mk (Tag.id tg) (Tag.name tg) false) true).
  now apply find_tag_write_active.
Qed.

Lemma archive_takes_the_tag_off_for_good_witness :
  exists st',
    action_archive (H := one_word_runtime) Example.env TagExample.shelf [30]
    = Ok st'
    /\ find_tag st' 30 = Some (Tag.mk 30 "work" false)
    /\ entry_ids st' 30 = []
    /\ versions st' = versions TagExample.shelf
    /\ (forall j e,
          find_entry TagExample.shelf j = Some e ->
          exists e',
            find_entry st' j = Some e'
            /\ but_tags e' = but_tags e
            /\ Entry.tag_ids e' = remove_link 30 (Entry.tag_ids e))
    /\ find_tag (action_unarchive st' [30]) 30 = Some (Tag.mk 30 "work" true)
    /\ entry_ids (action_unarchive st' [30]) 30 = [].
Proof.
  apply (archive_takes_the_tag_off_for_good (H := one_word_runtime) Example.env
           TagExample.shelf 30 (Tag.mk 30 "work" true)).
  - simpl. repeat constructor; simpl; intuition lia.
  - reflexivity.
Defined.

Lemma find_entry_unlink (st : Store) (self : list Z) (j : Z) (e : Entry.t) :
  find_entry st j = Some e ->
  exists e',
    find_entry (unlink st self) j = Some e'
    /\ but_tags e' = but_tags e
    /\ Entry.tag_ids e'
       = filter (fun t => negb (JournalNotebook.mem t self)) (Entry.tag_ids e).
Proof.
  unfold find_entry, unlink. cbn [entries].
  induction (entries st) as [| a l IH]; cbn [find map Entry.id];
    [discriminate |].
  destruct (Entry.id a =? j).
  - intros Hfa. injection Hfa as ->. eexists. repeat split.
  - exact IH.
Qed.

(** X9.  Deleting a tag leaves no reference to it.  [action_delete]
    returns, with the action of the list of tags: the tag is gone, no entry
    has it, every entry keeps its other tags and fields, the other tags
    are as they were and no version is made. *)
Theorem delete_leaves_no_reference_to_the_tag `{Runtime} (env : Env)
    (st : Store) (tag : Z) :
  exists st',
    action_delete env st [tag] = Ok ("journal.action_journal_tags"%string, st')
    /\ find_tag st' tag = None
    /\ (forall e, In e (entries st') -> ~ In tag (Entry.tag_ids e))
    /\ (forall j e,
          find_entry st j = Some e ->
          exists e',
            find_entry st' j = Some e'
            /\ but_tags e' = but_tags e
            /\ Entry.tag_ids e' = remove_link tag (Entry.tag_ids e))
    /\ (forall u, u <> tag -> find_tag st' u = find_tag st u)
    /\ versions st' = versions st.
Proof.
  destruct (remove_from_entries_one env tag st)
    as [st1 [Hrun [Hv [Hn [Ht [Hi [Hm Hall]]]]]]].
  exists (unlink st1 [tag]).
  split; [unfold action_delete; now rewrite Hrun |].
  split; [| split; [| split; [| split; [| exact Hv]]]].
  - unfold find_tag, unlink. cbn [tags].
    destruct (find _ (filter _ (tags st1))) as [t |] eqn:Hfind; [| reflexivity].
    apply find_some in Hfind. destruct Hfind as [Hin Hid].
    apply filter_In in Hin. destruct Hin as [_ Hkeep].
    rewrite mem_one, Hid in Hkeep. discriminate.
  - intros e He Hin. unfold unlink in He. cbn [entries] in He.
    apply in_map_iff in He. destruct He as [x [<- _]]. cbn [Entry.tag_ids] in Hin.
    apply filter_In in Hin. destruct Hin as [_ Hkeep].
    rewrite mem_one, Z.eqb_refl in Hkeep. discriminate.
  - intros j e Hf. destruct (Hall j e Hf) as [e' [Hf' [Hb Htags]]].
    destruct (find_entry_unlink st1 [tag] j e' Hf') as [e2 [Hf2 [Hb2 Htags2]]].
    exists e2. split; [exact Hf2 |]. split; [congruence |].
    rewrite Htags2, unlink_is_remove_link, Htags. apply remove_link_twice.
  - intros u Hu. unfold find_tag, unlink. cbn [tags]. rewrite Ht.
    generalize (tags st). clear - Hu. intros l.
    induction l as [| a l IH]; [reflexivity |].
    cbn [filter find]. rewrite mem_one.
    destruct (Tag.id a =? tag) eqn:Hat; cbn [negb find].
    + apply Z.eqb_eq in Hat.
      replace (Tag.id a =? u) with false
        by (symmetry; apply Z.eqb_neq; congruence).
      exact IH.
    + destruct (Tag.id a =? u); [reflexivity | exact IH].
Qed.

End TagFacts.

(** ** Notebooks: archiving, the colour, the last date *)

Module NotebookActionFacts.
Import JournalNotebookActions.
Local Open Scope list_scope.

(** X10.  Archiving a notebook is a soft delete that unarchiving undoes.
    [action_archive] touches no entry and no version, and it leaves in
    place the notebooks, those of [self] inactive; when these were active,
    [action_unarchive] gives back the store as it was. *)
Theorem notebook_archive_is_undone_by_unarchive (st : Store) (self : list Z) :
  (forall n, In n (notebooks st) -> JournalNotebook.mem (Notebook.id n) self = true ->
             Notebook.active n = true) ->
  entries (action_archive st self) = entries st
  /\ versions (action_archive st self) = versions st
  /\ map Notebook.id (notebooks (action_archive st self))
     = map Notebook.id (notebooks st)
  /\ (forall n, In n (notebooks (action_archive st self)) ->
                JournalNotebook.mem (Notebook.id n) self = true ->
                Notebook.active n = false)
  /\ action_unarchive (action_archive st self) self = st.
Proof.
  intros Hactive. split; [reflexivity |]. split; [reflexivity |].
  split; [| split].
  - unfold action_archive, write_active. cbn [notebooks]. rewrite map_map.
    apply map_ext. intros n.
    now destruct (JournalNotebook.mem (Notebook.id n) self).
  - intros n Hin Hmem. unfold action_archive, write_active in Hin.
    cbn [notebooks] in Hin. apply in_map_iff in Hin.
    destruct Hin as [x [Hx _]].
    destruct (JournalNotebook.mem (Notebook.id x) self) eqn:Hxm.
    + now subst n.
    + subst n. congruence.
  - destruct st as [es vs ns ts k]. unfold action_unarchive, action_archive,
      write_active. cbn [entries versions notebooks tags next_id] in *.
    f_equal. rewrite map_map. rewrite <- (map_id ns) at 2.
    apply map_ext_in. intros n Hin.
    destruct (JournalNotebook.mem (Notebook.id n) self) eqn:Hmem.
    + cbn [Notebook.id]. rewrite Hmem.
      pose proof (Hactive n Hin Hmem) as Ha. destruct n. simpl in *.
      now subst.
    + now rewrite Hmem.
Qed.

Lemma notebook_archive_is_undone_by_unarchive_witness :
  entries (action_archive NotebookExample.shelf [2]) = entries NotebookExample.shelf
  /\ versions (action_archive NotebookExample.shelf [2])
     = versions NotebookExample.shelf
  /\ map Notebook.id (notebooks (action_archive NotebookExample.shelf [2]))
     = map Notebook.id (notebooks NotebookExample.shelf)
  /\ (forall n, In n (notebooks (action_archive NotebookExample.shelf [2])) ->
                JournalNotebook.mem (Notebook.id n) [2] = true ->
                Notebook.active n = false)
  /\ action_unarchive (action_archive NotebookExample.shelf [2]) [2]
     = NotebookExample.shelf.
Proof.
  apply (notebook_archive_is_undone_by_unarchive NotebookExample.shelf [2]).
  simpl. intros n [<- | [<- | []]] _; reflexivity.
Defined.

Lemma latest_fold (l : list Z) (d : Z) :
  let best := fold_left (fun best x => if best <? x then x else best) l d in
  d <= best /\ (forall x, In x l -> x <= best) /\ In best (d :: l).
Proof.
  revert d. induction l as [| a l IH]; intros d; simpl.
  - split; [lia |]. split; [intros x [] | now left].
  - destruct (IH (if d <? a then a else d)) as [Hge [Hall Hin]].
    destruct (d <? a) eqn:Hda.
    + apply Z.ltb_lt in Hda. split; [lia |]. split.
      * intros x [<- | Hx]; [exact Hge | now apply Hall].
      * right. exact Hin.
    + apply Z.ltb_ge in Hda. split; [exact Hge |]. split.
      * intros x [<- | Hx]; [lia | now apply Hall].
      * destruct Hin as [Hin | Hin]; [now left | right; now right].
Qed.

(** X11.  The last date of a notebook is the date of one of its entries,
    and none of its entries is later; a notebook has no last date exactly
    when it has no entry. *)
Theorem last_entry_date_is_the_latest (st : Store) (notebook : Z) :
  match _compute_last_entry_date st notebook with
  | Some d =>
      (exists e, In e (entry_ids st notebook) /\ Entry.entry_date e = d)
      /\ (forall e, In e (entry_ids st notebook) -> Entry.entry_date e <= d)
  | None => _compute_entries_count st notebook = 0
  end.
Proof.
  unfold _compute_last_entry_date, _compute_entries_count.
  destruct (entry_ids st notebook) as [| e l]; [reflexivity |].
  cbn [map].
  destruct (latest_fold (map Entry.entry_date l) (Entry.entry_date e))
    as [Hge [Hall Hin]].
  split.
  - destruct Hin as [Hin | Hin].
    + exists e. split; [now left | exact Hin].
    + apply in_map_iff in Hin. destruct Hin as [x [Hx Hin]].
      exists x. split; [now right | exact Hx].
  - intros x [<- | Hx]; [exact Hge |].
    apply Hall. now apply in_map.
Qed.

Lemma palette (r : Z) :
  0 <= r <= 11 -> existsb (String.eqb (Py.str_int r)) colors = true.
Proof.
  intros Hr.
  assert (Hcases : r = 0 \/ r = 1 \/ r = 2 \/ r = 3 \/ r = 4 \/ r = 5 \/ r = 6
                   \/ r = 7 \/ r = 8 \/ r = 9 \/ r = 10 \/ r = 11) by lia.
  repeat (destruct Hcases as [-> | Hcases]; [reflexivity |]).
  subst r. reflexivity.
Qed.

(** X12.  A notebook created without a colour gets one of the twelve keys
    of the selection, whatever number between 0 and 11 is drawn.  The
    creation returns the next id of the store when the name holds more than
    white space, the new notebook being active and owned by the user unless
    [vals] say otherwise; a name of white space only is refused and the
    store is not changed. *)
Theorem created_notebook_has_a_colour_of_the_selection `{Runtime} (env : Env)
    (st : Store) (randint : Z) (vals : Vals) (name : string) :
  0 <= randint <= 11 ->
  vals_color vals = None ->
  vals_name vals = Some name ->
  if Py.truthy (str_strip name) then
    exists n,
      create env st randint vals
      = Ok (next_id st,
            mkStore (entries st) (versions st) (notebooks st ++ [n]) (tags st)
              (next_id st + 1))
      /\ Notebook.color n = Py.str_int randint
      /\ In (Notebook.color n) colors
      /\ (Notebook.id n, Notebook.name n) = (next_id st, name)
      /\ Notebook.user_id n = get_or (vals_user_id vals) (env_user env)
      /\ Notebook.active n = get_or (vals_active vals) true
  else
    create env st randint vals
    = Raise (ValidationError "Notebook name cannot be empty.").
Proof.
  intros Hr Hcolor Hname. unfold create. rewrite Hcolor. cbn [vals_name vals_color
    vals_description vals_user_id vals_active get_or]. rewrite Hname.
  rewrite (palette randint Hr). cbn [negb]. unfold _check_name. cbn [Notebook.name].
  destruct (Py.truthy (str_strip name)); [| reflexivity].
  cbn [negb bind]. eexists. split; [reflexivity |].
  cbn [Notebook.color Notebook.id Notebook.name Notebook.user_id Notebook.active].
  repeat split.
  pose proof (palette randint Hr) as Hp. apply existsb_exists in Hp.
  destruct Hp as [c [Hin Hc]]. apply String.eqb_eq in Hc. now rewrite Hc.
Qed.

Lemma created_notebook_has_a_colour_of_the_selection_witness :
  exists n,
    create (H := one_word_runtime) Example.env Example.st0 11
      (mkVals (Some "Travel"%string) None None None None)
    = Ok (10,
          mkStore [] [] (notebooks Example.st0 ++ [n]) [] 11)
    /\ Notebook.color n = "11"%string
    /\ In (Notebook.color n) colors
    /\ (Notebook.id n, Notebook.name n) = (10, "Travel"%string)
    /\ Notebook.user_id n = 7
    /\ Notebook.active n = true.
Proof.
  apply (created_notebook_has_a_colour_of_the_selection (H := one_word_runtime)
           Example.env Example.st0 11
           (mkVals (Some "Travel"%string) None None None None) "Travel"%string).
  - lia.
  - reflexivity.
  - reflexivity.
Defined.

End NotebookActionFacts.

(** ** The timeline and the consistency of the moods *)

Module TimelineFacts.
Import MoodAnalysis MoodTimeline.
Import MoodSpec TimelineSpec.
Local Open Scope list_scope.

Lemma changes_fold (l : list (string * Mood)) (c : Z) (p : Mood) :
  fst (fold_left changes_step l (c, Some p)) = c + switches (p :: map snd l).
Proof.
  revert c p. induction l as [| e l IH]; intros c p.
  - simpl. lia.
  - cbn [fold_left changes_step]. rewrite IH.
    cbn [map switches]. rewrite (MoodFacts.mood_eqb_sym p (snd e)).
    destruct (mood_eqb (snd e) p); simpl negb; cbv iota; lia.
Qed.

Lemma count_changes_switches (l : list (string * Mood)) :
  count_changes l = switches (map snd l).
Proof.
  unfold count_changes. destruct l as [| e l]; [reflexivity |].
  cbn [fold_left changes_step]. rewrite changes_fold. cbn [map]. lia.
Qed.

Lemma switches_bounds (l : list Mood) :
  0 <= switches l /\ switches l <= Z.max 0 (Z.of_nat (List.length l) - 1).
Proof.
  induction l as [| a l IH]; [simpl; lia |].
  destruct l as [| b l]; [simpl; lia |].
  cbn [switches]. cbn [switches] in IH.
  change (List.length (a :: b :: l)) with (S (List.length (b :: l))).
  change (List.length (b :: l)) with (S (List.length l)) in *.
  destruct (mood_eqb a b); lia.
Qed.

Lemma positive_iff (x : Q) : Num.positive (Float x) = true <-> (0 < x)%Q.
Proof.
  unfold Num.positive. rewrite Qgt_alt.
  destruct (x ?= 0)%Q; split; congruence.
Qed.

Lemma above_iff (x : Q) (n : Z) : above (Float x) n = true <-> (inject_Z n < x)%Q.
Proof.
  unfold above. rewrite Qgt_alt.
  destruct (x ?= inject_Z n)%Q; split; congruence.
Qed.

(** The share of the changes among the steps of the sequence. *)
Lemma share_bounds (k d : Z) :
  0 <= k <= d -> 1 <= d ->
  (0 <= inject_Z k / inject_Z d /\ inject_Z k / inject_Z d <= 1)%Q.
Proof.
  intros Hk Hd.
  assert (Hd0 : (0 < inject_Z d)%Q) by (rewrite <- (Zlt_Qlt 0); lia).
  split.
  - apply Qle_shift_div_l; [exact Hd0 |]. rewrite Qmult_0_l.
    rewrite <- (Zle_Qle 0). lia.
  - apply Qle_shift_div_r; [exact Hd0 |]. rewrite Qmult_1_l.
    rewrite <- Zle_Qle. lia.
Qed.

(** X13.  The consistency of a sequence of moods that is not empty.  The
    changes are the number of steps from a mood to a different one, at
    most the length minus one; the score, before it is rounded, is the int
    0 or a float above 0 and at most 100.  A sequence without change has
    the score 100 and the trend high; a sequence of two moods or more in
    which every step is a change has the score 0 and the trend low. *)
Theorem consistency_counts_the_changes `{Runtime} (l : list (string * Mood)) :
  l <> [] ->
  let c := _calculate_mood_consistency l in
  let n := Z.of_nat (List.length l) in
  let k := switches (map snd l) in
  changes c = Some k
  /\ 0 <= k <= n - 1
  /\ score c = Num.round (consistency_score k n)
  /\ (consistency_score k n = Int 0
      \/ exists x, consistency_score k n = Float x /\ (0 < x /\ x <= 100)%Q)
  /\ (k = 0 ->
      (exists x, consistency_score k n = Float x /\ (x == 100)%Q)
      /\ trend c = "high"%string)
  /\ (k = n - 1 -> 2 <= n ->
      consistency_score k n = Int 0 /\ trend c = "low"%string).
Proof.
  intros Hne c n k.
  assert (Hn : 1 <= n).
  { unfold n. destruct l; [congruence |]. simpl List.length. lia. }
  assert (Hk : 0 <= k <= n - 1).
  { unfold k, n. pose proof (switches_bounds (map snd l)) as Hb.
    rewrite length_map in Hb. fold n in Hb. lia. }
  assert (Hc : c = mkConsistency (Num.round (consistency_score k n)) (Some k)
                     (if above (consistency_score k n) 70 then "high"
                      else if above (consistency_score k n) 40 then "medium"
                      else "low")%string).
  { unfold c, _calculate_mood_consistency. destruct l; [congruence |].
    rewrite count_changes_switches. reflexivity. }
  set (d := Z.max 1 (n - 1)).
  assert (Hd : 1 <= d) by (unfold d; lia).
  assert (Hkd : 0 <= k <= d) by (unfold d; lia).
  destruct (share_bounds k d Hkd Hd) as [Hlo Hhi].
  set (x := (inject_Z 100 - (inject_Z k / inject_Z d) * inject_Z 100)%Q).
  assert (Hscore : consistency_score k n
                   = if Num.positive (Float x) then Float x else Int 0)
    by reflexivity.
  assert (Hx100 : (x <= 100)%Q).
  { unfold x. change (inject_Z 100) with 100%Q. lra. }
  rewrite Hc. cbn [changes score trend].
  split; [reflexivity |]. split; [exact Hk |]. split; [reflexivity |].
  split; [| split].
  - rewrite Hscore. destruct (Num.positive (Float x)) eqn:Hpos.
    + right. exists x. split; [reflexivity |]. split; [| exact Hx100].
      now apply positive_iff.
    + now left.
  - intros Hk0.
    assert (Hx : (x == 100)%Q).
    { unfold x. rewrite Hk0. change (inject_Z 100) with 100%Q.
      change (inject_Z 0) with 0%Q. unfold Qdiv. rewrite Qmult_0_l. lra. }
    assert (Hpos : Num.positive (Float x) = true)
      by (apply positive_iff; rewrite Hx; reflexivity).
    rewrite Hscore, Hpos. split.
    + exists x. split; [reflexivity | exact Hx].
    + replace (above (Float x) 70) with true; [reflexivity |].
      symmetry. apply above_iff. rewrite Hx. reflexivity.
  - intros Hkn Hn2.
    assert (Hx : (x == 0)%Q).
    { unfold x. replace k with d by (unfold d; lia).
      change (inject_Z 100) with 100%Q.
      assert (Hone : (inject_Z d / inject_Z d == 1)%Q).
      { unfold Qdiv. apply Qmult_inv_r. intros Hz.
        assert (Hd0 : (0 < inject_Z d)%Q) by (rewrite <- (Zlt_Qlt 0); lia).
        rewrite Hz in Hd0. now apply Qlt_irrefl in Hd0. }
      rewrite Hone. lra. }
    assert (Hpos : Num.positive (Float x) = false).
    { apply not_true_is_false. intros Hp. apply positive_iff in Hp.
      rewrite Hx in Hp. now apply Qlt_irrefl in Hp. }
    rewrite Hscore, Hpos. split; reflexivity.
Qed.

Lemma consistency_counts_the_changes_witness :
  let l := same_day [happy; happy; sad; happy] in
  let c := _calculate_mood_consistency (H := one_word_runtime) l in
  let n := Z.of_nat (List.length l) in
  let k := switches (map snd l) in
  changes c = Some k
  /\ 0 <= k <= n - 1
  /\ score c = Num.round (H := one_word_runtime) (consistency_score k n)
  /\ (consistency_score k n = Int 0
      \/ exists x, consistency_score k n = Float x /\ (0 < x /\ x <= 100)%Q)
  /\ (k = 0 ->
      (exists x, consistency_score k n = Float x /\ (x == 100)%Q)
      /\ trend c = "high"%string)
  /\ (k = n - 1 -> 2 <= n ->
      consistency_score k n = Int 0 /\ trend c = "low"%string).
Proof.
  apply (consistency_counts_the_changes (H := one_word_runtime)
           (same_day [happy; happy; sad; happy])).
  discriminate.
Defined.

(** *** The entries of the timeline *)

Lemma in_insert_by_date (e x : Entry.t) (l : list Entry.t) :
  In x (insert_by_date e l) <-> x = e \/ In x l.
Proof.
  induction l as [| a l IH]; simpl.
  - split; [intros [<- | []]; now left | intros [-> | []]; now left].
  - destruct (Entry.entry_date e <=? Entry.entry_date a); simpl.
    + split; [intros [<- | H]; [now left | now right]
             | intros [-> | H]; [now left | now right]].
    + rewrite IH. tauto.
Qed.

Lemma length_insert_by_date (e : Entry.t) (l : list Entry.t) :
  List.length (insert_by_date e l) = S (List.length l).
Proof.
  induction l as [| a l IH]; simpl; [reflexivity |].
  destruct (Entry.entry_date e <=? Entry.entry_date a); simpl; [reflexivity |].
  now rewrite IH.
Qed.

Lemma sorted_insert_by_date (e : Entry.t) (l : list Entry.t) :
  StronglySorted (fun a b => Entry.entry_date a <= Entry.entry_date b) l ->
  StronglySorted (fun a b => Entry.entry_date a <= Entry.entry_date b)
    (insert_by_date e l).
Proof.
  induction l as [| a l IH]; simpl; intros Hs.
  - constructor; [constructor | constructor].
  - inversion Hs as [| x xs Hs' Hall]. subst.
    destruct (Entry.entry_date e <=? Entry.entry_date a) eqn:Hea.
    + apply Z.leb_le in Hea. constructor; [exact Hs |].
      constructor; [exact Hea |].
      rewrite Forall_forall in *. intros y Hy. specialize (Hall y Hy). lia.
    + apply Z.leb_gt in Hea. constructor; [now apply IH |].
      rewrite Forall_forall in *. intros y Hy.
      apply in_insert_by_date in Hy. destruct Hy as [-> | Hy]; [lia |].
      now apply Hall.
Qed.

Lemma search_by_date_spec (st : Store) (domain : Entry.t -> bool) :
  (forall x, In x (search_by_date st domain) <-> In x (entries st) /\ domain x = true)
  /\ List.length (search_by_date st domain)
     = List.length (filter domain (entries st))
  /\ StronglySorted (fun a b => Entry.entry_date a <= Entry.entry_date b)
       (search_by_date st domain).
Proof.
  unfold search_by_date. split; [| split].
  - intros x. rewrite <- filter_In.
    induction (filter domain (entries st)) as [| a l IH]; simpl; [tauto |].
    rewrite in_insert_by_date, IH. intuition congruence.
  - induction (filter domain (entries st)) as [| a l IH]; simpl; [reflexivity |].
    now rewrite length_insert_by_date, IH.
  - induction (filter domain (entries st)) as [| a l IH]; simpl; [constructor |].
    now apply sorted_insert_by_date.
Qed.

Lemma has_mood_iff (e : Entry.t) : has_mood e = true <-> Entry.mood e <> None.
Proof. unfold has_mood. destruct (Entry.mood e); split; congruence. Qed.

(** The start of the window is a date exactly when the days fit a
    timedelta and lead to a date. *)
Lemma start_date_of_spec (env : Env) (days : Z) :
  (Z.abs days <= 999999999 /\ 1 <= today env - days <= 3652059 ->
   start_date_of env days = Returned (today env - days))
  /\ (~ (Z.abs days <= 999999999 /\ 1 <= today env - days <= 3652059) ->
      start_date_of env days = OverflowError).
Proof.
  unfold start_date_of, timedelta, date_sub.
  destruct (Z.leb_spec (Z.abs days) 999999999) as [Ha | Ha];
    [| split; [lia | reflexivity]].
  cbv zeta.
  destruct (Z.leb_spec 1 (today env - days)) as [Hl | Hl];
    [| split; [lia | reflexivity]].
  destruct (Z.leb_spec (today env - days) 3652059) as [Hh | Hh];
    [| split; [lia | reflexivity]].
  split; [reflexivity | intros Hn; exfalso; apply Hn; lia].
Qed.

(** X14.  The timeline shows the moods of the window, and all of them.
    When the days fit a timedelta (999999999 at most in magnitude) and
    the day [days] days ago is a date (from the ordinal 1 to 3652059),
    [get_mood_timeline] returns: its entries are the entries of the store
    that belong to the user, have a mood and are dated [days] days ago or
    later, the earliest first; [total_entries] is their number,
    [timeline_data] and [mood_sequence] have one element for each, with
    its date and its mood, and [days] is the argument.  Otherwise it
    raises OverflowError. *)
Theorem timeline_shows_the_moods_of_the_window `{Runtime} (env : Env)
    (st : Store) (user_id : option Z) (days : Z) :
  (Z.abs days <= 999999999 /\ 1 <= today env - days <= 3652059 ->
   exists t,
     get_mood_timeline env st user_id days = Returned t
     /\ MoodTimeline.days t = days
     /\ let es := timeline_entries env st user_id (today env - days) in
        (forall e,
            In e es
            <-> In e (entries st)
                /\ Entry.user_id e = user_or_self env user_id
                /\ Entry.mood e <> None
                /\ today env - days <= Entry.entry_date e)
        /\ StronglySorted (fun a b => Entry.entry_date a <= Entry.entry_date b) es
        /\ total_entries t
           = Z.of_nat
               (List.length
                  (filter
                     (fun e => (Entry.user_id e =? user_or_self env user_id)
                               && has_mood e
                               && (today env - days <=? Entry.entry_date e))
                     (entries st)))
        /\ total_entries t = Z.of_nat (List.length (timeline_data t))
        /\ map (fun i => (item_date i, item_mood i)) (timeline_data t)
           = mood_sequence t
        /\ map (fun p => (fst p, Some (snd p))) (mood_sequence t)
           = map (fun e => (date_strftime "%Y-%m-%d" (Entry.entry_date e),
                            Entry.mood e)) es)
  /\ (~ (Z.abs days <= 999999999 /\ 1 <= today env - days <= 3652059) ->
      get_mood_timeline env st user_id days = OverflowError).
Proof.
  destruct (start_date_of_spec env days) as [Hstart Hraise].
  split; [| intros Hout; unfold get_mood_timeline; now rewrite (Hraise Hout)].
  intros Hrange. unfold get_mood_timeline. rewrite (Hstart Hrange).
  eexists. split; [reflexivity |]. split; [reflexivity |].
  cbv zeta. cbn [total_entries timeline_data mood_sequence].
  set (es := timeline_entries env st user_id (today env - days)).
  destruct (search_by_date_spec st
              (fun e => (Entry.user_id e =? user_or_self env user_id)
                        && has_mood e
                        && (today env - days <=? Entry.entry_date e)))
    as [Hin [Hlen Hsorted]].
  fold (timeline_entries env st user_id (today env - days)) in Hin, Hlen, Hsorted.
  fold es in Hin, Hlen, Hsorted.
  assert (Hmood : forall e, In e es -> has_mood e = true).
  { intros e He. apply Hin in He. destruct He as [_ Hd].
    apply andb_true_iff in Hd. destruct Hd as [Hd _].
    apply andb_true_iff in Hd. now destruct Hd. }
  split; [| split; [exact Hsorted | split; [| split; [| split]]]].
  - intros e. rewrite Hin, !andb_true_iff, Z.eqb_eq, Z.leb_le, has_mood_iff.
    tauto.
  - now rewrite Hlen.
  - f_equal. clear Hin Hlen Hsorted.
    induction es as [| e l IH]; [reflexivity |].
    cbn [flat_map]. rewrite length_app, <- IH by (intros x Hx; apply Hmood; now right).
    assert (He : has_mood e = true) by (apply Hmood; now left).
    unfold has_mood in He. destruct (Entry.mood e); [reflexivity | discriminate].
  - clear. induction es as [| e l IH]; [reflexivity |].
    cbn [flat_map]. rewrite map_app, IH.
    now destruct (Entry.mood e).
  - clear Hin Hlen Hsorted.
    induction es as [| e l IH]; [reflexivity |].
    cbn [flat_map map]. rewrite map_app, IH by (intros x Hx; apply Hmood; now right).
    assert (He : has_mood e = true) by (apply Hmood; now left).
    unfold has_mood in He. destruct (Entry.mood e); [reflexivity | discriminate].
Qed.

(** The last eight days of the diary, for the user 7: four entries. *)
Lemma timeline_shows_the_moods_of_the_window_witness :
  (Z.abs 8 <= 999999999 /\ 1 <= today Example.env - 8 <= 3652059)
  /\ exists t,
       get_mood_timeline (H := one_word_runtime) Example.env MoodExample.diary
         (Some 7) 8 = Returned t
       /\ MoodTimeline.days t = 8.
Proof.
  assert (Hrange : Z.abs 8 <= 999999999 /\ 1 <= today Example.env - 8 <= 3652059)
    by (simpl; lia).
  split; [exact Hrange |].
  destruct (timeline_shows_the_moods_of_the_window (H := one_word_runtime)
              Example.env MoodExample.diary (Some 7) 8) as [Hreturns _].
  destruct (Hreturns Hrange) as (t & Ht & Hdays & _).
  exists t. split; [exact Ht | exact Hdays].
Defined.

(** The timeline of the last eight days of the diary, and the call that
    asks for more days than the calendar has. *)
Example timeline_of_the_diary :
  (exists t,
      get_mood_timeline (H := one_word_runtime) Example.env MoodExample.diary
        (Some 7) 8 = Returned t
      /\ mood_sequence t
         = [("95", sad); ("96", happy); ("97", happy); ("98", sad)])
  /\ get_mood_timeline (H := one_word_runtime) Example.env MoodExample.diary
       (Some 7) 100 = OverflowError
  /\ get_mood_timeline (H := one_word_runtime) Example.env MoodExample.diary
       (Some 7) 1000000000 = OverflowError.
Proof.
  split; [eexists; split; reflexivity | split; reflexivity].
Qed.

End TimelineFacts.

(** ** The calendar of the moods *)

Module CalendarFacts.
Import MoodAnalysis MoodCalendar.
Import MoodSpec CalendarSpec.
Local Open Scope list_scope.

Lemma moods_of_app (l1 l2 : list Entry.t) :
  moods_of (l1 ++ l2) = moods_of l1 ++ moods_of l2.
Proof.
  induction l1 as [| e l IH]; simpl; [reflexivity |].
  destruct (Entry.mood e); simpl; now rewrite IH.
Qed.







Section Loop.
Context `{RT : Runtime}.





End Loop.





End CalendarFacts.

(** ** The correlations of the moods *)

Module CorrelationFacts.
Import MoodAnalysis MoodCorrelations.
Import MoodSpec CorrelationSpec.
Local Open Scope list_scope.

(** The pattern of the loops: [if m not in d: d[m] = init], then
    [d[m] = g(d[m])]. *)
Lemma get_init_set {V : Type} (d : Dict.t Mood V) (m k : Mood) (init default : V)
    (g : V -> V) :
  let d1 := if negb (Dict.has mood_eqb d m) then Dict.set mood_eqb d m init else d in
  Dict.get mood_eqb (Dict.set mood_eqb d1 m (g (Dict.get mood_eqb d1 m default)))
    k default
  = if mood_eqb m k
    then g (if Dict.has mood_eqb d m then Dict.get mood_eqb d m default else init)
    else Dict.get mood_eqb d k default.
Proof.
  intros d1. rewrite MoodFacts.get_set. unfold d1.
  destruct (mood_eqb m k) eqn:Hmk.
  - destruct (Dict.has mood_eqb d m); cbn [negb]; [reflexivity |].
    now rewrite MoodFacts.get_set, MoodFacts.mood_eqb_refl.
  - destruct (Dict.has mood_eqb d m); cbn [negb]; [reflexivity |].
    now rewrite MoodFacts.get_set, Hmk.
Qed.

Lemma has_existsb {V : Type} (d : Dict.t Mood V) (m : Mood) :
  Dict.has mood_eqb d m = existsb (mood_eqb m) (Dict.keys d).
Proof.
  unfold Dict.keys. induction d as [| [k v] d IH]; simpl; [reflexivity |].
  now rewrite IH, (MoodFacts.mood_eqb_sym k m).
Qed.

Lemma keys_init_set {V : Type} (d : Dict.t Mood V) (m : Mood) (init v : V) :
  let d1 := if negb (Dict.has mood_eqb d m) then Dict.set mood_eqb d m init else d in
  Dict.keys (Dict.set mood_eqb d1 m v)
  = if existsb (mood_eqb m) (Dict.keys d) then Dict.keys d else Dict.keys d ++ [m].
Proof.
  intros d1. rewrite MoodFacts.keys_set. unfold d1. rewrite has_existsb.
  destruct (existsb (mood_eqb m) (Dict.keys d)) eqn:Hin; cbn [negb].
  - now rewrite Hin.
  - rewrite MoodFacts.keys_set, Hin, existsb_app. simpl.
    now rewrite MoodFacts.mood_eqb_refl, orb_true_r.
Qed.

Lemma distinct_snoc (l : list Mood) (m : Mood) :
  distinct [] (l ++ [m])
  = if existsb (mood_eqb m) (distinct [] l) then distinct [] l
    else distinct [] l ++ [m].
Proof.
  rewrite MoodFacts.distinct_app, app_nil_r. cbn [distinct].
  assert (Hsame : existsb (mood_eqb m) (rev l) = existsb (mood_eqb m) (distinct [] l)).
  { apply eq_true_iff_eq. rewrite !MoodFacts.existsb_mood_In, <- in_rev.
    rewrite MoodFacts.in_distinct. simpl. tauto. }
  rewrite Hsame. destruct (existsb (mood_eqb m) (distinct [] l));
    [now rewrite app_nil_r | reflexivity].
Qed.

Lemma with_mood_app (m : Mood) (l1 l2 : list Entry.t) :
  with_mood m (l1 ++ l2) = with_mood m l1 ++ with_mood m l2.
Proof. apply filter_app. Qed.

Lemma with_mood_none (m : Mood) (l : list Entry.t) :
  ~ In m (moods_of l) -> with_mood m l = [].
Proof.
  induction l as [| e l IH]; simpl; [reflexivity |].
  destruct (Entry.mood e) as [x |]; simpl.
  - intros Hn. destruct (mood_eqb x m) eqn:Hx.
    + apply MoodFacts.mood_eqb_eq in Hx. exfalso. apply Hn. now left.
    + apply IH. intros Hin. apply Hn. now right.
  - exact IH.
Qed.

Lemma with_mood_length (m : Mood) (l : list Entry.t) :
  Z.of_nat (List.length (with_mood m l)) = occurrences m (moods_of l).
Proof.
  unfold occurrences. f_equal.
  induction l as [| e l IH]; simpl; [reflexivity |].
  destruct (Entry.mood e) as [x |]; simpl; [| exact IH].
  rewrite (MoodFacts.mood_eqb_sym m x).
  destruct (mood_eqb x m); simpl; now rewrite IH.
Qed.

Lemma increment_map (f : nat -> Z) (i start n : nat) :
  increment (map f (seq start n)) i
  = map (fun w => f w + (if (w =? start + i)%nat then 1 else 0)) (seq start n).
Proof.
  revert i start. induction n as [| n IH]; intros i start.
  - destruct i; reflexivity.
  - cbn [seq map]. destruct i as [| i]; cbn [increment].
    + rewrite Nat.add_0_r, Nat.eqb_refl. f_equal.
      rewrite <- (map_id (map f (seq (S start) n))) at 1. rewrite map_map.
      apply map_ext_in. intros w Hw. apply in_seq in Hw.
      replace (w =? start)%nat with false by (symmetry; apply Nat.eqb_neq; lia).
      simpl. lia.
    + rewrite IH.
      replace (start =? start + S i)%nat with false
        by (symmetry; apply Nat.eqb_neq; lia).
      f_equal; [lia |]. apply map_ext. intros w.
      now replace (S start + i)%nat with (start + S i)%nat by lia.
Qed.

Lemma weekday_counts_snoc (done : list Entry.t) (e : Entry.t) (mood m : Mood) :
  Entry.mood e = Some mood ->
  weekday_counts (done ++ [e]) m
  = if mood_eqb mood m
    then increment (weekday_counts done m) (weekday (Entry.entry_date e))
    else weekday_counts done m.
Proof.
  intros Hmood. unfold weekday_counts.
  rewrite with_mood_app. unfold with_mood at 2. cbn [filter]. rewrite Hmood.
  destruct (mood_eqb mood m).
  - rewrite increment_map. apply map_ext. intros w.
    rewrite filter_app, length_app. cbn [filter]. rewrite Nat.add_0_l.
    destruct (weekday (Entry.entry_date e) =? w)%nat eqn:Hw.
    + apply Nat.eqb_eq in Hw. subst w. rewrite Nat.eqb_refl. simpl. lia.
    + rewrite Nat.eqb_sym, Hw. simpl. lia.
  - now rewrite app_nil_r.
Qed.

Lemma weekday_counts_none (done : list Entry.t) (m : Mood) :
  ~ In m (moods_of done) -> weekday_counts done m = repeat 0 7.
Proof.
  intros Hn. unfold weekday_counts. now rewrite (with_mood_none m done Hn).
Qed.

Lemma weekdays_counted_step (done : list Entry.t) (d : Dict.t Mood (list Z))
    (e : Entry.t) :
  weekdays_counted done d -> weekdays_counted (done ++ [e]) (weekday_step d e).
Proof.
  intros [Hkeys Hget]. unfold weekday_step, weekdays_counted.
  rewrite CalendarFacts.moods_of_app. cbn [moods_of].
  destruct (Entry.mood e) as [mood |] eqn:Hmood;
    [| rewrite app_nil_r; split; [exact Hkeys |];
       intros m Hm; rewrite (Hget m Hm); unfold weekday_counts;
       rewrite with_mood_app; unfold with_mood at 3; simpl; rewrite Hmood;
       now rewrite app_nil_r].
  cbv zeta. split.
  - rewrite keys_init_set, distinct_snoc, Hkeys. reflexivity.
  - intros m Hm.
    pose proof (get_init_set d mood m (repeat 0 7) []
                  (fun l => increment l (weekday (Entry.entry_date e)))) as Hg.
    cbv beta zeta in Hg. rewrite Hg. clear Hg.
    rewrite (weekday_counts_snoc done e mood m Hmood).
    destruct (mood_eqb mood m) eqn:Hmm.
    + apply MoodFacts.mood_eqb_eq in Hmm. subst m. f_equal.
      rewrite has_existsb, Hkeys.
      destruct (existsb (mood_eqb mood) (distinct [] (moods_of done))) eqn:Hin.
      * apply Hget. apply MoodFacts.existsb_mood_In in Hin.
        apply MoodFacts.in_distinct in Hin. tauto.
      * symmetry. apply weekday_counts_none. intros Hin'.
        assert (Ht : existsb (mood_eqb mood) (distinct [] (moods_of done)) = true).
        { apply MoodFacts.existsb_mood_In. apply MoodFacts.in_distinct.
          split; [exact Hin' | intros []]. }
        congruence.
    + apply Hget. apply in_app_or in Hm. destruct Hm as [Hm | [Hm | []]];
        [exact Hm |].
      subst m. rewrite MoodFacts.mood_eqb_refl in Hmm. discriminate.
Qed.

Lemma words_listed_step (done : list Entry.t) (d : Dict.t Mood (list Z))
    (e : Entry.t) :
  words_listed done d -> words_listed (done ++ [e]) (word_step d e).
Proof.
  intros [Hkeys Hget]. unfold word_step, words_listed.
  rewrite CalendarFacts.moods_of_app. cbn [moods_of].
  destruct (Entry.mood e) as [mood |] eqn:Hmood;
    [| rewrite app_nil_r; split; [exact Hkeys |];
       intros m Hm; rewrite (Hget m Hm);
       rewrite with_mood_app; unfold with_mood at 3; simpl; rewrite Hmood;
       now rewrite app_nil_r].
  cbv zeta. split.
  - rewrite keys_init_set, distinct_snoc, Hkeys. reflexivity.
  - intros m Hm.
    pose proof (get_init_set d mood m [] []
                  (fun l => l ++ [Entry.word_count e])) as Hg.
    cbv beta zeta in Hg. rewrite Hg. clear Hg.
    rewrite with_mood_app, map_app. unfold with_mood at 2. cbn [filter].
    rewrite Hmood.
    destruct (mood_eqb mood m) eqn:Hmm.
    + apply MoodFacts.mood_eqb_eq in Hmm. subst m. cbn [map]. f_equal.
      rewrite has_existsb, Hkeys.
      destruct (existsb (mood_eqb mood) (distinct [] (moods_of done))) eqn:Hin.
      * apply Hget. apply MoodFacts.existsb_mood_In in Hin.
        apply MoodFacts.in_distinct in Hin. tauto.
      * rewrite with_mood_none; [reflexivity |]. intros Hin'.
        assert (Ht : existsb (mood_eqb mood) (distinct [] (moods_of done)) = true).
        { apply MoodFacts.existsb_mood_In. apply MoodFacts.in_distinct.
          split; [exact Hin' | intros []]. }
        congruence.
    + cbn [map]. rewrite app_nil_r.
      apply Hget. apply in_app_or in Hm. destruct Hm as [Hm | [Hm | []]];
        [exact Hm |].
      subst m. rewrite MoodFacts.mood_eqb_refl in Hmm. discriminate.
Qed.

Lemma loop_fold (inv : list Entry.t -> Dict.t Mood (list Z) -> Prop)
    (step : Dict.t Mood (list Z) -> Entry.t -> Dict.t Mood (list Z)) :
  (forall done d e, inv done d -> inv (done ++ [e]) (step d e)) ->
  forall es done d, inv done d -> inv (done ++ es) (fold_left step es d).
Proof.
  intros Hstep es. induction es as [| e es IH]; intros done d Hinv.
  - simpl. now rewrite app_nil_r.
  - simpl. replace (done ++ e :: es) with ((done ++ [e]) ++ es)
      by (rewrite <- app_assoc; reflexivity).
    apply IH. now apply Hstep.
Qed.

Lemma NoDup_distinct (s l : list Mood) : NoDup (distinct s l).
Proof.
  revert s. induction l as [| m l IH]; intros s; simpl; [constructor |].
  destruct (existsb (mood_eqb m) s); [apply IH |].
  constructor; [| apply IH].
  intros Hin. apply MoodFacts.in_distinct in Hin. destruct Hin as [_ Hn].
  apply Hn. now left.
Qed.

(** A loop that builds a dict from the bindings of a dict without two
    bindings of a key: [for k, v in l.items(): acc[k] = g(v)]. *)
Lemma values_fold {V W : Type} (g : V -> W) (l : Dict.t Mood V)
    (acc : Dict.t Mood W) (v0 : V) (default : W) :
  NoDup (Dict.keys l) ->
  (forall m, In m (Dict.keys l) -> ~ In m (Dict.keys acc)) ->
  let made :=
    fold_left (fun acc item => Dict.set mood_eqb acc (fst item) (g (snd item)))
      l acc in
  Dict.keys made = Dict.keys acc ++ Dict.keys l
  /\ forall m,
       Dict.get mood_eqb made m default
       = if existsb (mood_eqb m) (Dict.keys l)
         then g (Dict.get mood_eqb l m v0)
         else Dict.get mood_eqb acc m default.
Proof.
  revert acc. induction l as [| [k v] l IH]; intros acc Hnd Hfresh; cbn zeta.
  - simpl. split; [now rewrite app_nil_r | reflexivity].
  - cbn [fold_left fst snd].
    unfold Dict.keys in Hnd. cbn [map fst] in Hnd.
    inversion Hnd as [| x xs Hk Hnd']. subst.
    assert (Hnew : existsb (mood_eqb k) (Dict.keys acc) = false).
    { apply not_true_is_false. intros Ht.
      apply MoodFacts.existsb_mood_In in Ht.
      apply (Hfresh k); [now left | exact Ht]. }
    destruct (IH (Dict.set mood_eqb acc k (g v)) Hnd') as [Hkeys Hget].
    { intros m Hm Hin. rewrite MoodFacts.keys_set, Hnew in Hin.
      apply in_app_or in Hin. destruct Hin as [Hin | [Hin | []]].
      - apply (Hfresh m); [now right | exact Hin].
      - subst m. now apply Hk. }
    split.
    + rewrite Hkeys, MoodFacts.keys_set, Hnew, <- app_assoc. reflexivity.
    + intros m. rewrite Hget. unfold Dict.keys. cbn [map fst existsb Dict.get].
      fold (Dict.keys l).
      destruct (existsb (mood_eqb m) (Dict.keys l)) eqn:Hin.
      * rewrite orb_true_r.
        replace (mood_eqb k m) with false; [reflexivity |].
        symmetry. apply MoodFacts.mood_eqb_neq. intros ->.
        apply MoodFacts.existsb_mood_In in Hin. now apply Hk.
      * rewrite orb_false_r, MoodFacts.get_set, (MoodFacts.mood_eqb_sym m k).
        now destruct (mood_eqb k m).
Qed.

Lemma sum_from (l : list Z) (a : Z) : fold_left Z.add l a = a + sum l.
Proof.
  unfold sum. revert a. induction l as [| x l IH]; intros a; simpl; [lia |].
  rewrite (IH (a + x)), (IH x). lia.
Qed.

Lemma sum_cons (x : Z) (l : list Z) : sum (x :: l) = x + sum l.
Proof. unfold sum at 1. simpl. apply sum_from. Qed.

Lemma sum_map_add {A : Type} (f g : A -> Z) (l : list A) :
  sum (map (fun w => f w + g w) l) = sum (map f l) + sum (map g l).
Proof.
  induction l as [| a l IH]; [reflexivity |].
  cbn [map]. rewrite !sum_cons, IH. lia.
Qed.

Lemma sum_one (i start n : nat) :
  sum (map (fun w => if (i =? w)%nat then 1 else 0) (seq start n))
  = if ((start <=? i) && (i <? start + n))%nat then 1 else 0.
Proof.
  revert start. induction n as [| n IH]; intros start.
  - simpl. destruct (start <=? i)%nat eqn:H1; simpl; [| reflexivity].
    replace (i <? start + 0)%nat with false; [reflexivity |].
    symmetry. apply Nat.ltb_ge. apply Nat.leb_le in H1. lia.
  - cbn [seq map]. rewrite sum_cons, IH.
    destruct (i =? start)%nat eqn:His.
    + apply Nat.eqb_eq in His. subst i.
      replace (S start <=? start)%nat with false
        by (symmetry; apply Nat.leb_gt; lia).
      rewrite Nat.leb_refl.
      replace (start <? start + S n)%nat with true
        by (symmetry; apply Nat.ltb_lt; lia).
      reflexivity.
    + apply Nat.eqb_neq in His.
      destruct (start <=? i)%nat eqn:H1; destruct (S start <=? i)%nat eqn:H2;
        destruct (i <? start + S n)%nat eqn:H3;
        destruct (i <? S start + n)%nat eqn:H4; simpl; try reflexivity;
        repeat match goal with
               | H : (_ <=? _)%nat = true |- _ => apply Nat.leb_le in H
               | H : (_ <=? _)%nat = false |- _ => apply Nat.leb_gt in H
               | H : (_ <? _)%nat = true |- _ => apply Nat.ltb_lt in H
               | H : (_ <? _)%nat = false |- _ => apply Nat.ltb_ge in H
               end; lia.
Qed.

(** The seven counts of a mood add up to the number of its entries. *)
Lemma sum_weekday_counts (es : list Entry.t) (m : Mood) :
  sum (weekday_counts es m) = Z.of_nat (List.length (with_mood m es)).
Proof.
  unfold weekday_counts. induction (with_mood m es) as [| e l IH].
  - reflexivity.
  - rewrite (map_ext _
               (fun w =>
                  (if (weekday (Entry.entry_date e) =? w)%nat then 1 else 0)
                  + Z.of_nat
                      (List.length
                         (filter (fun e => (weekday (Entry.entry_date e) =? w)%nat) l)))).
    + rewrite sum_map_add, IH, sum_one.
      assert (Hw : (weekday (Entry.entry_date e) < 7)%nat).
      { unfold weekday.
        pose proof (Z.mod_pos_bound (Entry.entry_date e + 6) 7 ltac:(lia)). lia. }
      replace ((0 <=? weekday (Entry.entry_date e))
               && (weekday (Entry.entry_date e) <? 0 + 7))%nat with true.
      * cbn [List.length]. lia.
      * symmetry. apply andb_true_iff.
        split; [now apply Nat.leb_le, Nat.le_0_l | now apply Nat.ltb_lt].
    + intros w. cbn [filter].
      destruct (weekday (Entry.entry_date e) =? w)%nat; cbn [List.length]; lia.
Qed.

(** The correlations, in terms of the entries that the search gives, in
    its order. *)
Lemma correlations_of_the_entries `{Runtime} (env : Env) (st : Store)
    (user_id : option Z) :
  let es := correlation_entries env st user_id in
  match get_mood_correlations env st user_id with
  | None => es = []
  | Some c =>
      es <> []
      /\ weekdays c
         = ["Monday"; "Tuesday"; "Wednesday"; "Thursday"; "Friday"; "Saturday";
            "Sunday"]%string
      /\ Dict.keys (mood_weekday_distribution c) = distinct [] (moods_of es)
      /\ Dict.keys (mood_avg_words c) = distinct [] (moods_of es)
      /\ NoDup (distinct [] (moods_of es))
      /\ forall m,
           In m (moods_of es) ->
           Dict.get mood_eqb (mood_weekday_distribution c) m [] = weekday_counts es m
           /\ List.length (weekday_counts es m) = 7%nat
           /\ sum (weekday_counts es m) = occurrences m (moods_of es)
           /\ 0 < occurrences m (moods_of es)
           /\ Dict.get mood_eqb (mood_avg_words c) m (Int 0)
              = average (map Entry.word_count (with_mood m es))
  end.
Proof.
  intros es. unfold get_mood_correlations. fold es.
  destruct es as [| e0 l] eqn:Hes; [reflexivity |]. rewrite <- Hes.
  cbn [mood_weekday_distribution mood_avg_words weekdays].
  split; [rewrite Hes; discriminate |]. split; [reflexivity |].
  pose proof (loop_fold weekdays_counted weekday_step weekdays_counted_step
                es [] []) as Hweek.
  pose proof (loop_fold words_listed word_step words_listed_step es [] [])
    as Hwords.
  cbn [app] in Hweek, Hwords.
  destruct Hweek as [Hwkeys Hwget]; [split; [reflexivity | intros m []] |].
  destruct Hwords as [Hkeys Hget]; [split; [reflexivity | intros m []] |].
  destruct (values_fold average (fold_left word_step es []) [] [] (Int 0))
    as [Hakeys Haget].
  { rewrite Hkeys. apply NoDup_distinct. }
  { intros m _ []. }
  split; [exact Hwkeys |].
  split; [rewrite Hakeys, Hkeys; reflexivity |].
  split; [apply NoDup_distinct |].
  intros m Hm.
  split; [now apply Hwget |].
  split; [unfold weekday_counts; now rewrite length_map, length_seq |].
  split; [rewrite sum_weekday_counts; apply with_mood_length |].
  split.
  - unfold occurrences.
    assert (Hin : In m (filter (mood_eqb m) (moods_of es))).
    { apply filter_In. split; [exact Hm | apply MoodFacts.mood_eqb_refl]. }
    destruct (filter (mood_eqb m) (moods_of es)); [contradiction |].
    simpl List.length. lia.
  - rewrite Haget, Hkeys.
    replace (existsb (mood_eqb m) (distinct [] (moods_of es))) with true.
    + now rewrite Hget.
    + symmetry. apply MoodFacts.existsb_mood_In. apply MoodFacts.in_distinct.
      split; [exact Hm | intros []].
Qed.

(** *** The correlations and the store *)

Lemma insert_ordered_permutation (e : Entry.t) (l : list Entry.t) :
  Permutation (insert_ordered e l) (e :: l).
Proof.
  induction l as [| x l IH]; [apply Permutation_refl |].
  cbn [insert_ordered]. destruct (before e x); [apply Permutation_refl |].
  apply Permutation_trans with (x :: e :: l);
    [now apply perm_skip | apply perm_swap].
Qed.

(** A search gives the entries of the store that its domain takes, in
    another order. *)
Lemma search_permutation (st : Store) (domain : Entry.t -> bool) :
  Permutation (search st domain) (filter domain (entries st)).
Proof.
  unfold search. induction (filter domain (entries st)) as [| e l IH];
    [apply Permutation_refl |].
  cbn [fold_right].
  apply Permutation_trans with (e :: fold_right insert_ordered [] l);
    [apply insert_ordered_permutation | now apply perm_skip].
Qed.

Lemma filter_permutation {A : Type} (p : A -> bool) (l l' : list A) :
  Permutation l l' -> Permutation (filter p l) (filter p l').
Proof.
  induction 1 as [| x l l' _ IH | x y l | l l' l'' _ IH1 _ IH2].
  - apply Permutation_refl.
  - cbn [filter]. destruct (p x); [now apply perm_skip | exact IH].
  - cbn [filter]. destruct (p x), (p y);
      try apply Permutation_refl; apply perm_swap.
  - now apply Permutation_trans with (filter p l').
Qed.

Lemma sum_permutation (l l' : list Z) : Permutation l l' -> sum l = sum l'.
Proof.
  induction 1 as [| x l l' _ IH | x y l | l l' l'' _ IH1 _ IH2].
  - reflexivity.
  - rewrite !sum_cons. lia.
  - rewrite !sum_cons. lia.
  - congruence.
Qed.

Lemma sum_fold_right (l : list Z) : sum l = fold_right Z.add 0 l.
Proof.
  induction l as [| x l IH]; [reflexivity |].
  rewrite sum_cons, IH. reflexivity.
Qed.

(** The entries with the mood [m] that the search gives are the entries
    of the store that are of the user and have this mood, in another
    order. *)
Lemma with_mood_of_the_store (env : Env) (st : Store) (user_id : option Z)
    (m : Mood) :
  Permutation (with_mood m (correlation_entries env st user_id))
    (entries_of st (user_or_self env user_id) m).
Proof.
  unfold correlation_entries, with_mood. cbv zeta.
  eapply Permutation_trans;
    [apply filter_permutation, search_permutation |].
  unfold entries_of.
  induction (entries st) as [| e l IH]; [apply Permutation_refl |].
  cbn [filter]. unfold has_mood at 1.
  destruct (Entry.user_id e =? user_or_self env user_id); cbn [andb];
    [| exact IH].
  destruct (Entry.mood e) as [x |] eqn:Hmood; [| exact IH].
  cbn [filter]. rewrite Hmood.
  destruct (mood_eqb x m); [now apply perm_skip | exact IH].
Qed.

Lemma with_mood_some (m : Mood) (l : list Entry.t) :
  In m (moods_of l) <-> with_mood m l <> [].
Proof.
  split.
  - intros Hin Hnil.
    assert (Hocc : 0 < occurrences m (moods_of l)).
    { unfold occurrences.
      assert (Hm : In m (filter (mood_eqb m) (moods_of l)))
        by (apply filter_In; split; [exact Hin | apply MoodFacts.mood_eqb_refl]).
      destruct (filter (mood_eqb m) (moods_of l)); [contradiction |].
      cbn [List.length]. lia. }
    rewrite <- with_mood_length, Hnil in Hocc. simpl in Hocc. lia.
  - intros Hsome.
    destruct (MoodFacts.in_moods_dec m (moods_of l)) as [Hin | Hout];
      [exact Hin |].
    exfalso. apply Hsome. now apply with_mood_none.
Qed.

Lemma permutation_of_nil {A : Type} (l l' : list A) :
  Permutation l l' -> l = [] <-> l' = [].
Proof.
  intros Hp. split; intros ->.
  - now apply Permutation_nil.
  - now apply Permutation_nil, Permutation_sym.
Qed.

(** X16.  The correlations count every mood of the user, in terms of the
    entries of the store.  The empty dict is returned exactly when the
    store has no entry of the user with a mood.  Otherwise [weekdays] is
    the list of the days from Monday; the moods of the averages are those
    of the weekday distribution, each once; a mood is among them exactly
    when the store has an entry of the user with it; the distribution of
    such a mood has seven counts, one for each day of the week from
    Monday, each the number of the user's entries with the mood dated on
    that day, and they add up to the number of these entries; the average
    of the mood is the sum of the word counts of these entries over their
    number, rounded to two decimals. *)
Theorem correlations_count_each_mood `{Runtime} (env : Env) (st : Store)
    (user_id : option Z) :
  let user := user_or_self env user_id in
  (get_mood_correlations env st user_id = None
   <-> forall e, In e (entries st) -> Entry.user_id e = user -> Entry.mood e = None)
  /\ forall c,
       get_mood_correlations env st user_id = Some c ->
       weekdays c
       = ["Monday"; "Tuesday"; "Wednesday"; "Thursday"; "Friday"; "Saturday";
          "Sunday"]%string
       /\ NoDup (Dict.keys (mood_weekday_distribution c))
       /\ Dict.keys (mood_avg_words c) = Dict.keys (mood_weekday_distribution c)
       /\ forall m,
            (In m (Dict.keys (mood_weekday_distribution c))
             <-> entries_of st user m <> [])
            /\ (entries_of st user m <> [] ->
                Dict.get mood_eqb (mood_weekday_distribution c) m []
                = map
                    (fun w =>
                       Z.of_nat
                         (List.length
                            (filter
                               (fun e => Nat.eqb (weekday (Entry.entry_date e)) w)
                               (entries_of st user m))))
                    (seq 0 7)
                /\ fold_right Z.add 0
                     (Dict.get mood_eqb (mood_weekday_distribution c) m [])
                   = Z.of_nat (List.length (entries_of st user m))
                /\ Dict.get mood_eqb (mood_avg_words c) m (Int 0)
                   = Float
                       (round2
                          (inject_Z
                             (fold_right Z.add 0%Z
                                (map Entry.word_count (entries_of st user m)))
                           / inject_Z
                               (Z.of_nat (List.length (entries_of st user m))))%Q)).
Proof.
  intros user.
  pose proof (correlations_of_the_entries env st user_id) as Hes.
  cbv zeta in Hes.
  set (es := correlation_entries env st user_id) in Hes.
  assert (Hempty : es = []
                   <-> forall e, In e (entries st) ->
                                 Entry.user_id e = user -> Entry.mood e = None).
  { unfold es, correlation_entries. cbv zeta. fold user.
    rewrite (permutation_of_nil _ _ (search_permutation st _)).
    split.
    - intros Hnil e Hin Hu.
      assert (Hout : ~ In e (filter
                               (fun e => (Entry.user_id e =? user) && has_mood e)
                               (entries st)))
        by (rewrite Hnil; intros []).
      rewrite filter_In in Hout. unfold has_mood in Hout.
      destruct (Entry.mood e); [| reflexivity].
      exfalso. apply Hout. split; [exact Hin |].
      apply andb_true_iff. split; [now apply Z.eqb_eq | reflexivity].
    - intros Hnone.
      induction (entries st) as [| e l IH]; [reflexivity |].
      cbn [filter]. unfold has_mood at 1.
      destruct (Z.eqb_spec (Entry.user_id e) user) as [Hu | Hu]; cbn [andb].
      + rewrite (Hnone e (or_introl eq_refl) Hu).
        apply IH. intros x Hx. apply Hnone. now right.
      + apply IH. intros x Hx. apply Hnone. now right. }
  split.
  - destruct (get_mood_correlations env st user_id) as [c |].
    + destruct Hes as [Hsome _]. split; [discriminate |].
      intros Hnone. exfalso. now apply Hsome, Hempty.
    + split; [intros _; now apply Hempty | reflexivity].
  - intros c Hc. rewrite Hc in Hes.
    destruct Hes as (_ & Hdays & Hwkeys & Hakeys & Hnodup & Hmoods).
    split; [exact Hdays |].
    split; [now rewrite Hwkeys |].
    split; [now rewrite Hwkeys, Hakeys |].
    intros m.
    pose proof (with_mood_of_the_store env st user_id m) as Hperm.
    fold es user in Hperm.
    assert (Hin : In m (Dict.keys (mood_weekday_distribution c))
                  <-> entries_of st user m <> []).
    { rewrite Hwkeys, MoodFacts.in_distinct, with_mood_some.
      rewrite (permutation_of_nil _ _ Hperm). tauto. }
    split; [exact Hin |].
    intros Hsome. apply Hin in Hsome.
    rewrite Hwkeys, MoodFacts.in_distinct in Hsome. destruct Hsome as [Hm _].
    destruct (Hmoods m Hm) as (Hget & _ & Hsum & _ & Havg).
    assert (Hcounts :
              weekday_counts es m
              = map
                  (fun w =>
                     Z.of_nat
                       (List.length
                          (filter
                             (fun e => Nat.eqb (weekday (Entry.entry_date e)) w)
                             (entries_of st user m))))
                  (seq 0 7)).
    { unfold weekday_counts. apply map_ext. intros w. f_equal.
      apply Permutation_length. now apply filter_permutation. }
    split; [now rewrite Hget |].
    split.
    + rewrite Hget, <- sum_fold_right, Hsum, <- with_mood_length. f_equal.
      now apply Permutation_length.
    + rewrite Havg. unfold average. cbn [Num.round].
      rewrite length_map, <- sum_fold_right.
      rewrite (sum_permutation _ _
                 (Permutation_map Entry.word_count Hperm)).
      now rewrite (Permutation_length Hperm).
Qed.

(** The correlations of the user 7 in the diary. *)
Lemma correlations_count_each_mood_witness :
  exists c,
    get_mood_correlations (H := one_word_runtime) Example.env MoodExample.diary
      (Some 7) = Some c
    /\ Dict.keys (mood_avg_words c) = Dict.keys (mood_weekday_distribution c).
Proof.
  eexists. split; [reflexivity |].
  destruct (correlations_count_each_mood (H := one_word_runtime) Example.env
              MoodExample.diary (Some 7)) as [_ Hsome].
  destruct (Hsome _ eq_refl) as (_ & _ & Hkeys & _).
  exact Hkeys.
Defined.

(** The correlations of the diary: of the user 7, and of the user 8, who
    has no entry with a mood. *)
Example correlations_of_the_diary :
  get_mood_correlations (H := one_word_runtime) Example.env MoodExample.diary
    (Some 7)
  = Some
      (mk [(sad, Float (2 # 2)); (happy, Float (2 # 2)); (tired, Float 1)]
          [(sad, [("Diary", 2)]); (happy, [("Diary", 2)]); (tired, [("Diary", 1)])]
          [(sad, [0; 0; 0; 1; 0; 0; 1]); (happy, [0; 0; 0; 0; 1; 1; 0]);
           (tired, [0; 0; 0; 0; 0; 1; 0])]
          ["Monday"; "Tuesday"; "Wednesday"; "Thursday"; "Friday"; "Saturday";
           "Sunday"]%string)
  /\ get_mood_correlations (H := one_word_runtime) Example.env MoodExample.diary
       (Some 8) = None.
Proof. split; vm_compute; reflexivity. Qed.

End CorrelationFacts.

(** ** The statistics: counts and percentages *)

Module StatisticsFacts.
Import MoodAnalysis.
Import MoodSpec TimelineSpec StatisticsSpec.
Local Open Scope list_scope.






End StatisticsFacts.

(** ** The search by name *)

Module SearchFacts.
Import NameSearch SearchSpec.
Local Open Scope list_scope.

Lemma fold_add_term (args : list element) (terms : list string)
    (domain : list element) :
  fold_left (add_term args) terms domain
  = fold_left (add_term args) (filter (fun term => 2 <? Py.len term) terms) domain.
Proof.
  revert domain. induction terms as [| t terms IH]; intros domain; [reflexivity |].
  cbn [fold_left filter]. unfold add_term at 2.
  destruct (2 <? Py.len t) eqn:Hlen.
  - cbn [fold_left]. unfold add_term at 3. rewrite Hlen. apply IH.
  - apply IH.
Qed.

Lemma term_domain_reads (holds : string -> string -> string -> bool)
    (term : string) :
  reads_as holds (term_domain term) (has_term holds term).
Proof. intros stack. reflexivity. Qed.

Lemma and_reads (holds : string -> string -> string -> bool)
    (d1 d2 : list element) (v1 v2 : bool) :
  reads_as holds d1 v1 -> reads_as holds d2 v2 ->
  reads_as holds ([And] ++ d1 ++ d2) (v1 && v2).
Proof.
  intros H1 H2 stack. cbn [app fold_right].
  rewrite fold_right_app, H2, H1. reflexivity.
Qed.

Lemma reads_not_nil (holds : string -> string -> string -> bool)
    (domain : list element) (v : bool) :
  reads_as holds domain v -> domain_eqb domain [] = false.
Proof.
  intros Hr. destruct domain; [| reflexivity].
  specialize (Hr []). discriminate.
Qed.

Lemma more_terms_read (holds : string -> string -> string -> bool)
    (terms : list string) (domain : list element) (v : bool) :
  forallb (fun term => 2 <? Py.len term) terms = true ->
  reads_as holds domain v ->
  reads_as holds (fold_left (add_term []) terms domain)
    (v && forallb (has_term holds) terms).
Proof.
  revert domain v. induction terms as [| t terms IH]; intros domain v Hlen Hr.
  - simpl. now rewrite andb_true_r.
  - cbn [forallb] in Hlen. apply andb_true_iff in Hlen. destruct Hlen as [Ht Hlen].
    cbn [fold_left forallb]. rewrite andb_assoc. apply IH; [exact Hlen |].
    unfold add_term. rewrite Ht, (reads_not_nil holds domain v Hr).
    apply and_reads; [exact Hr | apply term_domain_reads].
Qed.

Lemma element_eqb_refl (x : element) : element_eqb x x = true.
Proof. destruct x; simpl; try reflexivity. now rewrite !String.eqb_refl. Qed.

Lemma domain_eqb_refl (d : list element) : domain_eqb d d = true.
Proof.
  induction d as [| x d IH]; simpl; [reflexivity |].
  now rewrite element_eqb_refl, IH.
Qed.

(** X18.  The search by a name that is not empty asks for every term of
    more than two characters, and for nothing else.  Without [args] the
    domain is met by a record exactly when the record has each of these
    terms in its title, its content, a tag, its notebook or its search
    vector: a name of short terms only is met by every record.  With
    [args], the first of these terms takes the place of [args] in the
    domain, which is [args] only when no term is searched. *)
Theorem search_by_name_asks_for_every_long_term `{Runtime} (name : string)
    (args : list element) (holds : string -> string -> string -> bool) :
  name <> ""%string ->
  exists without_args with_args,
    _name_search name [] = Some without_args
    /\ matches holds without_args = forallb (has_term holds) (searched_terms name)
    /\ _name_search name args = Some with_args
    /\ with_args
       = match searched_terms name with
         | [] => args
         | term :: rest => fold_left (add_term args) rest (term_domain term)
         end.
Proof.
  intros Hname.
  assert (Htr : Py.truthy name = true) by (destruct name; [congruence | reflexivity]).
  unfold _name_search. rewrite Htr. cbv zeta.
  rewrite (fold_add_term [] (str_split (str_strip name)) []).
  rewrite (fold_add_term args (str_split (str_strip name)) args).
  fold (searched_terms name).
  assert (Hlong : forallb (fun term => 2 <? Py.len term) (searched_terms name) = true).
  { apply forallb_forall. intros t Ht. unfold searched_terms in Ht.
    apply filter_In in Ht. tauto. }
  eexists. eexists. split; [reflexivity |]. split; [| split; [reflexivity |]].
  - destruct (searched_terms name) as [| term rest]; [reflexivity |].
    cbn [forallb] in Hlong. apply andb_true_iff in Hlong.
    destruct Hlong as [Hterm Hrest].
    cbn [fold_left]. unfold add_term at 2. rewrite Hterm. cbn [domain_eqb].
    unfold matches.
    rewrite (more_terms_read holds rest (term_domain term) (has_term holds term)
               Hrest (term_domain_reads holds term) []).
    cbn [forallb]. now rewrite andb_true_r.
  - destruct (searched_terms name) as [| term rest]; [reflexivity |].
    cbn [forallb] in Hlong. apply andb_true_iff in Hlong.
    destruct Hlong as [Hterm _].
    cbn [fold_left]. unfold add_term at 2.
    now rewrite Hterm, domain_eqb_refl.
Qed.

Lemma search_by_name_asks_for_every_long_term_witness :
  exists without_args with_args,
    _name_search (H := words_runtime) "my trip to Rome" [] = Some without_args
    /\ matches (fun _ _ value => String.eqb value "trip") without_args
       = forallb (has_term (fun _ _ value => String.eqb value "trip"))
           (searched_terms (H := words_runtime) "my trip to Rome")
    /\ _name_search (H := words_runtime) "my trip to Rome"
         [Leaf "state" "=" "draft"] = Some with_args
    /\ with_args
       = fold_left (add_term [Leaf "state" "=" "draft"]) ["Rome"%string]
           (term_domain "trip").
Proof.
  apply (search_by_name_asks_for_every_long_term (H := words_runtime)
           "my trip to Rome" [Leaf "state" "=" "draft"]
           (fun _ _ value => String.eqb value "trip")).
  discriminate.
Defined.

End SearchFacts.

(** ** Texts: escaping, tags, previews, times *)

Module TextFacts.
Import TextSpec.
Local Open Scope string_scope.
Local Open Scope Z_scope.

Lemma contains_char_app (c : ascii) (a b : string) :
  Py.contains_char c (a ++ b) = Py.contains_char c a || Py.contains_char c b.
Proof.
  induction a as [| d a IH]; simpl; [reflexivity |].
  now rewrite IH, orb_assoc.
Qed.

Lemma prefix_empty (s : string) : String.prefix "" s = true.
Proof. now destruct s. Qed.

(** The replacement of one character. *)
Lemma replace_char (c0 : ascii) (new : string) (c : ascii) (t : string) :
  Py.replace_from (String c0 "") new 0 (String c t)
  = (if Ascii.eqb c0 c then new else String c "")
    ++ Py.replace_from (String c0 "") new 0 t.
Proof.
  cbn [Py.replace_from String.prefix String.length Nat.pred].
  destruct (ascii_dec c0 c) as [-> | Hne].
  - now rewrite prefix_empty, Ascii.eqb_refl.
  - replace (Ascii.eqb c0 c) with false; [reflexivity |].
    symmetry. now apply Ascii.eqb_neq.
Qed.

Lemma replaced_is_gone (c0 : ascii) (new s : string) :
  Py.contains_char c0 new = false ->
  Py.contains_char c0 (Py.replace s (String c0 "") new) = false.
Proof.
  intros Hnew. unfold Py.replace.
  induction s as [| c t IH]; [reflexivity |].
  rewrite replace_char, contains_char_app, IH, orb_false_r.
  destruct (Ascii.eqb c0 c) eqn:Hc; [exact Hnew |].
  simpl. now rewrite Hc.
Qed.

Lemma replace_adds_none (c c0 : ascii) (new s : string) :
  Py.contains_char c new = false ->
  Py.contains_char c s = false ->
  Py.contains_char c (Py.replace s (String c0 "") new) = false.
Proof.
  intros Hnew. unfold Py.replace.
  induction s as [| d t IH]; [reflexivity |].
  cbn [Py.contains_char]. intros Hs. apply orb_false_iff in Hs.
  destruct Hs as [Hd Ht].
  rewrite replace_char, contains_char_app, (IH Ht), orb_false_r.
  destruct (Ascii.eqb c0 d); [exact Hnew |].
  simpl. now rewrite Hd.
Qed.

Lemma escape_has_no_markup (s : string) (c : ascii) :
  In c markup -> Py.contains_char c (Py.escape s) = false.
Proof.
  unfold markup, Py.escape. cbv zeta.
  set (s1 := Py.replace s "&" "&amp;").
  intros [<- | [<- | [<- | [<- | []]]]].
  - apply replace_adds_none; [reflexivity |].
    apply replace_adds_none; [reflexivity |].
    apply replace_adds_none; [reflexivity |].
    now apply replaced_is_gone.
  - apply replace_adds_none; [reflexivity |].
    apply replace_adds_none; [reflexivity |].
    now apply replaced_is_gone.
  - apply replace_adds_none; [reflexivity |].
    now apply (replaced_is_gone Py.DQ).
  - now apply replaced_is_gone.
Qed.

(** X19.  A line of the diff cannot leave its block.  Whatever the line,
    its block is one of the four openings, a text and the closing of the
    block, and the text holds none of the characters [<], [>], the double
    quote and the single quote. *)
Theorem diff_block_holds_no_markup (line : string) :
  exists opening text,
    In opening openings
    /\ JournalExportController.diff_block line = opening ++ text ++ "</div>"
    /\ forall c, In c markup -> Py.contains_char c text = false.
Proof.
  unfold JournalExportController.diff_block, openings.
  destruct (Py.startswith line "+");
    [| destruct (Py.startswith line "-");
       [| destruct (Py.startswith line "@")]];
    eexists; eexists;
    (split; [| split; [reflexivity | intros c Hc; now apply escape_has_no_markup]]);
    simpl; tauto.
Qed.

(** *** Tags *)

Lemma sub_tags_adds_no_close (inside : bool) (s : string) :
  Py.contains_char ">" s = false ->
  Py.contains_char ">" (Py.sub_tags_from "" inside s) = false.
Proof.
  revert inside. induction s as [| c t IH]; intros inside; [reflexivity |].
  cbn [Py.contains_char Py.sub_tags_from]. intros Hs.
  apply orb_false_iff in Hs. destruct Hs as [Hc Ht].
  rewrite Ascii.eqb_sym in Hc. rewrite Hc.
  destruct inside; [now apply IH |].
  destruct (Ascii.eqb c "<" && Py.tag_closes t).
  - now apply IH.
  - cbn [Py.contains_char]. rewrite Ascii.eqb_sym, Hc. now apply IH.
Qed.

Lemma tag_closes_after (t : string) :
  Py.tag_closes t = false ->
  Py.tag_closes (Py.sub_tags_from "" false t) = false.
Proof.
  destruct t as [| d t']; [reflexivity |].
  unfold Py.tag_closes at 1. intros Hclose.
  apply andb_false_iff in Hclose. destruct Hclose as [Hd | Hnone].
  - apply negb_false_iff in Hd. cbn [Py.sub_tags_from].
    apply Ascii.eqb_eq in Hd. subst d. simpl. reflexivity.
  - pose proof (sub_tags_adds_no_close false (String d t') Hnone) as Hout.
    unfold Py.tag_closes.
    destruct (Py.sub_tags_from "" false (String d t')); [reflexivity |].
    rewrite Hout. apply andb_false_r.
Qed.

Lemma sub_tags_settled (inside : bool) (s : string) :
  settled (Py.sub_tags_from "" inside s).
Proof.
  revert inside. induction s as [| c t IH]; intros inside; [exact I |].
  cbn [Py.sub_tags_from]. destruct inside.
  - destruct (Ascii.eqb c ">"); apply IH.
  - destruct (Ascii.eqb c "<") eqn:Hc; cbn [andb].
    + destruct (Py.tag_closes t) eqn:Hclose; [apply IH |].
      cbn [settled]. split; [| apply IH].
      intros _. now apply tag_closes_after.
    + cbn [settled]. split; [| apply IH].
      intros ->. discriminate.
Qed.

Lemma settled_is_kept (repl s : string) :
  settled s -> Py.sub_tags_from repl false s = s.
Proof.
  induction s as [| c t IH]; [reflexivity |].
  cbn [settled Py.sub_tags_from]. intros [Hopen Ht].
  destruct (Ascii.eqb c "<") eqn:Hc; cbn [andb].
  - apply Ascii.eqb_eq in Hc. rewrite (Hopen Hc). now rewrite IH.
  - now rewrite IH.
Qed.

(** X20.  Stripping the tags leaves no tag to strip.  In the text that the
    substitution of the tags by nothing gives, no [<] opens a tag, so that
    a second substitution, by whatever text, changes nothing. *)
Theorem stripping_tags_leaves_none (repl s : string) :
  settled (Py.sub_tags "" s)
  /\ Py.sub_tags repl (Py.sub_tags "" s) = Py.sub_tags "" s.
Proof.
  split; [apply sub_tags_settled |].
  apply settled_is_kept, sub_tags_settled.
Qed.

(** *** The preview of a version *)

Lemma len_nonneg (s : string) : 0 <= Py.len s.
Proof.
  induction s as [| c t IH]; cbn [Py.len]; [lia |].
  match goal with |- context [if ?b then _ else _] => destruct b end; lia.
Qed.

Lemma len_app (a b : string) : Py.len (a ++ b) = Py.len a + Py.len b.
Proof.
  induction a as [| c t IH]; [reflexivity |].
  cbn [append Py.len]. rewrite IH. lia.
Qed.

Lemma len_take (n : nat) (s : string) :
  Py.len (VersionPreview.take n s) = Z.min (Z.of_nat n) (Py.len s).
Proof.
  revert n. induction s as [| c t IH]; intros n.
  - destruct n; cbn [VersionPreview.take Py.len]; lia.
  - cbn [VersionPreview.take Py.len]. unfold VersionPreview.continues.
    pose proof (len_nonneg t) as Ht.
    destruct ((128 <=? nat_of_ascii c)%nat && (nat_of_ascii c <=? 191)%nat) eqn:Hc.
    + cbn [Py.len]. rewrite Hc, IH. lia.
    + destruct n as [| k].
      * cbn [Py.len]. lia.
      * cbn [Py.len]. rewrite Hc, IH. lia.
Qed.

Lemma take_is_a_prefix (n : nat) (s : string) :
  exists rest, s = VersionPreview.take n s ++ rest.
Proof.
  revert n. induction s as [| c t IH]; intros n; [now exists "" |].
  cbn [VersionPreview.take].
  destruct (VersionPreview.continues c).
  - destruct (IH n) as [rest Hrest]. exists rest. cbn [append]. now rewrite <- Hrest.
  - destruct n as [| k]; [now exists (String c t) |].
    destruct (IH k) as [rest Hrest]. exists rest. cbn [append]. now rewrite <- Hrest.
Qed.

(** X21.  The preview of a version whose content is not empty is the plain
    text of the content when the text has at most 100 characters;
    otherwise it is the first 100 characters of the text followed by three
    dots.  It never has more than 103 characters. *)
Theorem preview_is_cut_at_100_characters `{Tools} (content : string) :
  content <> "" ->
  let plain_text := html2plaintext content in
  let preview := VersionPreview._compute_preview content in
  (if 100 <? Py.len plain_text
   then exists cut rest,
          preview = cut ++ "..."
          /\ plain_text = cut ++ rest
          /\ Py.len cut = 100
          /\ Py.len preview = 103
   else preview = plain_text)
  /\ Py.len preview <= 103.
Proof.
  intros Hne. cbv zeta. unfold VersionPreview._compute_preview.
  destruct content as [| c t]; [congruence |].
  cbn [Py.truthy]. set (plain := html2plaintext (String c t)).
  destruct (100 <? Py.len plain) eqn:Hlong.
  - apply Z.ltb_lt in Hlong.
    assert (Hcut : Py.len (VersionPreview.take 100 plain) = 100)
      by (rewrite len_take; lia).
    destruct (take_is_a_prefix 100 plain) as [rest Hrest].
    split.
    + exists (VersionPreview.take 100 plain), rest.
      split; [reflexivity |]. split; [exact Hrest |]. split; [exact Hcut |].
      rewrite len_app, Hcut. reflexivity.
    + rewrite len_app, Hcut. cbn [Py.len]. simpl. lia.
  - apply Z.ltb_ge in Hlong. split; [reflexivity | lia].
Qed.

Lemma preview_is_cut_at_100_characters_witness :
  let plain_text := html2plaintext (Tools := plain_tools) "hello" in
  let preview := VersionPreview._compute_preview (H := plain_tools) "hello" in
  (if 100 <? Py.len plain_text
   then exists cut rest,
          preview = cut ++ "..."
          /\ plain_text = cut ++ rest
          /\ Py.len cut = 100
          /\ Py.len preview = 103
   else preview = plain_text)
  /\ Py.len preview <= 103.
Proof.
  apply (preview_is_cut_at_100_characters (H := plain_tools) "hello").
  discriminate.
Defined.

(** *** The age of a version *)

(** X22.  The age of a version made in the past reads the time that has
    gone by: under a minute it is now; under an hour it counts the full
    minutes, under a day the full hours, and from a day on the full
    days. *)
Theorem time_ago_counts_the_elapsed_time (env : Env) (create_date : Z) :
  0 <= now env - create_date ->
  let elapsed := now env - create_date in
  JournalEntryVersion._compute_time_ago env create_date
  = if elapsed <? 60 then "Just now"
    else if elapsed <? 3600 then Py.str_int (elapsed / 60) ++ " minutes ago"
    else if elapsed <? 86400 then Py.str_int (elapsed / 3600) ++ " hours ago"
    else Py.str_int (elapsed / 86400) ++ " days ago".
Proof.
  intros Hpast elapsed. unfold JournalEntryVersion._compute_time_ago.
  fold elapsed. cbv zeta.
  destruct (elapsed <? 86400) eqn:Hday.
  - apply Z.ltb_lt in Hday.
    rewrite (Z.div_small elapsed 86400), (Z.mod_small elapsed 86400)
      by (unfold elapsed; lia).
    cbn [Z.ltb Z.compare].
    destruct (elapsed <? 60) eqn:Hmin.
    + apply Z.ltb_lt in Hmin.
      replace (3600 <=? elapsed) with false by (symmetry; apply Z.leb_gt; lia).
      replace (60 <=? elapsed) with false by (symmetry; apply Z.leb_gt; lia).
      reflexivity.
    + apply Z.ltb_ge in Hmin.
      destruct (elapsed <? 3600) eqn:Hhour.
      * apply Z.ltb_lt in Hhour.
        replace (3600 <=? elapsed) with false by (symmetry; apply Z.leb_gt; lia).
        replace (60 <=? elapsed) with true by (symmetry; apply Z.leb_le; lia).
        reflexivity.
      * apply Z.ltb_ge in Hhour.
        replace (3600 <=? elapsed) with true by (symmetry; apply Z.leb_le; lia).
        reflexivity.
  - apply Z.ltb_ge in Hday.
    assert (Hdays : 0 < elapsed / 86400) by (apply Z.div_str_pos; lia).
    replace (0 <? elapsed / 86400) with true by (symmetry; now apply Z.ltb_lt).
    replace (elapsed <? 60) with false by (symmetry; apply Z.ltb_ge; lia).
    replace (elapsed <? 3600) with false by (symmetry; apply Z.ltb_ge; lia).
    reflexivity.
Qed.

Lemma time_ago_counts_the_elapsed_time_witness :
  JournalEntryVersion._compute_time_ago Example.env (5000 - 7300)
  = "2 hours ago".
Proof.
  apply (time_ago_counts_the_elapsed_time Example.env (5000 - 7300)).
  simpl. lia.
Defined.

End TextFacts.
